(** * Incident detection agent: detectors, profile parser and consolidation

    A shallow embedding of the Python sources [src/agent/models.py],
    [src/agent/parsers.py], [src/agent/detectors.py], [src/agent/report.py],
    of [Agent.run] in [src/agent/core.py] (the pipeline mode, and the
    conversion of the ReAct agent's answer in the agentic mode) and of the
    tools of [src/agent/tools.py] that run the detectors, followed by the
    properties of the detection and consolidation engine.  The loop of the
    ReAct agent and the calls of a language model are not part of the
    embedding.

    Conventions of the embedding.
    - A Python [str] is a [string] of bytes holding the UTF-8 encoding of the
      text.  The character classes [\d] and [\s] and the methods
      [str.isdigit], [str.strip] and [str.lower] are modelled on their ASCII
      range; where a statement depends on these classes it carries the
      hypothesis that the text is ASCII, or is about a text that is.
    - A Python [int] is a [Z]; a Python [float] is a [Q] carrying the exact
      decimal value that was parsed, and products of floats are exact
      (rounding to binary64 and the range of a float are not modelled; no
      statement below depends on the value of such a product).
    - A raised exception is the [Raise] branch of [result].
    - A [dict] that is only looked up is a [gmap]; a [dict] that is iterated
      is an association list in insertion order; a [set] is a [gset].
    - A [datetime.date] is its proleptic Gregorian ordinal, a naive
      [datetime.datetime] is an ordinal with the microsecond of the day.
      Weekday names are those of the C locale.
    - An f-string is kept as the list of its literal pieces and interpolated
      values. *)

From Stdlib Require Import ZArith QArith Ascii String List Bool Lia.
From stdpp Require Import base option list strings gmap.

Set Default Proof Using "Type".
Local Open Scope Z_scope.

(* ===================================================================== *)
(** * Part I: the embedding *)
(* ===================================================================== *)

(** ** Python runtime: exceptions *)

Module Py.

Inductive exn := ValueError | IndexError | OverflowError | FileNotFoundError.

Inductive result (A : Type) :=
| Ok (a : A)
| Raise (e : exn).
Global Arguments Ok {A} a.
Global Arguments Raise {A} e.

#[global] Instance result_ret : MRet result := fun A a => Ok a.
#[global] Instance result_bind : MBind result := fun A B f m =>
  match m with
  | Ok a => f a
  | Raise e => Raise e
  end.
#[global] Instance result_fmap : FMap result := fun A B f m =>
  match m with
  | Ok a => Ok (f a)
  | Raise e => Raise e
  end.

(** [try: m except Exception: h] *)
Definition try_except {A} (m : result A) (h : A) : A :=
  match m with
  | Ok a => a
  | Raise _ => h
  end.

#[global] Instance exn_eq_dec : EqDecision exn.
Proof. solve_decision. Defined.

(** Numbers held in the profile dictionaries: [int] or [float]. *)
Inductive number :=
| PyInt (z : Z)
| PyFloat (q : Q).

Definition num_Q (n : number) : Q :=
  match n with
  | PyInt z => inject_Z z
  | PyFloat q => q
  end.

(** [a < b], [a > b] and [a == b] on numbers. *)
Definition num_lt (a b : number) : bool :=
  negb (Qle_bool (num_Q b) (num_Q a)).
Definition num_gt (a b : number) : bool := num_lt b a.
Definition num_eq (a b : number) : bool := Qeq_bool (num_Q a) (num_Q b).
(** [a * b]: an [int] only when both factors are. *)
Definition num_mul (a b : number) : number :=
  match a, b with
  | PyInt x, PyInt y => PyInt (x * y)
  | _, _ => PyFloat (num_Q a * num_Q b)
  end.

End Py.
Export Py.

(** ** Python runtime: [str] methods *)

Module PyStr.

Definition is_digit (c : ascii) : bool :=
  let n := nat_of_ascii c in (48 <=? n)%nat && (n <=? 57)%nat.

(** ASCII characters for which [str.isspace] holds. *)
Definition is_space (c : ascii) : bool :=
  let n := nat_of_ascii c in
  ((9 <=? n)%nat && (n <=? 13)%nat) || ((28 <=? n)%nat && (n <=? 32)%nat).

Fixpoint all_chars (p : ascii → bool) (s : string) : bool :=
  match s with
  | EmptyString => true
  | String c s' => p c && all_chars p s'
  end.

(** [s.isdigit()] *)
Definition isdigit (s : string) : bool :=
  negb (String.eqb s "") && all_chars is_digit s.

(** [s.startswith(p)] *)
Fixpoint startswith (p s : string) : bool :=
  match p, s with
  | EmptyString, _ => true
  | String a p', String b s' => Ascii.eqb a b && startswith p' s'
  | String _ _, EmptyString => false
  end.

(** [needle in s] *)
Fixpoint contains (needle s : string) : bool :=
  startswith needle s ||
  match s with
  | EmptyString => false
  | String _ s' => contains needle s'
  end.

Fixpoint drop (n : nat) (s : string) : string :=
  match n, s with
  | O, _ => s
  | S n', String _ s' => drop n' s'
  | S _, EmptyString => EmptyString
  end.

Fixpoint take (n : nat) (s : string) : string :=
  match n, s with
  | S n', String c s' => String c (take n' s')
  | _, _ => EmptyString
  end.

Fixpoint lstrip (s : string) : string :=
  match s with
  | String c s' => if is_space c then lstrip s' else s
  | EmptyString => EmptyString
  end.

Fixpoint rstrip (s : string) : string :=
  match s with
  | String c s' =>
      let r := rstrip s' in
      if String.eqb r "" && is_space c then EmptyString else String c r
  | EmptyString => EmptyString
  end.

(** [s.strip()] *)
Definition strip (s : string) : string := rstrip (lstrip s).

(** The first piece of [s.split(sep)] and the remaining pieces.  [skip] counts
    the characters of a separator just matched that are still to be passed
    over.  [sep] is not empty. *)
Fixpoint split_go (sep : string) (skip : nat) (s : string) : string * list string :=
  match s with
  | EmptyString => (EmptyString, [])
  | String c s' =>
      match skip with
      | S k => split_go sep k s'
      | O =>
          if startswith sep s then
            let '(p, ps) := split_go sep (String.length sep - 1) s' in
            (EmptyString, p :: ps)
          else
            let '(p, ps) := split_go sep 0 s' in
            (String c p, ps)
      end
  end.

(** [s.split(sep)] *)
Definition split (sep s : string) : list string :=
  let '(p, ps) := split_go sep 0 s in p :: ps.

(** [s.split(sep, 1)] when [sep in s]: the text before and after the first
    occurrence. *)
Fixpoint split_once (sep s : string) : option (string * string) :=
  if startswith sep s then Some (EmptyString, drop (String.length sep) s)
  else
    match s with
    | EmptyString => None
    | String c s' =>
        match split_once sep s' with
        | Some (a, b) => Some (String c a, b)
        | None => None
        end
    end.

(** [s.replace(old, new)], [old] not empty. *)
Fixpoint replace_go (old new : string) (skip : nat) (s : string) : string :=
  match s with
  | EmptyString => EmptyString
  | String c s' =>
      match skip with
      | S k => replace_go old new k s'
      | O =>
          if startswith old s then new +:+ replace_go old new (String.length old - 1) s'
          else String c (replace_go old new 0 s')
      end
  end.
Definition replace (old new s : string) : string := replace_go old new 0 s.

(** [s.replace(old, new, 1)] *)
Definition replace1 (old new s : string) : string :=
  match split_once old s with
  | Some (a, b) => a +:+ new +:+ b
  | None => s
  end.

Definition lower_char (c : ascii) : ascii :=
  let n := nat_of_ascii c in
  if (65 <=? n)%nat && (n <=? 90)%nat then ascii_of_nat (n + 32) else c.

(** [s.lower()] *)
Fixpoint lower (s : string) : string :=
  match s with
  | EmptyString => EmptyString
  | String c s' => String (lower_char c) (lower s')
  end.

Definition digit_val (c : ascii) : Z := Z.of_nat (nat_of_ascii c) - 48.

(** Value of a run of decimal digits, most significant first. *)
Fixpoint digits_val (acc : Z) (s : string) : Z :=
  match s with
  | EmptyString => acc
  | String c s' => digits_val (10 * acc + digit_val c) s'
  end.

(** [int(s)] for a text of decimal digits; anything else that reaches it
    is rejected. *)
Definition int (s : string) : result Z :=
  if isdigit s then Ok (digits_val 0 s) else Raise ValueError.

(** [float(s)] on texts made of decimal digits and dots, the only ones the
    parser passes to it: digits with at most one dot and at least one
    digit denote their decimal value, every other such text raises
    [ValueError]. *)
Definition float (s : string) : result Q :=
  match split_once "." s with
  | None => if isdigit s then Ok (inject_Z (digits_val 0 s)) else Raise ValueError
  | Some (a, b) =>
      if all_chars is_digit a && all_chars is_digit b
         && negb (String.eqb (a +:+ b) "")
      then Ok (Qred (Qmake (digits_val 0 (a +:+ b)) (Z.to_pos (10 ^ Z.of_nat (String.length b)))))
      else Raise ValueError
  end.

End PyStr.

(** ** Python runtime: the [re] module

    A backtracking matcher with the priorities of Python's engine: a greedy
    repetition tries one more iteration before it tries to stop, a lazy one
    stops first, and [search] returns the match at the leftmost start.  The
    patterns of the sources use one capturing group at most. *)

Module Re.

Inductive regex :=
| Chr (p : ascii → bool)             (* one character of a class *)
| Cat (r1 r2 : regex)
| Star (greedy : bool) (r : regex)    (* [r*] and [r*?] *)
| Grp (r : regex)                     (* [( r )] *)
| Eos.                                (* [$] without MULTILINE *)

(** The result of a match: [group(0)] and [group(1)]. *)
Record rmatch := mk_rmatch { group0 : string; group1 : option string }.

Section Run.
Context {R : Type}.

(** [run r s cap k]: match [r] at the head of [s], then hand the rest of
    the text and the capture to the continuation [k]. *)
Fixpoint run (r : regex) (s : string) (cap : option string)
    (k : string → option string → option R) : option R :=
  match r with
  | Chr p =>
      match s with
      | String c s' => if p c then k s' cap else None
      | EmptyString => None
      end
  | Cat r1 r2 => run r1 s cap (λ s1 cap1, run r2 s1 cap1 k)
  | Star greedy r1 =>
      (fix loop (n : nat) (s : string) (cap : option string) : option R :=
         match n with
         | O => k s cap
         | S n' =>
             let more _ :=
               run r1 s cap (λ s1 cap1,
                 if (String.length s1 <? String.length s)%nat
                 then loop n' s1 cap1 else None) in
             if greedy then
               match more () with
               | Some x => Some x
               | None => k s cap
               end
             else
               match k s cap with
               | Some x => Some x
               | None => more ()
               end
         end) (String.length s) s cap
  | Grp r1 =>
      run r1 s cap (λ s1 _,
        k s1 (Some (PyStr.take (String.length s - String.length s1) s)))
  | Eos =>
      match s with
      | EmptyString => k s cap
      | String c EmptyString => if Ascii.eqb c "010" then k s cap else None
      | _ => None
      end
  end.
End Run.

(** [re.search(r, s)] *)
Fixpoint search (r : regex) (s : string) : option rmatch :=
  match run r s None (λ rest cap, Some (rest, cap)) with
  | Some (rest, cap) =>
      Some (mk_rmatch (PyStr.take (String.length s - String.length rest) s) cap)
  | None =>
      match s with
      | EmptyString => None
      | String _ s' => search r s'
      end
  end.

Definition chr (c : ascii) : regex := Chr (Ascii.eqb c).
(** [.] under [re.DOTALL] *)
Definition any : regex := Chr (λ _, true).
(** [\d] and [\s] *)
Definition digit : regex := Chr PyStr.is_digit.
Definition space : regex := Chr PyStr.is_space.
(** [r+] *)
Definition plus (r : regex) : regex := Cat r (Star true r).
(** [r{n}], [n] at least 1 *)
Fixpoint rep (n : nat) (r : regex) : regex :=
  match n with
  | O | S O => r
  | S n' => Cat r (rep n' r)
  end.
(** A literal text, not empty. *)
Fixpoint lit (s : string) : regex :=
  match s with
  | EmptyString => Star true (Chr (λ _, false))
  | String c EmptyString => chr c
  | String c s' => Cat (chr c) (lit s')
  end.

End Re.

(** ** Python runtime: the [datetime] module *)

(** A naive [datetime.datetime]: the proleptic Gregorian ordinal of its date
    (what [toordinal] returns) and the microsecond of the day. *)
Record datetime := mk_datetime { dt_ordinal : Z; dt_usec : Z }.

Module PyDatetime.

Definition MINYEAR : Z := 1.
Definition MAXYEAR : Z := 9999.
Definition MAXORDINAL : Z := 3652059.
Definition USEC_PER_DAY : Z := 86400000000.

Definition is_leap (year : Z) : bool :=
  (year mod 4 =? 0) && (negb (year mod 100 =? 0) || (year mod 400 =? 0)).

Definition days_in_month (year month : Z) : Z :=
  if (month =? 2) && is_leap year then 29
  else nth (Z.to_nat month) [-1; 31; 28; 31; 30; 31; 30; 31; 31; 30; 31; 30; 31] (-1).

Definition days_before_year (year : Z) : Z :=
  let y := year - 1 in y * 365 + y / 4 - y / 100 + y / 400.

Definition days_before_month (year month : Z) : Z :=
  nth (Z.to_nat month) [-1; 0; 31; 59; 90; 120; 151; 181; 212; 243; 273; 304; 334] (-1)
  + (if (2 <? month) && is_leap year then 1 else 0).

Definition ymd2ord (year month day : Z) : Z :=
  days_before_year year + days_before_month year month + day.

(** [date(year, month, day)], as its ordinal. *)
Definition date (year month day : Z) : result Z :=
  if (MINYEAR <=? year) && (year <=? MAXYEAR)
     && (1 <=? month) && (month <=? 12)
     && (1 <=? day) && (day <=? days_in_month year month)
  then Ok (ymd2ord year month day)
  else Raise ValueError.

(** [time(hour, minute, second, microsecond)], as the microsecond of the day. *)
Definition time (hour minute second microsecond : Z) : result Z :=
  if (0 <=? hour) && (hour <? 24) && (0 <=? minute) && (minute <? 60)
     && (0 <=? second) && (second <? 60)
     && (0 <=? microsecond) && (microsecond <? 1000000)
  then Ok (((hour * 60 + minute) * 60 + second) * 1000000 + microsecond)
  else Raise ValueError.

(** [d.weekday()]: Monday is 0. *)
Definition weekday (ordinal : Z) : Z := (ordinal + 6) mod 7.

(** [d.strftime("%a")] and [d.strftime("%A")] in the C locale. *)
Definition strftime_a (d : datetime) : string :=
  nth (Z.to_nat (weekday (dt_ordinal d)))
    ["Mon"; "Tue"; "Wed"; "Thu"; "Fri"; "Sat"; "Sun"] "".
Definition strftime_A (d : datetime) : string :=
  nth (Z.to_nat (weekday (dt_ordinal d)))
    ["Monday"; "Tuesday"; "Wednesday"; "Thursday"; "Friday"; "Saturday"; "Sunday"] "".

(** [d - timedelta(days=n)] on dates. *)
Definition date_sub_days (ordinal n : Z) : result Z :=
  let o := ordinal - n in
  if (1 <=? o) && (o <=? MAXORDINAL) then Ok o else Raise OverflowError.

(** [datetime.combine(d, t)] *)
Definition combine (ordinal time_usec : Z) : datetime := mk_datetime ordinal time_usec.

(** [dt + timedelta(hours=h)] *)
Definition add_hours (dt : datetime) (h : Z) : result datetime :=
  let total := dt_usec dt + h * 3600000000 in
  let o := dt_ordinal dt + total / USEC_PER_DAY in
  if (1 <=? o) && (o <=? MAXORDINAL)
  then Ok (mk_datetime o (total mod USEC_PER_DAY))
  else Raise OverflowError.

(** [a > b] on naive datetimes. *)
Definition gt (a b : datetime) : bool :=
  (dt_ordinal b <? dt_ordinal a)
  || ((dt_ordinal b =? dt_ordinal a) && (dt_usec b <? dt_usec a)).

(** A run of exactly [n] decimal digits. *)
Definition fixed_digits (n : nat) (s : string) : option Z :=
  if (String.length s =? n)%nat && PyStr.all_chars PyStr.is_digit s
  then Some (PyStr.digits_val 0 s) else None.

(** One or two decimal digits, as the directives [%H], [%M] and [%S] take
    them. *)
Definition one_or_two_digits (s : string) : option Z :=
  if ((String.length s =? 1)%nat || (String.length s =? 2)%nat)
     && PyStr.all_chars PyStr.is_digit s
  then Some (PyStr.digits_val 0 s) else None.

Definition of_option {A} (o : option A) : result A :=
  match o with
  | Some a => Ok a
  | None => Raise ValueError
  end.

(** [datetime.strptime(s, "%H:%M:%S").time()] *)
Definition strptime_HMS (s : string) : result Z :=
  match PyStr.split ":" s with
  | [h; m; sec] =>
      hour ← of_option (one_or_two_digits h);
      minute ← of_option (one_or_two_digits m);
      second ← of_option (one_or_two_digits sec);
      time hour minute second 0
  | _ => Raise ValueError
  end.

(** [datetime.strptime(s, "%Y%m%d").date()] on a text of eight digits. *)
Definition strptime_Ymd (s : string) : result Z :=
  year ← of_option (fixed_digits 4 (PyStr.take 4 s));
  month ← of_option (fixed_digits 2 (PyStr.take 2 (PyStr.drop 4 s)));
  day ← of_option (fixed_digits 2 (PyStr.drop 6 s));
  date year month day.

(** [datetime.strptime(s, "%Y-%m-%d")]: midnight of that date. *)
Definition strptime_Y_m_d (s : string) : result datetime :=
  match PyStr.split "-" s with
  | [y; m; d] =>
      year ← of_option (fixed_digits 4 y);
      month ← of_option (one_or_two_digits m);
      day ← of_option (one_or_two_digits d);
      o ← date year month day;
      Ok (mk_datetime o 0)
  | _ => Raise ValueError
  end.

(** The fields [HH[:MM[:SS[.fff[fff]]]]] of an ISO time or offset. *)
Definition parse_hh_mm_ss_ff (t : string) : option (Z * Z * Z * Z) :=
  hh ← fixed_digits 2 (PyStr.take 2 t);
  match PyStr.drop 2 t with
  | EmptyString => Some (hh, 0, 0, 0)
  | String c1 r1 =>
      if negb (Ascii.eqb c1 ":") then None else
      mm ← fixed_digits 2 (PyStr.take 2 r1);
      match PyStr.drop 2 r1 with
      | EmptyString => Some (hh, mm, 0, 0)
      | String c2 r2 =>
          if negb (Ascii.eqb c2 ":") then None else
          ss ← fixed_digits 2 (PyStr.take 2 r2);
          match PyStr.drop 2 r2 with
          | EmptyString => Some (hh, mm, ss, 0)
          | String c3 f =>
              if negb (Ascii.eqb c3 ".") then None
              else if (String.length f =? 3)%nat then
                us ← fixed_digits 3 f; Some (hh, mm, ss, us * 1000)
              else
                us ← fixed_digits 6 f; Some (hh, mm, ss, us)
          end
      end
  end.

(** The time text and, behind the first sign, the offset text. *)
Fixpoint split_offset (t : string) : string * option string :=
  match t with
  | EmptyString => (EmptyString, None)
  | String c t' =>
      if Ascii.eqb c "+" || Ascii.eqb c "-" then (EmptyString, Some t')
      else let '(a, o) := split_offset t' in (String c a, o)
  end.

(** A UTC offset has to lie strictly within 24 hours. *)
Definition check_offset (o : string) : option unit :=
  if negb ((String.length o =? 5)%nat || (String.length o =? 8)%nat
           || (String.length o =? 15)%nat) then None
  else
    '(hh, mm, ss, us) ← parse_hh_mm_ss_ff o;
    if (hh * 3600 + mm * 60 + ss <? 86400) then Some () else None.

(** [datetime.fromisoformat(s)] on the format that [isoformat] emits,
    [YYYY-MM-DD[*HH[:MM[:SS[.fff[fff]]]][+HH:MM[:SS[.ffffff]]]]]: the naive
    wall-clock value and whether an offset was present.  Other texts are
    rejected (recent interpreters accept further ISO 8601 spellings). *)
Definition fromisoformat (s : string) : result (datetime * bool) :=
  year ← of_option (fixed_digits 4 (PyStr.take 4 s));
  month ← of_option (fixed_digits 2 (PyStr.take 2 (PyStr.drop 5 s)));
  day ← of_option (fixed_digits 2 (PyStr.take 2 (PyStr.drop 8 s)));
  if negb (PyStr.startswith "-" (PyStr.drop 4 s) && PyStr.startswith "-" (PyStr.drop 7 s))
  then Raise ValueError else
  d ← date year month day;
  match PyStr.drop 10 s with
  | EmptyString => Ok (mk_datetime d 0, false)
  | String _ tstr =>
      let '(timestr, off) := split_offset tstr in
      '(hh, mm, ss, us) ← of_option (parse_hh_mm_ss_ff timestr);
      t ← time hh mm ss us;
      match off with
      | None => Ok (mk_datetime d t, false)
      | Some o => _ ← of_option (check_offset o); Ok (mk_datetime d t, true)
      end
  end.

End PyDatetime.

(** ** models.py *)

Inductive IncidentSeverity := URGENT | NEEDS_ATTENTION | ALL_GOOD.

Inductive IncidentType :=
| MISSING_FILE
| DUPLICATED_FILE
| UNEXPECTED_EMPTY
| VOLUME_VARIATION
| LATE_UPLOAD
| PREVIOUS_FILE.

#[global] Instance IncidentSeverity_eq_dec : EqDecision IncidentSeverity.
Proof. solve_decision. Defined.
#[global] Instance IncidentType_eq_dec : EqDecision IncidentType.
Proof. solve_decision. Defined.

(** Values stored in [Incident.details] and interpolated in f-strings.
    [VStrDate] and [VStrDateTime] stand for [str(d)] of a date and of a
    datetime. *)
Inductive pyval :=
| VInt (z : Z)
| VNum (n : number)
| VStr (s : string)
| VBool (b : bool)
| VStrDate (ordinal : Z)
| VStrDateTime (dt : datetime).

(** An f-string, kept as its literal pieces and interpolated values. *)
Inductive fpiece :=
| Lit (s : string)
| Val (v : pyval).
Definition fstring := list fpiece.

Record Incident := mk_Incident {
  incident_type : IncidentType;
  severity : IncidentSeverity;
  description : fstring;
  recommendation : fstring;
  source_id : string;
  file_name : option string;
  details : list (string * pyval)
}.

Record SourceReport := mk_SourceReport {
  sr_source_id : string;
  sr_status : IncidentSeverity;
  sr_incidents : list Incident;
  processed_files_count : Z;
  total_rows : Z
}.

Record ConsolidatedReport := mk_ConsolidatedReport {
  cr_date : string;
  generated_at : datetime;
  sources : list SourceReport;
  summary : fstring;
  cr_status : IncidentSeverity
}.

Record FileMetadata := mk_FileMetadata {
  filename : string;
  rows : Z;
  status : string;
  is_duplicated : bool;
  file_size : option Q;
  uploaded_at : string;
  status_message : option string
}.

(** One weekday's upload window, [{"start": ..., "end": ...}]; the parser
    always writes both keys, [None] when the weekday has no window. *)
Record UploadWindow := mk_UploadWindow {
  w_start : option string;
  w_end : option string
}.

(** One entity's baseline for one weekday,
    [{"median_files": ..., "median_rows": ...}]. *)
Record EntityDayStats := mk_EntityDayStats {
  ds_median_files : number;
  ds_median_rows : number
}.

(** [entity_stats] is iterated by the detectors, so it keeps its insertion
    order; its inner dictionaries are keyed by the full weekday name. *)
Record SourceCV := mk_SourceCV {
  cv_source_id : string;
  expected_files_by_day : gmap string (gmap string number);
  upload_window_by_day : gmap string UploadWindow;
  filename_patterns : list string;
  entity_stats : list (string * gmap string EntityDayStats);
  empty_file_stats : gmap string (gmap string number)
}.

(** [d.get(k)] on an insertion-ordered dictionary. *)
Fixpoint od_get {V} (k : string) (d : list (string * V)) : option V :=
  match d with
  | [] => None
  | (k', v) :: d' => if String.eqb k' k then Some v else od_get k d'
  end.

(** [d[k] = v]: a present key keeps its place. *)
Fixpoint od_set {V} (k : string) (v : V) (d : list (string * V)) : list (string * V) :=
  match d with
  | [] => [(k, v)]
  | (k', v') :: d' => if String.eqb k' k then (k, v) :: d' else (k', v') :: od_set k v d'
  end.

(** [stats.get(key, 0)] *)
Definition get0 (stats : gmap string number) (key : string) : number :=
  default (PyInt 0) (stats !! key).

(** ** parsers.py *)

Module CVParser.

Definition newline : string := String "010" EmptyString.
(** The UTF-8 encodings of the en dash U+2013 and of the bullet U+2022. *)
Definition en_dash : string := String "226" (String "128" (String "147" EmptyString)).
Definition bullet : string := String "226" (String "128" (String "162" EmptyString)).

(** [heading + r'.*?\n(\|.*\|\n)+'] under [re.DOTALL] *)
Definition table_pattern (heading : string) : Re.regex :=
  Re.Cat (Re.lit heading)
    (Re.Cat (Re.Star false Re.any)
       (Re.Cat (Re.chr "010")
          (Re.plus (Re.Grp
             (Re.Cat (Re.chr "|")
                (Re.Cat (Re.Star true Re.any) (Re.Cat (Re.chr "|") (Re.chr "010")))))))).

(** [table_str.strip().split('\n')] *)
Definition table_rows (table_str : string) : list string :=
  PyStr.split newline (PyStr.strip table_str).

(** [[r for r in rows if r.startswith('|') and '---' not in r and header not in r]] *)
Definition data_rows (header : string) (rows : list string) : list string :=
  List.filter (λ r, PyStr.startswith "|" r && negb (PyStr.contains "---" r)
                     && negb (PyStr.contains header r)) rows.

(** [[c.strip() for c in row.split('|') if c.strip()]] *)
Definition columns (row : string) : list string :=
  List.map PyStr.strip
    (List.filter (λ c, negb (String.eqb (PyStr.strip c) "")) (PyStr.split "|" row)).

(** [float(c) if c.replace('.','',1).isdigit() else 0] *)
Definition float_or_0 (c : string) : result number :=
  if PyStr.isdigit (PyStr.replace1 "." "" c) then PyFloat <$> PyStr.float c
  else Ok (PyInt 0).

(** [int(c) if c.isdigit() else 0] *)
Definition int_or_0 (c : string) : result number :=
  if PyStr.isdigit c then PyInt <$> PyStr.int c else Ok (PyInt 0).

Definition _extract_source_id (content : string) : string :=
  match Re.search (Re.Cat (Re.lit "**Resource ID**: ") (Re.Grp (Re.plus Re.digit))) content with
  | Some m => default "" (Re.group1 m)
  | None => "Unknown"
  end.

Definition col (cols : list string) (i : nat) : string := nth i cols "".

Definition _extract_file_stats (content : string)
    : result (gmap string (gmap string number)) :=
  match Re.search (table_pattern "File Processing Statistics by Day") content with
  | None => Ok ∅
  | Some table_match =>
      let rows := table_rows (Re.group0 table_match) in
      foldl (λ acc row,
               stats ← acc;
               let cols := columns row in
               if (7 <=? length cols)%nat then
                 let day := col cols 0 in
                 mean ← float_or_0 (col cols 1);
                 median ← float_or_0 (col cols 2);
                 mode ← float_or_0 (col cols 3);
                 min ← int_or_0 (col cols 5);
                 max ← int_or_0 (col cols 6);
                 std_dev ← float_or_0 (col cols 4);
                 Ok (<[day := <["mean" := mean]> (<["median" := median]> (<["mode" := mode]>
                        (<["min" := min]> (<["max" := max]> {["std_dev" := std_dev]}))))]> stats)
               else Ok stats)
            (Ok ∅) (data_rows "Mean Files" rows)
  end.

(** [start, end = window_str.split(sep)] and the stripping of both *)
Definition unpack_window (sep window_str : string) : result UploadWindow :=
  match PyStr.split sep window_str with
  | [start; end_] =>
      Ok (mk_UploadWindow (Some (PyStr.replace " UTC" "" (PyStr.strip start)))
                          (Some (PyStr.replace " UTC" "" (PyStr.strip end_))))
  | _ => Raise ValueError
  end.

Definition _extract_upload_window (content : string) : result (gmap string UploadWindow) :=
  match Re.search (table_pattern "Upload Schedule Patterns by Day") content with
  | None => Ok ∅
  | Some table_match =>
      let rows := table_rows (Re.group0 table_match) in
      foldl (λ acc row,
               windows ← acc;
               let cols := columns row in
               if (6 <=? length cols)%nat then
                 let day := col cols 0 in
                 let window_str := col cols 5 in
                 if PyStr.contains en_dash window_str then
                   w ← unpack_window en_dash window_str; Ok (<[day := w]> windows)
                 else if PyStr.contains "-" window_str then
                   w ← unpack_window "-" window_str; Ok (<[day := w]> windows)
                 else Ok (<[day := mk_UploadWindow None None]> windows)
               else Ok windows)
            (Ok ∅) (data_rows "Upload Hour" rows)
  end.

Definition _extract_filename_patterns (content : string) : list string :=
  match Re.search
          (Re.Cat (Re.lit "Generic structure")
             (Re.Cat (Re.Star true Re.space)
                (Re.Cat (Re.chr "`")
                   (Re.Cat (Re.Grp (Re.plus (Re.Chr (λ c, negb (Ascii.eqb c "`")))))
                           (Re.chr "`"))))) content with
  | Some m => [default "" (Re.group1 m)]
  | None => []
  end.

(** [float(m.group(1)) if m else 0] for [m = re.search(label + r'([\d\.]+)', day_stat)] *)
Definition labelled_float (label day_stat : string) : result number :=
  match Re.search (Re.Cat (Re.lit label)
                     (Re.Grp (Re.plus (Re.Chr (λ c, PyStr.is_digit c || Ascii.eqb c ".")))))
          day_stat with
  | Some m => PyFloat <$> PyStr.float (default "" (Re.group1 m))
  | None => Ok (PyInt 0)
  end.

Definition _extract_entity_stats (content : string)
    : result (list (string * gmap string EntityDayStats)) :=
  match Re.search (table_pattern "Entity Statistics by Day of Week") content with
  | None => Ok []
  | Some table_match =>
      let rows := table_rows (Re.group0 table_match) in
      match List.filter (λ r, PyStr.contains "Entity" r && PyStr.contains "Monday" r) rows with
      | [] => Raise IndexError
      | header_row :: _ =>
          let headers := columns header_row in
          let days := tail headers in
          foldl (λ acc row,
                   stats ← acc;
                   let cols := columns row in
                   match cols with
                   | [] => Ok stats
                   | entity :: day_cells =>
                       by_day ←
                         foldl (λ acc2 '(day_name, day_stat),
                                  entity_days ← acc2;
                                  median_files ← labelled_float "Median Files: " day_stat;
                                  median_rows ← labelled_float "Median Rows: " day_stat;
                                  Ok (<[day_name := mk_EntityDayStats median_files median_rows]>
                                        entity_days))
                               (Ok ∅) (zip days day_cells);
                       Ok (od_set entity by_day stats)
                   end)
                (Ok []) (data_rows "Entity" rows)
      end
  end.

(** The inner loop of [_extract_empty_file_stats] over the lines of one
    "Empty Files Analysis" cell. *)
Definition empty_day_stats (empty_analysis : string) : result (gmap string number) :=
  foldl (λ (acc : result (gmap string number)) (line : string),
           day_stats ← acc;
           match PyStr.split_once ":" line with
           | None => Ok day_stats
           | Some (key, val) =>
               let key := PyStr.replace bullet ""
                            (PyStr.replace (bullet +:+ " ") ""
                               (PyStr.lower (PyStr.strip key))) in
               let val := PyStr.strip val in
               if PyStr.isdigit (PyStr.replace1 "." "" val) then
                 x ← PyStr.float val;
                 Ok (<[key := PyFloat x]> day_stats)
               else Ok day_stats
           end)
        (Ok ∅) (PyStr.split "<br>" empty_analysis).

Definition _extract_empty_file_stats (content : string)
    : result (gmap string (gmap string number)) :=
  match Re.search (table_pattern "Day-of-Week Summary") content with
  | None => Ok ∅
  | Some table_match =>
      let rows := table_rows (Re.group0 table_match) in
      foldl (λ (acc : result (gmap string (gmap string number))) (row : string),
               stats ← acc;
               let cols := columns row in
               if (3 <=? length cols)%nat then
                 let day := col cols 0 in
                 let empty_analysis := col cols 2 in
                 day_stats ← empty_day_stats empty_analysis;
                 Ok (<[day := day_stats]> stats)
               else Ok stats)
            (Ok ∅) (data_rows "Row Statistics" rows)
  end.

(** The part of [parse] that follows the reading of the file. *)
Definition parse_content (content : string) : result SourceCV :=
  let source_id := _extract_source_id content in
  expected_files ← _extract_file_stats content;
  upload_window ← _extract_upload_window content;
  let filename_patterns := _extract_filename_patterns content in
  entity_stats ← _extract_entity_stats content;
  empty_file_stats ← _extract_empty_file_stats content;
  Ok (mk_SourceCV source_id expected_files upload_window filename_patterns
        entity_stats empty_file_stats).

(** [parse(file_path)]; [fs] maps the paths of the readable files to their
    text. *)
Definition parse (fs : gmap string string) (file_path : string) : result SourceCV :=
  match fs !! file_path with
  | None => Raise FileNotFoundError
  | Some content => parse_content content
  end.

End CVParser.

(** ** detectors.py *)

(** The entity a file is attributed to: the first key of [entity_stats]
    with [f"_{entity}_" in filename]. *)
Definition match_entity (cv : SourceCV) (fname : string) : option string :=
  List.find (λ e, PyStr.contains ("_" +:+ e +:+ "_") fname) (entity_stats cv).*1.

Module MissingFileDetector.

Definition count_incident (cv : SourceCV) (threshold mean_files min_files : number)
    (found : Z) : Incident :=
  mk_Incident MISSING_FILE URGENT
    [Lit "Expected at least "; Val (VNum threshold); Lit " files (mean ";
     Val (VNum mean_files); Lit "), but found "; Val (VInt found); Lit "."]
    [Lit "Contact provider to confirm generation and request immediate re-delivery."]
    (cv_source_id cv) None
    [("expected_min", VNum threshold); ("found", VInt found);
     ("cv_min", VNum min_files); ("cv_mean", VNum mean_files)].

Definition entity_incident (cv : SourceCV) (entity : string) : Incident :=
  mk_Incident MISSING_FILE URGENT
    [Lit "Expected files for entity '"; Val (VStr entity); Lit "' but none received."]
    [Lit "Verify if '"; Val (VStr entity); Lit "' generated files today and request re-delivery."]
    (cv_source_id cv) None
    [("entity", VStr entity)].

Definition detect (files : list FileMetadata) (cv : SourceCV) (current_date : datetime)
    : result (list Incident) :=
  let day_name := PyDatetime.strftime_a current_date in
  match expected_files_by_day cv !! day_name with
  | None => Ok []
  | Some expected_stats =>
      if bool_decide (expected_stats = ∅) then Ok [] else
      let min_files := get0 expected_stats "min" in
      let mean_files := get0 expected_stats "mean" in
      let median_files := get0 expected_stats "median" in
      let mode_files := get0 expected_stats "mode" in
      let threshold :=
        if num_eq min_files (PyInt 0) then
          if num_gt median_files (PyInt 0) || num_gt mode_files (PyInt 0)
          then PyInt 1 else PyInt 0
        else min_files in
      let found := Z.of_nat (length files) in
      let incidents :=
        if num_lt (PyInt found) threshold
        then [count_incident cv threshold mean_files min_files found] else [] in
      let present_entities : gset string :=
        foldl (λ present f,
                 match match_entity cv (filename f) with
                 | Some entity => {[entity]} ∪ present
                 | None => present
                 end) ∅ files in
      let missing :=
        flat_map (λ '(entity, stats),
                    match stats !! PyDatetime.strftime_A current_date with
                    | None => []
                    | Some day_stats =>
                        if num_gt (ds_median_files day_stats) (PyInt 0)
                           && bool_decide (entity ∉ present_entities)
                        then [entity_incident cv entity] else []
                    end) (entity_stats cv) in
      Ok (incidents ++ missing)
  end.

End MissingFileDetector.

Module DuplicatedFailedFileDetector.

Definition flag_incident (cv : SourceCV) (f : FileMetadata) : Incident :=
  mk_Incident DUPLICATED_FILE URGENT
    [Lit "File "; Val (VStr (filename f)); Lit " is duplicated or failed."]
    [Lit "Check file status and re-process if needed."]
    (cv_source_id cv) (Some (filename f))
    [("status", VStr (status f)); ("is_duplicated", VBool (is_duplicated f))].

Definition name_incident (cv : SourceCV) (f : FileMetadata) : Incident :=
  mk_Incident DUPLICATED_FILE URGENT
    [Lit "File "; Val (VStr (filename f)); Lit " has a duplicate name."]
    [Lit "Check for duplicate uploads."]
    (cv_source_id cv) (Some (filename f)) [].

(** The body of the loop, with the set [seen_filenames] passed along. *)
Fixpoint loop (cv : SourceCV) (seen_filenames : gset string) (files : list FileMetadata)
    : list Incident :=
  match files with
  | [] => []
  | f :: files' =>
      (if is_duplicated f || String.eqb (status f) "STOPPED" || String.eqb (status f) "failed"
       then [flag_incident cv f] else [])
      ++ (if bool_decide (filename f ∈ seen_filenames) then [name_incident cv f] else [])
      ++ loop cv ({[filename f]} ∪ seen_filenames) files'
  end.

Definition detect (files : list FileMetadata) (cv : SourceCV) (current_date : datetime)
    : result (list Incident) :=
  Ok (loop cv ∅ files).

End DuplicatedFailedFileDetector.

Module UnexpectedEmptyFileDetector.

Definition empty_incident (cv : SourceCV) (f : FileMetadata) (max_empty : number) : Incident :=
  mk_Incident UNEXPECTED_EMPTY URGENT
    [Lit "File "; Val (VStr (filename f)); Lit " is empty (0 rows)."]
    [Lit "Verify if the empty file is expected."]
    (cv_source_id cv) (Some (filename f))
    [("rows", VInt (rows f)); ("max_expected_empty", VNum max_empty)].

(** The count [empty_files_count] of the source is computed and never read;
    it is left out. *)
Definition detect (files : list FileMetadata) (cv : SourceCV) (current_date : datetime)
    : result (list Incident) :=
  let day_name := PyDatetime.strftime_a current_date in
  let empty_stats := default ∅ (empty_file_stats cv !! day_name) in
  let max_empty := get0 empty_stats "max" in
  Ok (flat_map (λ f,
        if rows f =? 0 then
          if num_gt max_empty (PyInt 0) then []
          else [empty_incident cv f max_empty]
        else []) files).

End UnexpectedEmptyFileDetector.

Module UnexpectedVolumeVariationDetector.

Definition surge_incident (cv : SourceCV) (total_files : Z) (max_files : number) : Incident :=
  mk_Incident VOLUME_VARIATION NEEDS_ATTENTION
    [Lit "Total files ("; Val (VInt total_files);
     Lit ") significantly higher than expected max ("; Val (VNum max_files); Lit ")."]
    [Lit "Investigate the surge in files."]
    (cv_source_id cv) None
    [("total_files", VInt total_files); ("expected_max", VNum max_files)].

Definition rows_incident (cv : SourceCV) (f : FileMetadata) (median_rows : number) : Incident :=
  mk_Incident VOLUME_VARIATION NEEDS_ATTENTION
    [Lit "File "; Val (VStr (filename f)); Lit " has "; Val (VInt (rows f));
     Lit " rows, deviating from median "; Val (VNum median_rows); Lit "."]
    [Lit "Check for data completeness or duplication."]
    (cv_source_id cv) (Some (filename f))
    [("rows", VInt (rows f)); ("median_rows", VNum median_rows)].

(** [mean_files], [std_dev] and [min_files] of the source are read and never
    used; they are left out. *)
Definition detect (files : list FileMetadata) (cv : SourceCV) (current_date : datetime)
    : result (list Incident) :=
  let day_name := PyDatetime.strftime_a current_date in
  match expected_files_by_day cv !! day_name with
  | None => Ok []
  | Some stats =>
      if bool_decide (stats = ∅) then Ok [] else
      let total_files := Z.of_nat (length files) in
      let max_files := get0 stats "max" in
      let incidents :=
        if num_gt (PyInt total_files) (num_mul max_files (PyFloat (3 # 2)))
           && num_gt max_files (PyInt 0)
        then [surge_incident cv total_files max_files] else [] in
      let per_file :=
        flat_map (λ f,
          match match_entity cv (filename f) with
          | None => []
          | Some entity =>
              if String.eqb entity "" then [] else
              let day_full := PyDatetime.strftime_A current_date in
              match default ∅ (od_get entity (entity_stats cv)) !! day_full with
              | None => []
              | Some entity_day_stats =>
                  let median_rows := ds_median_rows entity_day_stats in
                  if num_gt median_rows (PyInt 0) then
                    if num_gt (PyInt (rows f)) (num_mul median_rows (PyInt 3))
                       || num_lt (PyInt (rows f)) (num_mul median_rows (PyFloat (1 # 10)))
                    then [rows_incident cv f median_rows] else []
                  else []
              end
          end) files in
      Ok (incidents ++ per_file)
  end.

End UnexpectedVolumeVariationDetector.

Module LateUploadDetector.

Definition late_incident (cv : SourceCV) (f : FileMetadata) (uploaded : datetime)
    (end_time_str : string) (expected_end_dt : datetime) : Incident :=
  mk_Incident LATE_UPLOAD NEEDS_ATTENTION
    [Lit "File "; Val (VStr (filename f)); Lit " uploaded at "; Val (VStrDateTime uploaded);
     Lit ", significantly after expected "; Val (VStr end_time_str); Lit "."]
    [Lit "Monitor upload delays."]
    (cv_source_id cv) (Some (filename f))
    [("uploaded_at", VStrDateTime uploaded); ("expected_end", VStrDateTime expected_end_dt)].

(** The loop over the files inside the [try] block.  [incidents] is filled in
    place, so a timestamp that fails to parse ends the loop and leaves what
    was appended before it. *)
Fixpoint loop (cv : SourceCV) (end_time_str : string) (expected_end_dt tolerance_dt : datetime)
    (files : list FileMetadata) : list Incident :=
  match files with
  | [] => []
  | f :: files' =>
      match PyDatetime.fromisoformat (uploaded_at f) with
      | Raise _ => []
      | Ok (uploaded, _) =>
          (* [uploaded] is the wall-clock value: an offset, if any, is dropped *)
          (if PyDatetime.gt uploaded tolerance_dt
           then [late_incident cv f uploaded end_time_str expected_end_dt] else [])
          ++ loop cv end_time_str expected_end_dt tolerance_dt files'
      end
  end.

Definition detect (files : list FileMetadata) (cv : SourceCV) (current_date : datetime)
    : result (list Incident) :=
  let day_name := PyDatetime.strftime_a current_date in
  match upload_window_by_day cv !! day_name with
  | None => Ok []
  | Some window =>
      match w_end window with
      | None => Ok []
      | Some end_time_str =>
          if String.eqb end_time_str "" then Ok [] else
          Ok (try_except
                (end_time ← PyDatetime.strptime_HMS end_time_str;
                 let expected_end_dt := PyDatetime.combine (dt_ordinal current_date) end_time in
                 tolerance_dt ← PyDatetime.add_hours expected_end_dt 4;
                 Ok (loop cv end_time_str expected_end_dt tolerance_dt files))
                [])
      end
  end.

End LateUploadDetector.

Module PreviousFileDetector.

(** [r'_(\d{8})\.csv$'] *)
Definition pattern : Re.regex :=
  Re.Cat (Re.chr "_") (Re.Cat (Re.Grp (Re.rep 8 Re.digit)) (Re.Cat (Re.lit ".csv") Re.Eos)).

Definition previous_incident (cv : SourceCV) (f : FileMetadata) (file_date : Z) : Incident :=
  mk_Incident PREVIOUS_FILE ALL_GOOD
    [Lit "File "; Val (VStr (filename f)); Lit " is from a previous period (";
     Val (VStrDate file_date); Lit ")."]
    [Lit "No action needed, historical upload."]
    (cv_source_id cv) (Some (filename f))
    [("file_date", VStrDate file_date)].

Fixpoint detect (files : list FileMetadata) (cv : SourceCV) (current_date : datetime)
    : result (list Incident) :=
  match files with
  | [] => Ok []
  | f :: files' =>
      here ←
        match Re.search pattern (filename f) with
        | None => Ok []
        | Some m =>
            let file_date_str := default "" (Re.group1 m) in
            match PyDatetime.strptime_Ymd file_date_str with
            | Raise ValueError => Ok []
            | Raise e => Raise e
            | Ok file_date =>
                (* only [ValueError] is caught: an overflow of the date
                   subtraction reaches the caller *)
                limit ← PyDatetime.date_sub_days (dt_ordinal current_date) 2;
                Ok (if file_date <? limit then [previous_incident cv f file_date] else [])
            end
        end;
      rest ← detect files' cv current_date;
      Ok (here ++ rest)
  end.

End PreviousFileDetector.

(** ** report.py *)

Module ReportGenerator.

(** [severity.value] *)
Definition severity_value (s : IncidentSeverity) : string :=
  match s with
  | URGENT => "URGENT"
  | NEEDS_ATTENTION => "NEEDS_ATTENTION"
  | ALL_GOOD => "ALL_GOOD"
  end.

(** [generate]; [utcnow] is what [datetime.utcnow()] returns at the call. *)
Definition generate (utcnow : datetime) (date : string) (source_reports : list SourceReport)
    : ConsolidatedReport :=
  let urgent_count :=
    length (filter (λ r, sr_status r = URGENT) source_reports) in
  let needs_attention_count :=
    length (filter (λ r, sr_status r = NEEDS_ATTENTION) source_reports) in
  let overall_status :=
    if bool_decide (0 < urgent_count)%nat then URGENT
    else if bool_decide (0 < needs_attention_count)%nat then NEEDS_ATTENTION
    else ALL_GOOD in
  let summary :=
    [Lit "Report for "; Val (VStr date); Lit CVParser.newline;
     Lit "Status: "; Val (VStr (severity_value overall_status)); Lit CVParser.newline;
     Lit "Sources with Urgent Incidents: "; Val (VInt (Z.of_nat urgent_count));
     Lit CVParser.newline;
     Lit "Sources Needing Attention: "; Val (VInt (Z.of_nat needs_attention_count));
     Lit CVParser.newline] in
  mk_ConsolidatedReport date utcnow source_reports summary overall_status.

Definition consolidate_source (source_id : string) (incidents : list Incident)
    (processed_count total_rows : Z) : SourceReport :=
  let urgent_incidents := filter (λ i, severity i = URGENT) incidents in
  let attention_incidents := filter (λ i, severity i = NEEDS_ATTENTION) incidents in
  let status :=
    if bool_decide (1 ≤ length urgent_incidents)%nat then URGENT
    else if bool_decide (0 < length attention_incidents)%nat then
      if bool_decide (3 < length attention_incidents)%nat then URGENT
      else NEEDS_ATTENTION
    else ALL_GOOD in
  mk_SourceReport source_id status incidents processed_count total_rows.

End ReportGenerator.

(** ** core.py: the pipeline mode of [Agent.run] *)

Module Agent.

(** The interface of [Detector.detect]. *)
Definition Detector : Type :=
  list FileMetadata → SourceCV → datetime → result (list Incident).

(** [self.detectors] *)
Definition detectors : list Detector :=
  [MissingFileDetector.detect;
   DuplicatedFailedFileDetector.detect;
   UnexpectedEmptyFileDetector.detect;
   UnexpectedVolumeVariationDetector.detect;
   LateUploadDetector.detect;
   PreviousFileDetector.detect].

(** [for detector in self.detectors: incidents.extend(detector.detect(...))] *)
Fixpoint run_detectors (ds : list Detector) (files : list FileMetadata) (cv : SourceCV)
    (current_date : datetime) : result (list Incident) :=
  match ds with
  | [] => Ok []
  | detector :: ds' =>
      found ← detector files cv current_date;
      rest ← run_detectors ds' files cv current_date;
      Ok (found ++ rest)
  end.

(** Detection and consolidation for one source. *)
Definition analyze_source (source_id : string) (files : list FileMetadata) (cv : SourceCV)
    (current_date : datetime) : result SourceReport :=
  incidents ← run_detectors detectors files cv current_date;
  let total_rows := foldr (λ f acc, rows f + acc) 0 files in
  Ok (ReportGenerator.consolidate_source source_id incidents
        (Z.of_nat (length files)) total_rows).

(** What a run reads besides its argument: the clock, the folders of the
    data directory with the content of their [files.json] (source id and
    file list, in document order), and the profile documents of the
    [datasource_cvs] folder by file name. *)
Record World := mk_World {
  utcnow : datetime;
  data_dir : list (string * list (string * list FileMetadata));
  datasource_cvs : gmap string string
}.

(** The body of the loop over [files_data.items()]: the report of one source
    is appended, a source without a profile document is skipped. *)
Definition source_step (w : World) (date_str : string) (current_date : datetime)
    (source_reports : list SourceReport) (source_id : string)
    (file_list : list FileMetadata) : result (list SourceReport) :=
  let files := List.filter (λ f, PyStr.startswith date_str (uploaded_at f)) file_list in
  let cv_path := source_id +:+ "_native.md" in
  match datasource_cvs w !! cv_path with
  | None => Ok source_reports
  | Some _ =>
      cv ← CVParser.parse (datasource_cvs w) cv_path;
      source_report ← analyze_source source_id files cv current_date;
      Ok (source_reports ++ [source_report])
  end.

Definition run (w : World) (date_str : string) : result ConsolidatedReport :=
  match List.find (λ item, PyStr.startswith date_str item.1) (data_dir w) with
  | None => Raise FileNotFoundError
  | Some (_, files_data) =>
      current_date ← PyDatetime.strptime_Y_m_d date_str;
      source_reports ←
        foldl (λ (acc : result (list SourceReport)) '(source_id, file_list),
                 source_reports ← acc;
                 source_step w date_str current_date source_reports source_id file_list)
              (Ok []) files_data;
      Ok (ReportGenerator.generate (utcnow w) date_str source_reports)
  end.

End Agent.

(** ** core.py: the agentic mode of [Agent.run]

    The part that follows the call of the ReAct agent: the answer of the
    agent is turned into a report. *)

Module AgenticRun.

(** What [ReActAgent.run] returns, as far as the statuses of the report
    depend on it: the summary, the incidents by source in the order of
    [scan_results], and the counts of [source_stats].  The token usage, which
    only enters the cost of the report, is left out. *)
Record AgentResult := mk_AgentResult {
  r_summary : string;
  r_incidents : list (string * list Incident);
  r_stats : gmap string (Z * Z)
}.

(** The loop over the incidents of one source; an Urgent incident ends it. *)
Fixpoint status_loop (status : IncidentSeverity) (incidents : list Incident)
    : IncidentSeverity :=
  match incidents with
  | [] => status
  | inc :: incidents' =>
      if bool_decide (severity inc = URGENT) then URGENT
      else if bool_decide (severity inc = NEEDS_ATTENTION)
              && negb (bool_decide (status = URGENT))
      then status_loop NEEDS_ATTENTION incidents'
      else status_loop status incidents'
  end.

(** The body of the loop over [result["incidents"].items()]. *)
Definition source_report (stats : gmap string (Z * Z))
    (item : string * list Incident) : SourceReport :=
  let '(source_id, incidents) := item in
  let status := status_loop ALL_GOOD incidents in
  let source_stats := default (0, 0) (stats !! source_id) in
  mk_SourceReport source_id status incidents source_stats.1 source_stats.2.

(** The report; [now] is what [datetime.now()] returns at the call. *)
Definition report (now : datetime) (date_str : string) (result : AgentResult)
    : ConsolidatedReport :=
  let source_reports := source_report (r_stats result) <$> r_incidents result in
  mk_ConsolidatedReport date_str now source_reports
    [Lit "# AGENTIC ANALYSIS"; Lit CVParser.newline; Lit CVParser.newline;
     Val (VStr (r_summary result))]
    (if existsb (λ s, bool_decide (sr_status s = URGENT)) source_reports
     then URGENT else ALL_GOOD).

End AgenticRun.

(** ** tools.py: the tools of the ReAct agent *)

(** [incident_type.value] (models.py) *)
Definition type_value (t : IncidentType) : string :=
  match t with
  | MISSING_FILE => "Missing File"
  | DUPLICATED_FILE => "Duplicated File"
  | UNEXPECTED_EMPTY => "Unexpected Empty File"
  | VOLUME_VARIATION => "Unexpected Volume Variation"
  | LATE_UPLOAD => "File Upload After Schedule"
  | PREVIOUS_FILE => "Upload of Previous File"
  end.

Module AgentTools.

(** [self.scan_results], in insertion order, and [self.source_stats] with
    [processed_files_count] and [total_rows] as a pair. *)
Record state := mk_state {
  scan_results : list (string * list Incident);
  source_stats : gmap string (Z * Z)
}.

(** [self.detectors.values()], in the order of the dictionary *)
Definition detectors : list Agent.Detector :=
  [MissingFileDetector.detect;
   UnexpectedVolumeVariationDetector.detect;
   UnexpectedEmptyFileDetector.detect].

(** The first folder of the data directory whose name starts with the date,
    with its [files.json]. *)
Definition target_folder (w : Agent.World) (date_str : string)
    : option (string * list (string * list FileMetadata)) :=
  List.find (λ item, PyStr.startswith date_str item.1) (Agent.data_dir w).

Definition list_sources_for_date (w : Agent.World) (date_str : string) : list string :=
  match target_folder w date_str with
  | None => []
  | Some (_, data) => data.*1
  end.

Definition get_daily_files (w : Agent.World) (date_str source_id : string)
    : list FileMetadata :=
  match target_folder w date_str with
  | None => []
  | Some (_, data) =>
      let file_list := default [] (od_get source_id data) in
      List.filter (λ f, PyStr.startswith date_str (uploaded_at f)) file_list
  end.

(** [f"- {i.incident_type.value}: {i.description} (Severity: {i.severity.value})"] *)
Definition anomaly_line (i : Incident) : fstring :=
  [Lit "- "; Val (VStr (type_value (incident_type i))); Lit ": "]
  ++ description i
  ++ [Lit " (Severity: "; Val (VStr (ReportGenerator.severity_value (severity i))); Lit ")"].

(** ["\n".join(lines)] *)
Fixpoint join_lines (lines : list fstring) : fstring :=
  match lines with
  | [] => []
  | [line] => line
  | line :: lines' => line ++ Lit CVParser.newline :: join_lines lines'
  end.

(** [check_anomalies]: the state it leaves and the text it returns or the
    exception it raises.  The counts of the source are stored before the
    profile is looked for; the incidents are stored when the three detectors
    have run. *)
Definition check_anomalies (w : Agent.World) (date_str source_id : string) (st : state)
    : state * result fstring :=
  let files := get_daily_files w date_str source_id in
  let file_count := Z.of_nat (length files) in
  let total_rows := foldr (λ f acc, rows f + acc) 0 files in
  let st := mk_state (scan_results st)
              (<[source_id := (file_count, total_rows)]> (source_stats st)) in
  let cv_path := source_id +:+ "_native.md" in
  match Agent.datasource_cvs w !! cv_path with
  | None => (st, Ok [Lit "Cannot check anomalies: CV missing."])
  | Some _ =>
      match cv ← CVParser.parse (Agent.datasource_cvs w) cv_path;
            current_date ← PyDatetime.strptime_Y_m_d date_str;
            Agent.run_detectors detectors files cv current_date with
      | Raise e => (st, Raise e)
      | Ok incidents =>
          (mk_state (od_set source_id incidents (scan_results st)) (source_stats st),
           Ok (match incidents with
               | [] => [Lit "No technical anomalies detected."]
               | _ => join_lines (anomaly_line <$> incidents)
               end))
      end
  end.

(** What [scan_day_incidents] does to the state: both dictionaries are
    cleared and [check_anomalies] runs for each source of the day, up to the
    first exception.  The summary text it returns, which is put together
    from the rendered lines, is not part of this definition. *)
Definition scan_day_incidents_state (w : Agent.World) (date_str : string)
    : state * option exn :=
  foldl (λ (acc : state * option exn) source_id,
           match acc.2 with
           | Some _ => acc
           | None =>
               match check_anomalies w date_str source_id acc.1 with
               | (st, Ok _) => (st, None)
               | (st, Raise e) => (st, Some e)
               end
           end)
        (mk_state [] ∅, None) (list_sources_for_date w date_str).

End AgentTools.

(** The severity policy in the words of the specification. *)
Definition count_severity (s : IncidentSeverity) (incidents : list Incident) : nat :=
  length (filter (λ i, severity i = s) incidents).

Definition severity_policy (incidents : list Incident) : IncidentSeverity :=
  if bool_decide (Exists (λ i, severity i = URGENT) incidents) then URGENT
  else if bool_decide (3 < count_severity NEEDS_ATTENTION incidents)%nat then URGENT
  else if bool_decide (Exists (λ i, severity i = NEEDS_ATTENTION) incidents) then NEEDS_ATTENTION
  else ALL_GOOD.

(** ** The detectors in the words of the specification *)

(** The weekday's empty-file baseline [max], 0 when absent. *)
Definition empty_file_max (cv : SourceCV) (current_date : datetime) : number :=
  match empty_file_stats cv !! PyDatetime.strftime_a current_date with
  | Some stats => match stats !! "max" with Some m => m | None => PyInt 0 end
  | None => PyInt 0
  end.

(** A file is flagged when [isDuplicateFlag] is set or its status is exactly
    "STOPPED" or "failed". *)
Definition is_flagged (f : FileMetadata) : Prop :=
  is_duplicated f = true ∨ status f = "STOPPED" ∨ status f = "failed".

#[global] Instance is_flagged_dec f : Decision (is_flagged f).
Proof. unfold is_flagged. apply _. Defined.

(** The incidents of the duplicated/failed check, file by file: one for a
    flagged file, and one more when the name occurred earlier in the
    batch. *)
Definition duplicated_failed_incidents (cv : SourceCV) (files : list FileMetadata)
    : list Incident :=
  concat (imap (λ i f,
    (if decide (is_flagged f) then [DuplicatedFailedFileDetector.flag_incident cv f] else [])
    ++ (if decide (filename f ∈ filename <$> take i files)
        then [DuplicatedFailedFileDetector.name_incident cv f] else [])) files).

(** The effective minimum of the zero-inflation policy: 1 when the historical
    minimum is 0 while the median or the mode is positive, the minimum
    itself otherwise. *)
Definition effective_minimum (stats : gmap string number) : number :=
  if num_eq (get0 stats "min") (PyInt 0)
     && (num_gt (get0 stats "median") (PyInt 0) || num_gt (get0 stats "mode") (PyInt 0))
  then PyInt 1
  else get0 stats "min".

(** The entities expected on the weekday of the date, in profile order:
    those whose baseline for the full weekday name has a positive median
    file count. *)
Definition expected_entities (cv : SourceCV) (current_date : datetime) : list string :=
  omap (λ '(entity, stats),
          match stats !! PyDatetime.strftime_A current_date with
          | Some day_stats =>
              if num_gt (ds_median_files day_stats) (PyInt 0) then Some entity else None
          | None => None
          end) (entity_stats cv).

(** The last part of the claim on missing files, as it is worded: on an
    empty batch the detector emits exactly one incident, Urgent, of type
    MissingFile, carrying an effective minimum of 1. *)
Definition one_incident_with_minimum_1 (cv : SourceCV) (current_date : datetime) : Prop :=
  ∃ i n, MissingFileDetector.detect [] cv current_date = Ok [i]
         ∧ severity i = URGENT ∧ incident_type i = MISSING_FILE
         ∧ od_get "expected_min" (details i) = Some (VNum n)
         ∧ num_eq n (PyInt 1) = true.

(** A naive datetime on the time line, in microseconds. *)
Definition dt_linear (dt : datetime) : Z :=
  dt_ordinal dt * PyDatetime.USEC_PER_DAY + dt_usec dt.

(** The wall-clock value of a file's upload timestamp, its offset dropped. *)
Definition wall_clock (f : FileMetadata) : datetime :=
  match PyDatetime.fromisoformat (uploaded_at f) with
  | Ok (dt, _) => dt
  | Raise _ => mk_datetime 0 0
  end.

(** The tolerance deadline: the window-end time of day on the evaluation
    date plus four hours, on the time line. *)
Definition tolerance_deadline (current_date : datetime) (end_time : Z) : Z :=
  dt_ordinal current_date * PyDatetime.USEC_PER_DAY + end_time + 4 * 3600 * 1000000.

(** ** Sample data used to exercise the statements *)

Module Sample.

(** Monday 2025-09-08 and Wednesday 2025-09-10, at midnight. *)
Definition monday : datetime := mk_datetime 739502 0.
Definition wednesday : datetime := mk_datetime 739504 0.

Definition file (name : string) (n : Z) (uploaded : string) : FileMetadata :=
  mk_FileMetadata name n "OK" false None uploaded None.

Definition incident (s : IncidentSeverity) : Incident :=
  mk_Incident VOLUME_VARIATION s [Lit "sample"] [] "207936" None [].

(** A profile without any baseline. *)
Definition blank_cv : SourceCV := mk_SourceCV "207936" ∅ ∅ [] [] ∅.

(** An entity baseline on Mondays: one file of 100 rows. *)
Definition clave_stats : list (string * gmap string EntityDayStats) :=
  [("Clave", {["Monday" := mk_EntityDayStats (PyFloat 1) (PyFloat 100)]})].

(** Only entity baselines: the weekday has no file-count entry. *)
Definition entity_only_cv : SourceCV := mk_SourceCV "207936" ∅ ∅ [] clave_stats ∅.

Definition day_stats (mean median mode : Q) (min max : Z) : gmap string number :=
  <["mean" := PyFloat mean]> (<["median" := PyFloat median]> (<["mode" := PyFloat mode]>
    (<["min" := PyInt min]> (<["max" := PyInt max]> {["std_dev" := PyFloat (1 # 2)]})))).

(** Monday counts with a historical minimum of zero. *)
Definition zero_min_cv : SourceCV :=
  mk_SourceCV "207936" {["Mon" := day_stats 1 1 1 0 3]} ∅ [] [] ∅.
(** Monday counts with a historical minimum of two. *)
Definition min_two_cv : SourceCV :=
  mk_SourceCV "207936" {["Mon" := day_stats 2 2 2 2 3]} ∅ [] [] ∅.
(** A minimum of zero together with an entity expected on Mondays. *)
Definition zero_min_entity_cv : SourceCV :=
  mk_SourceCV "207936" {["Mon" := day_stats 1 1 1 0 3]} ∅ [] clave_stats ∅.

(** Empty files tolerated on Mondays ([max = 1]) and not tolerated. *)
Definition tolerant_cv : SourceCV :=
  mk_SourceCV "207936" ∅ ∅ [] [] {["Mon" := {["max" := PyFloat 1]}]}.
Definition strict_cv : SourceCV :=
  mk_SourceCV "207936" ∅ ∅ [] [] {["Mon" := {["max" := PyFloat 0]}]}.

(** An upload window that ends at 09:00:00 on Mondays. *)
Definition window_cv : SourceCV :=
  mk_SourceCV "207936" ∅ {["Mon" := mk_UploadWindow (Some "08:00:00") (Some "09:00:00")]}
    [] [] ∅.

(** The second day of the calendar, 0001-01-02. *)
Definition second_day : datetime := mk_datetime 2 0.

(** A file name with the date suffix followed by a newline. *)
Definition newline_name : string := "x_20250907.csv" +:+ CVParser.newline.

(** A profile document with a file-count table, an upload-window table and
    a day-of-week summary. *)
Definition profile_doc : string :=
  "# Source profile" +:+ CVParser.newline +:+
  "**Resource ID**: 207936" +:+ CVParser.newline +:+
  "## File Processing Statistics by Day" +:+ CVParser.newline +:+
  "| Day | Mean Files | Median Files | Mode Files | StdDev Files | Min Files | Max Files |"
    +:+ CVParser.newline +:+
  "|---|---|---|---|---|---|---|" +:+ CVParser.newline +:+
  "| Mon | 2.0 | 2.0 | 2.0 | 0.5 | 1 | 3 |" +:+ CVParser.newline +:+
  "## Upload Schedule Patterns by Day" +:+ CVParser.newline +:+
  "| Day | Mean Upload Hour | Median | Mode | StdDev | Upload Time Window Expected |"
    +:+ CVParser.newline +:+
  "|---|---|---|---|---|---|" +:+ CVParser.newline +:+
  "| Mon | 8 | 8 | 8 | 1 | 08:00:00" +:+ CVParser.en_dash +:+ "09:00:00 UTC |"
    +:+ CVParser.newline +:+
  "## Day-of-Week Summary" +:+ CVParser.newline +:+
  "| Day | Row Statistics | Empty Files Analysis | Processing Notes |" +:+ CVParser.newline +:+
  "|---|---|---|---|" +:+ CVParser.newline +:+
  "| Mon | rows | Min: 0<br>Max: 0<br>Mean: 0.00 | none |" +:+ CVParser.newline.

(** One file of source 207936 on Monday 2025-09-08: empty, uploaded at
    14:05, named after 2025-09-01. *)
Definition monday_file : FileMetadata :=
  file "1_M_Clave_settlement_20250901.csv" 0 "2025-09-08T14:05:00+00:00".

(** The data directory and the profiles of a run, at a given clock. *)
Definition world (now : datetime) : Agent.World :=
  Agent.mk_World now
    [("2025-09-08_20_00_UTC", [("207936", [monday_file]); ("999", [])])]
    {["207936_native.md" := profile_doc]}.

(** Profile documents on which the parser stops with an exception: an
    upload-window cell with two hyphens, an entity table whose header row
    names no "Monday", and a median written with two dots. *)
Definition two_hyphens_doc : string :=
  "## Upload Schedule Patterns by Day" +:+ CVParser.newline +:+
  "| Day | Mean Upload Hour | Median | Mode | StdDev | Upload Time Window Expected |"
    +:+ CVParser.newline +:+
  "|---|---|---|---|---|---|" +:+ CVParser.newline +:+
  "| Mon | 8 | 8 | 8 | 1 | 08:00:00-09:00:00 UTC-5 |" +:+ CVParser.newline.

Definition short_header_doc : string :=
  "## Entity Statistics by Day of Week" +:+ CVParser.newline +:+
  "| Entity | Mon | Tue |" +:+ CVParser.newline +:+
  "|---|---|---|" +:+ CVParser.newline +:+
  "| Clave | Median Files: 1.00 | Median Files: 1.00 |" +:+ CVParser.newline.

Definition dotted_number_doc : string :=
  "## Entity Statistics by Day of Week" +:+ CVParser.newline +:+
  "| Entity | Monday | Tuesday |" +:+ CVParser.newline +:+
  "|---|---|---|" +:+ CVParser.newline +:+
  "| Clave | Median Files: 1.00<br>Median Rows: 1.250.000 | Median Files: 1.00 |"
    +:+ CVParser.newline.

End Sample.

(** ** Notions used to state further properties of the code *)

(** The more severe of two statuses. *)
Definition worst (a b : IncidentSeverity) : IncidentSeverity :=
  match a, b with
  | URGENT, _ | _, URGENT => URGENT
  | NEEDS_ATTENTION, _ | _, NEEDS_ATTENTION => NEEDS_ATTENTION
  | ALL_GOOD, ALL_GOOD => ALL_GOOD
  end.

(** The entities to which the files of a batch are attributed, file by
    file. *)
Definition attributed_entities (cv : SourceCV) (files : list FileMetadata) : list string :=
  omap (λ f, match_entity cv (filename f)) files.

(** The incident of the file-count check for a batch of [n] files, if any. *)
Definition missing_count_incidents (cv : SourceCV) (stats : gmap string number) (n : Z)
    : list Incident :=
  if num_lt (PyInt n) (effective_minimum stats)
  then [MissingFileDetector.count_incident cv (effective_minimum stats)
          (get0 stats "mean") (get0 stats "min") n]
  else [].


(** The late-upload check runs for a date when the weekday has a window
    whose end reads as [%H:%M:%S]. *)
Definition late_check_enabled (cv : SourceCV) (current_date : datetime) : Prop :=
  ∃ window end_time_str end_time,
    upload_window_by_day cv !! PyDatetime.strftime_a current_date = Some window
    ∧ w_end window = Some end_time_str
    ∧ PyDatetime.strptime_HMS end_time_str = Ok end_time.

(** A file record with another upload timestamp. *)
Definition with_uploaded_at (f : FileMetadata) (s : string) : FileMetadata :=
  mk_FileMetadata (filename f) (rows f) (status f) (is_duplicated f) (file_size f) s
    (status_message f).

(** The severity each incident type is raised with. *)
Definition type_severity (t : IncidentType) : IncidentSeverity :=
  match t with
  | MISSING_FILE | DUPLICATED_FILE | UNEXPECTED_EMPTY => URGENT
  | VOLUME_VARIATION | LATE_UPLOAD => NEEDS_ATTENTION
  | PREVIOUS_FILE => ALL_GOOD
  end.

(** An incident that belongs to the analysis of a batch against a profile:
    it carries the source id of the profile, the severity of its type, and
    either the name of a file of the batch or, for the two checks on the
    batch as a whole, no file name. *)
Definition incident_of_batch (cv : SourceCV) (files : list FileMetadata) (i : Incident)
    : Prop :=
  source_id i = cv_source_id cv
  ∧ severity i = type_severity (incident_type i)
  ∧ match file_name i with
    | Some name => name ∈ filename <$> files
    | None => incident_type i = MISSING_FILE ∨ incident_type i = VOLUME_VARIATION
    end.

(** A source has a profile when [datasource_cvs] holds its document. *)
Definition has_profile (w : Agent.World) (source_id : string) : Prop :=
  is_Some (Agent.datasource_cvs w !! (source_id +:+ "_native.md")).

#[global] Instance has_profile_dec w source_id : Decision (has_profile w source_id).
Proof. unfold has_profile. apply _. Defined.

(** The files of a source that were uploaded on the day of the run. *)
Definition daily_files (date_str : string) (file_list : list FileMetadata)
    : list FileMetadata :=
  List.filter (λ f, PyStr.startswith date_str (uploaded_at f)) file_list.

(** A profile document of a source that the day's [files.json] lists. *)
Definition listed_profile (w : Agent.World) (date_str content : string) : Prop :=
  ∃ folder files_data source_id,
    List.find (λ item, PyStr.startswith date_str item.1) (Agent.data_dir w)
    = Some (folder, files_data)
    ∧ source_id ∈ files_data.*1
    ∧ Agent.datasource_cvs w !! (source_id +:+ "_native.md") = Some content.

(** What an entry of [expected_files_by_day] looks like when it comes from
    the parser: the six statistics, none of them negative, the minimum and
    the maximum as integers. *)
Definition file_stats_entry (st : gmap string number) : Prop :=
  dom st = list_to_set ["mean"; "median"; "mode"; "min"; "max"; "std_dev"]
  ∧ (∀ key v, st !! key = Some v → (0 <= num_Q v)%Q)
  ∧ ∃ lo hi, st !! "min" = Some (PyInt lo) ∧ st !! "max" = Some (PyInt hi).

(** What an entry of [entity_stats] looks like when it comes from the
    parser: a non-empty name and medians that are not negative. *)
Definition entity_entry (x : string * gmap string EntityDayStats) : Prop :=
  x.1 ≠ ""
  ∧ ∀ day ds, x.2 !! day = Some ds →
      (0 <= num_Q (ds_median_files ds))%Q ∧ (0 <= num_Q (ds_median_rows ds))%Q.

(** The digits at the head of a text, and the text behind them. *)
Fixpoint leading_digits (s : string) : string :=
  match s with
  | String c s' => if PyStr.is_digit c then String c (leading_digits s') else EmptyString
  | EmptyString => EmptyString
  end.

Fixpoint skip_digits (s : string) : string :=
  match s with
  | String c s' => if PyStr.is_digit c then skip_digits s' else s
  | EmptyString => EmptyString
  end.

(** The label in front of the source id of a profile document. *)
Definition resource_label : string := "**Resource ID**: ".

(** The incident types that the tools of the ReAct agent look for. *)
Definition tool_type (t : IncidentType) : bool :=
  match t with
  | MISSING_FILE | VOLUME_VARIATION | UNEXPECTED_EMPTY => true
  | DUPLICATED_FILE | LATE_UPLOAD | PREVIOUS_FILE => false
  end.

(** A source report of the pipeline and an entry of [scan_results] that
    belong together: the same source, and the incidents of the entry are the
    incidents of the report that the tools look for. *)
Definition scanned (r : SourceReport) (item : string * list Incident) : Prop :=
  sr_source_id r = item.1
  ∧ item.2 ≡ₚ filter (λ i, tool_type (incident_type i) = true) (sr_incidents r).

(** [s.isascii()]: every character of the text is in the ASCII range.  On
    such a text the character classes and the string methods of the
    embedding are those of Python. *)
Definition isascii (s : string) : bool :=
  PyStr.all_chars (λ c, (nat_of_ascii c <? 128)%nat) s.

(** ** Further sample data *)

Module SampleMore.

(** Two entities expected on Mondays, "Clave" before "POS". *)
Definition two_entity_cv : SourceCV :=
  mk_SourceCV "207936" {["Mon" := Sample.day_stats 1 1 1 0 3]} ∅ []
    [("Clave", {["Monday" := mk_EntityDayStats (PyFloat 1) (PyFloat 100)]});
     ("POS", {["Monday" := mk_EntityDayStats (PyFloat 1) (PyFloat 50)]})]
    ∅.

(** A file whose name holds the tokens of both entities. *)
Definition both_tokens_file : FileMetadata :=
  Sample.file "1_Clave_POS_settlement.csv" 100 "2025-09-08T08:00:00".


(** An upload window whose end is written without seconds. *)
Definition short_window_cv : SourceCV :=
  mk_SourceCV "207936" ∅ {["Mon" := mk_UploadWindow (Some "08:00") (Some "09:00")]}
    [] [] ∅.


(** The head of a profile document. *)
Definition heading_doc : string :=
  "# Source profile" +:+ CVParser.newline +:+
  "**Resource ID**: 207936 (native)" +:+ CVParser.newline.

End SampleMore.

(* ===================================================================== *)
(** * Part II: properties *)
(* ===================================================================== *)

(** ** Exceptions *)

Lemma bind_Ok {A B} (m : result A) (f : A → result B) b :
  m ≫= f = Ok b → ∃ a, m = Ok a ∧ f a = Ok b.
Proof. destruct m as [a|e]; [by exists a | discriminate]. Qed.

Lemma foldl_Ok {A B} (f : result A → B → result A) (l : list B) (a : A) :
  (∀ a x, ∃ a', f (Ok a) x = Ok a') → ∃ a', foldl f (Ok a) l = Ok a'.
Proof.
  intros Hf. revert a. induction l as [|x l IH]; intros a; [by exists a|].
  simpl. destruct (Hf a x) as [a' ->]. apply IH.
Qed.

(** ** Texts *)

Lemma str_app_cons c (a b : string) : String c a +:+ b = String c (a +:+ b).
Proof. reflexivity. Qed.

Lemma str_app_nil_l (b : string) : "" +:+ b = b.
Proof. reflexivity. Qed.

Lemma str_app_nil_r (s : string) : s +:+ "" = s.
Proof. induction s as [|c s IH]; [done|]. by rewrite str_app_cons, IH. Qed.

Lemma str_app_assoc (a b c : string) : (a +:+ b) +:+ c = a +:+ (b +:+ c).
Proof. induction a as [|x a IH]; [done|]. by rewrite !str_app_cons, IH. Qed.

Lemma str_length_app (a b : string) :
  String.length (a +:+ b) = (String.length a + String.length b)%nat.
Proof. induction a as [|x a IH]; [done|]. rewrite str_app_cons. simpl. by rewrite IH. Qed.

Lemma take_drop (n : nat) (s : string) : PyStr.take n s +:+ PyStr.drop n s = s.
Proof.
  revert s. induction n as [|n IH]; intros [|c s]; try done.
  simpl. by rewrite str_app_cons, IH.
Qed.

Lemma length_take (n : nat) (s : string) :
  (n ≤ String.length s)%nat → String.length (PyStr.take n s) = n.
Proof.
  revert s. induction n as [|n IH]; intros [|c s]; simpl; try done; try lia.
  intros H. rewrite IH; lia.
Qed.

Lemma length_drop (n : nat) (s : string) :
  String.length (PyStr.drop n s) = (String.length s - n)%nat.
Proof. revert s. induction n as [|n IH]; intros [|c s]; simpl; try done. Qed.

Lemma take_app_length (a b : string) : PyStr.take (String.length a) (a +:+ b) = a.
Proof.
  induction a as [|x a IH]; [by destruct b|].
  rewrite str_app_cons. simpl. by rewrite IH.
Qed.

Lemma drop_app_length (a b : string) : PyStr.drop (String.length a) (a +:+ b) = b.
Proof. induction a as [|x a IH]; [done|]. by rewrite str_app_cons. Qed.

Lemma startswith_app (t r : string) : PyStr.startswith t (t +:+ r) = true.
Proof.
  induction t as [|c t IH]; [done|].
  rewrite str_app_cons. simpl. by rewrite Ascii.eqb_refl.
Qed.

Lemma startswith_split (t s : string) :
  PyStr.startswith t s = true → s = t +:+ PyStr.drop (String.length t) s.
Proof.
  revert s. induction t as [|c t IH]; intros [|x s]; simpl; try done.
  intros [->%Ascii.eqb_eq H]%andb_true_iff. rewrite str_app_cons. f_equal. by apply IH.
Qed.

Lemma all_chars_app p (a b : string) :
  PyStr.all_chars p (a +:+ b) = PyStr.all_chars p a && PyStr.all_chars p b.
Proof.
  induction a as [|x a IH]; [done|].
  rewrite str_app_cons. simpl. by rewrite IH, andb_assoc.
Qed.

(** ** The matcher on the shapes of pattern the sources use *)

Section RunLemmas.
Context {R : Type}.
Implicit Types (k : string → option string → option R) (s : string).

Lemma run_lit t s cap k :
  t ≠ "" →
  Re.run (Re.lit t) s cap k
  = if PyStr.startswith t s then k (PyStr.drop (String.length t) s) cap else None.
Proof.
  revert s. induction t as [|c t IH]; intros s Ht; [done|].
  destruct t as [|c' t].
  - destruct s as [|x s]; simpl; [done|]. by rewrite andb_true_r.
  - change (Re.lit (String c (String c' t)))
      with (Re.Cat (Re.chr c) (Re.lit (String c' t))).
    destruct s as [|x s]; [done|].
    cbn [Re.run Re.chr]. rewrite IH by done.
    change (PyStr.startswith (String c (String c' t)) (String x s))
      with (Ascii.eqb c x && PyStr.startswith (String c' t) s).
    by destruct (Ascii.eqb c x).
Qed.

Lemma run_rep n p s cap k :
  Re.run (Re.rep (S n) (Re.Chr p)) s cap k
  = if (S n <=? String.length s)%nat && PyStr.all_chars p (PyStr.take (S n) s)
    then k (PyStr.drop (S n) s) cap else None.
Proof.
  revert s. induction n as [|n IH]; intros s.
  - destruct s as [|x s]; simpl; [done|].
    destruct s; by rewrite andb_true_r.
  - change (Re.rep (S (S n)) (Re.Chr p))
      with (Re.Cat (Re.Chr p) (Re.rep (S n) (Re.Chr p))).
    destruct s as [|x s]; [done|].
    cbn [Re.run]. rewrite IH.
    change (PyStr.all_chars p (PyStr.take (S (S n)) (String x s)))
      with (p x && PyStr.all_chars p (PyStr.take (S n) s)).
    change (S (S n) <=? String.length (String x s))%nat
      with (S n <=? String.length s)%nat.
    destruct (p x); [done|]. by rewrite andb_false_r.
Qed.
End RunLemmas.

(** ** Consolidation of one source *)

Lemma count_severity_pos s incidents :
  (0 < count_severity s incidents)%nat ↔ Exists (λ i, severity i = s) incidents.
Proof.
  unfold count_severity. induction incidents as [|i l IH]; simpl.
  - split; [lia | by intros ?%Exists_nil].
  - rewrite filter_cons, Exists_cons. case_decide; simpl; [|tauto].
    split; [by left | lia].
Qed.

Lemma consolidate_source_status sid incidents pc tr :
  sr_status (ReportGenerator.consolidate_source sid incidents pc tr)
  = severity_policy incidents.
Proof.
  unfold ReportGenerator.consolidate_source, severity_policy; simpl.
  fold (count_severity URGENT incidents).
  fold (count_severity NEEDS_ATTENTION incidents).
  pose proof (count_severity_pos URGENT incidents) as HU.
  pose proof (count_severity_pos NEEDS_ATTENTION incidents) as HN.
  repeat case_bool_decide; try reflexivity; try tauto; lia.
Qed.

Lemma count_severity_drop_all_good s incidents :
  s ≠ ALL_GOOD →
  count_severity s (filter (λ i, severity i ≠ ALL_GOOD) incidents)
  = count_severity s incidents.
Proof.
  intros Hs. unfold count_severity. f_equal.
  induction incidents as [|i l IH]; [done|].
  rewrite !filter_cons. repeat case_decide; rewrite ?filter_cons;
    repeat case_decide; try congruence; try done.
Qed.

(** C2.  [consolidate_source] follows the severity policy: one Urgent
    incident makes the source Urgent; otherwise more than three
    NeedsAttention incidents make it Urgent; otherwise one NeedsAttention
    incident makes it NeedsAttention; otherwise it is AllGood.  Incidents of
    AllGood severity do not change the outcome; three NeedsAttention
    incidents without an Urgent one give NeedsAttention, four give Urgent. *)
Theorem consolidate_source_policy sid incidents pc tr :
  (Exists (λ i, severity i = URGENT) incidents →
     sr_status (ReportGenerator.consolidate_source sid incidents pc tr) = URGENT)
  ∧ (¬ Exists (λ i, severity i = URGENT) incidents →
     (3 < count_severity NEEDS_ATTENTION incidents)%nat →
     sr_status (ReportGenerator.consolidate_source sid incidents pc tr) = URGENT)
  ∧ (¬ Exists (λ i, severity i = URGENT) incidents →
     (count_severity NEEDS_ATTENTION incidents ≤ 3)%nat →
     Exists (λ i, severity i = NEEDS_ATTENTION) incidents →
     sr_status (ReportGenerator.consolidate_source sid incidents pc tr) = NEEDS_ATTENTION)
  ∧ (¬ Exists (λ i, severity i = URGENT) incidents →
     ¬ Exists (λ i, severity i = NEEDS_ATTENTION) incidents →
     sr_status (ReportGenerator.consolidate_source sid incidents pc tr) = ALL_GOOD)
  ∧ sr_status (ReportGenerator.consolidate_source sid
                 (filter (λ i, severity i ≠ ALL_GOOD) incidents) pc tr)
    = sr_status (ReportGenerator.consolidate_source sid incidents pc tr)
  ∧ (count_severity URGENT incidents = 0%nat →
     count_severity NEEDS_ATTENTION incidents = 3%nat →
     sr_status (ReportGenerator.consolidate_source sid incidents pc tr) = NEEDS_ATTENTION)
  ∧ (count_severity URGENT incidents = 0%nat →
     count_severity NEEDS_ATTENTION incidents = 4%nat →
     sr_status (ReportGenerator.consolidate_source sid incidents pc tr) = URGENT).
Proof.
  rewrite !consolidate_source_status.
  pose proof (count_severity_pos URGENT incidents) as HU.
  pose proof (count_severity_pos NEEDS_ATTENTION incidents) as HN.
  pose proof (λ s, count_severity_drop_all_good s incidents) as Hf.
  repeat split.
  - intros H. unfold severity_policy. by rewrite bool_decide_eq_true_2.
  - intros H1 H2. unfold severity_policy.
    rewrite bool_decide_eq_false_2 by done. by rewrite bool_decide_eq_true_2.
  - intros H1 H2 H3. unfold severity_policy.
    rewrite bool_decide_eq_false_2 by done.
    rewrite bool_decide_eq_false_2 by lia. by rewrite bool_decide_eq_true_2.
  - intros H1 H2. unfold severity_policy.
    rewrite bool_decide_eq_false_2 by done.
    rewrite bool_decide_eq_false_2 by (intros ?; apply H2, HN; lia).
    by rewrite bool_decide_eq_false_2.
  - unfold severity_policy.
    pose proof (count_severity_pos URGENT (filter (λ i, severity i ≠ ALL_GOOD) incidents)) as HU'.
    pose proof (count_severity_pos NEEDS_ATTENTION (filter (λ i, severity i ≠ ALL_GOOD) incidents)) as HN'.
    rewrite Hf in HU', HN' by done. rewrite Hf by done.
    repeat case_bool_decide; try reflexivity; tauto.
  - intros H1 H2. unfold severity_policy.
    rewrite bool_decide_eq_false_2 by (intros ?%HU; lia).
    rewrite bool_decide_eq_false_2 by lia.
    rewrite bool_decide_eq_true_2; [done | apply HN; lia].
  - intros H1 H2. unfold severity_policy.
    rewrite bool_decide_eq_false_2 by (intros ?%HU; lia).
    by rewrite bool_decide_eq_true_2 by lia.
Qed.

Lemma consolidate_source_policy_witness :
  sr_status (ReportGenerator.consolidate_source "207936"
               [Sample.incident NEEDS_ATTENTION; Sample.incident ALL_GOOD;
                Sample.incident NEEDS_ATTENTION; Sample.incident NEEDS_ATTENTION] 3 10)
  = NEEDS_ATTENTION
  ∧ sr_status (ReportGenerator.consolidate_source "207936"
                 (replicate 4 (Sample.incident NEEDS_ATTENTION)) 4 10)
    = URGENT
  ∧ sr_status (ReportGenerator.consolidate_source "207936"
                 [Sample.incident ALL_GOOD; Sample.incident URGENT] 2 10)
    = URGENT.
Proof.
  split; [|split].
  - destruct (consolidate_source_policy "207936"
               [Sample.incident NEEDS_ATTENTION; Sample.incident ALL_GOOD;
                Sample.incident NEEDS_ATTENTION; Sample.incident NEEDS_ATTENTION] 3 10)
      as (_ & _ & _ & _ & _ & H & _).
    apply H; reflexivity.
  - destruct (consolidate_source_policy "207936"
               (replicate 4 (Sample.incident NEEDS_ATTENTION)) 4 10)
      as (_ & _ & _ & _ & _ & _ & H).
    apply H; reflexivity.
  - destruct (consolidate_source_policy "207936"
               [Sample.incident ALL_GOOD; Sample.incident URGENT] 2 10)
      as (H & _).
    apply H. apply Exists_cons_tl, Exists_cons_hd. reflexivity.
Defined.

(** ** Weekdays without a file-count entry *)

(** C3.  When [expected_files_by_day] has no entry for the abbreviated weekday
    of the evaluation date, [MissingFileDetector.detect] returns the empty
    list: neither the file-count check nor the entity check runs, whatever
    the batch. *)
Theorem missing_file_disabled_weekday files cv current_date :
  expected_files_by_day cv !! PyDatetime.strftime_a current_date = None →
  MissingFileDetector.detect files cv current_date = Ok [].
Proof. intros H. unfold MissingFileDetector.detect. by rewrite H. Qed.

Lemma missing_file_disabled_weekday_witness :
  MissingFileDetector.detect [] Sample.entity_only_cv Sample.monday = Ok []
  ∧ MissingFileDetector.detect
      [Sample.file "a.csv" 5 "2025-09-08T08:00:00"; Sample.file "b.csv" 0 "2025-09-08T08:00:00"]
      Sample.blank_cv Sample.monday = Ok [].
Proof.
  split; apply missing_file_disabled_weekday; reflexivity.
Defined.

(** C10.  When [expected_files_by_day] has no entry for the abbreviated weekday
    of the evaluation date, [UnexpectedVolumeVariationDetector.detect]
    returns the empty list: the early return skips the per-file median-row
    check as well as the surge check, whatever [entity_stats] holds. *)
Theorem volume_variation_disabled_weekday files cv current_date :
  expected_files_by_day cv !! PyDatetime.strftime_a current_date = None →
  UnexpectedVolumeVariationDetector.detect files cv current_date = Ok [].
Proof. intros H. unfold UnexpectedVolumeVariationDetector.detect. by rewrite H. Qed.

Lemma volume_variation_disabled_weekday_witness :
  UnexpectedVolumeVariationDetector.detect
    [Sample.file "1_M_Clave_settlement.csv" 100000 "2025-09-08T08:00:00"]
    Sample.entity_only_cv Sample.monday = Ok [].
Proof.
  apply volume_variation_disabled_weekday. reflexivity.
Defined.

(** With a Monday entry whose [max] is positive, the same oversized file is
    reported by the per-file check: the early return is what silences it. *)
Example volume_variation_with_entry :
  UnexpectedVolumeVariationDetector.detect
    [Sample.file "1_M_Clave_settlement.csv" 100000 "2025-09-08T08:00:00"]
    Sample.zero_min_entity_cv Sample.monday
  = Ok [UnexpectedVolumeVariationDetector.rows_incident Sample.zero_min_entity_cv
          (Sample.file "1_M_Clave_settlement.csv" 100000 "2025-09-08T08:00:00")
          (PyFloat 100)].
Proof. reflexivity. Qed.

(** ** Empty files *)

Lemma empty_file_max_get0 cv current_date :
  get0 (default ∅ (empty_file_stats cv !! PyDatetime.strftime_a current_date)) "max"
  = empty_file_max cv current_date.
Proof.
  unfold empty_file_max, get0.
  destruct (empty_file_stats cv !! _) as [stats|]; simpl; [|by rewrite lookup_empty].
  by destruct (stats !! "max").
Qed.

(** C4.  With [max > 0] in the weekday's empty-file baseline (abbreviated
    label, 0 when absent) [UnexpectedEmptyFileDetector.detect] returns no
    incident, however many files are empty; otherwise it returns one Urgent
    UnexpectedEmpty incident for each file whose row count is 0. *)
Theorem unexpected_empty_tolerance files cv current_date :
  (num_gt (empty_file_max cv current_date) (PyInt 0) = true →
   UnexpectedEmptyFileDetector.detect files cv current_date = Ok [])
  ∧ (num_gt (empty_file_max cv current_date) (PyInt 0) = false →
     UnexpectedEmptyFileDetector.detect files cv current_date
     = Ok ((λ f, UnexpectedEmptyFileDetector.empty_incident cv f
                   (empty_file_max cv current_date))
           <$> filter (λ f, rows f = 0) files)
     ∧ Forall (λ i, severity i = URGENT ∧ incident_type i = UNEXPECTED_EMPTY)
         ((λ f, UnexpectedEmptyFileDetector.empty_incident cv f
                  (empty_file_max cv current_date))
          <$> filter (λ f, rows f = 0) files)).
Proof.
  unfold UnexpectedEmptyFileDetector.detect.
  rewrite empty_file_max_get0.
  split; intros Hmax; rewrite Hmax.
  - f_equal. induction files as [|f l IH]; [done|].
    simpl. rewrite IH. by destruct (rows f =? 0).
  - split.
    + f_equal. induction files as [|f l IH]; [done|].
      simpl. rewrite IH, filter_cons.
      destruct (Z.eqb_spec (rows f) 0); case_decide; try done.
    + apply Forall_fmap, Forall_forall. by intros f _.
Qed.

Lemma unexpected_empty_tolerance_witness :
  UnexpectedEmptyFileDetector.detect
    [Sample.file "a.csv" 0 "2025-09-08T08:00:00"] Sample.tolerant_cv Sample.monday = Ok []
  ∧ UnexpectedEmptyFileDetector.detect
      [Sample.file "a.csv" 0 "2025-09-08T08:00:00"; Sample.file "b.csv" 7 "2025-09-08T08:00:00";
       Sample.file "c.csv" 0 "2025-09-08T08:00:00"]
      Sample.strict_cv Sample.monday
    = Ok [UnexpectedEmptyFileDetector.empty_incident Sample.strict_cv
            (Sample.file "a.csv" 0 "2025-09-08T08:00:00") (PyFloat 0);
          UnexpectedEmptyFileDetector.empty_incident Sample.strict_cv
            (Sample.file "c.csv" 0 "2025-09-08T08:00:00") (PyFloat 0)].
Proof.
  split.
  - apply (unexpected_empty_tolerance
             [Sample.file "a.csv" 0 "2025-09-08T08:00:00"] Sample.tolerant_cv Sample.monday).
    reflexivity.
  - apply (unexpected_empty_tolerance
             [Sample.file "a.csv" 0 "2025-09-08T08:00:00";
              Sample.file "b.csv" 7 "2025-09-08T08:00:00";
              Sample.file "c.csv" 0 "2025-09-08T08:00:00"]
             Sample.strict_cv Sample.monday).
    reflexivity.
Defined.

(** ** Duplicated and failed files *)

Lemma is_flagged_test f :
  is_duplicated f || String.eqb (status f) "STOPPED" || String.eqb (status f) "failed"
  = bool_decide (is_flagged f).
Proof.
  symmetry. destruct (is_duplicated f) eqn:Ed; simpl;
    [by apply bool_decide_eq_true_2; left|].
  destruct (String.eqb_spec (status f) "STOPPED") as [E|E]; simpl;
    [by apply bool_decide_eq_true_2; right; left|].
  destruct (String.eqb_spec (status f) "failed") as [E'|E']; simpl;
    [by apply bool_decide_eq_true_2; right; right|].
  apply bool_decide_eq_false_2. intros [? | [? | ?]]; congruence.
Qed.

Lemma duplicated_failed_loop cv seen (prev : list string) files :
  (∀ x, x ∈ seen ↔ x ∈ prev) →
  DuplicatedFailedFileDetector.loop cv seen files
  = concat (imap (λ i f,
      (if decide (is_flagged f) then [DuplicatedFailedFileDetector.flag_incident cv f] else [])
      ++ (if decide (filename f ∈ prev ++ (filename <$> take i files))
          then [DuplicatedFailedFileDetector.name_incident cv f] else [])) files).
Proof.
  revert seen prev. induction files as [|f l IH]; intros seen prev Hseen; [done|].
  simpl. rewrite is_flagged_test, <- app_assoc, app_nil_r.
  rewrite (IH _ (prev ++ [filename f])).
  - f_equal; [by rewrite <- decide_bool_decide|]. f_equal.
    + rewrite decide_bool_decide. by rewrite (bool_decide_ext _ _ (Hseen (filename f))).
    + f_equal. apply imap_ext. intros i x _. simpl.
      by rewrite <- app_assoc.
  - intros x. rewrite elem_of_union, elem_of_singleton, elem_of_app, list_elem_of_singleton.
    rewrite Hseen. tauto.
Qed.

(** C6.  [DuplicatedFailedFileDetector.detect] returns, file by file, an Urgent
    DuplicatedFile incident when the file is flagged ([is_duplicated], or a
    status equal to "STOPPED" or "failed") and, independently, an Urgent
    DuplicatedFile incident when its name occurred earlier in the batch; a
    file in both situations yields the two incidents, one after the other. *)
Theorem duplicated_failed_detection files cv current_date :
  DuplicatedFailedFileDetector.detect files cv current_date
  = Ok (duplicated_failed_incidents cv files)
  ∧ Forall (λ i, severity i = URGENT ∧ incident_type i = DUPLICATED_FILE)
      (duplicated_failed_incidents cv files).
Proof.
  split.
  - unfold DuplicatedFailedFileDetector.detect, duplicated_failed_incidents.
    f_equal. apply (duplicated_failed_loop cv ∅ []). set_solver.
  - unfold duplicated_failed_incidents.
    apply Forall_concat, Forall_forall. intros l Hl.
    apply elem_of_lookup_imap in Hl as (i & f & -> & _).
    apply Forall_app. split; case_decide; by repeat constructor.
Qed.

(** A failed file whose name was seen before yields the two incidents; the
    status "Failed" is not the status "failed". *)
Example duplicated_failed_both :
  DuplicatedFailedFileDetector.detect
    [Sample.file "a.csv" 1 "2025-09-08T08:00:00";
     mk_FileMetadata "a.csv" 1 "failed" false None "2025-09-08T08:00:00" None;
     mk_FileMetadata "b.csv" 1 "Failed" false None "2025-09-08T08:00:00" None]
    Sample.blank_cv Sample.monday
  = Ok [DuplicatedFailedFileDetector.flag_incident Sample.blank_cv
          (mk_FileMetadata "a.csv" 1 "failed" false None "2025-09-08T08:00:00" None);
        DuplicatedFailedFileDetector.name_incident Sample.blank_cv
          (mk_FileMetadata "a.csv" 1 "failed" false None "2025-09-08T08:00:00" None)].
Proof. reflexivity. Qed.

(** ** Missing files *)

Lemma num_lt_count_zero n m :
  num_eq m (PyInt 0) = true → num_lt (PyInt (Z.of_nat n)) m = false.
Proof.
  unfold num_eq, num_lt. simpl. intros H%Qeq_bool_iff.
  apply negb_false_iff, Qle_bool_iff. rewrite H.
  rewrite <- Zle_Qle. lia.
Qed.

Lemma missing_entities_expected cv current_date (present : gset string) :
  Forall (λ i, ∃ e, e ∈ expected_entities cv current_date
                    ∧ i = MissingFileDetector.entity_incident cv e)
    (flat_map (λ '(entity, stats),
       match stats !! PyDatetime.strftime_A current_date with
       | None => []
       | Some day_stats =>
           if num_gt (ds_median_files day_stats) (PyInt 0)
              && bool_decide (entity ∉ present)
           then [MissingFileDetector.entity_incident cv entity] else []
       end) (entity_stats cv)).
Proof.
  unfold expected_entities.
  induction (entity_stats cv) as [|[entity stats] l IH]; [constructor|].
  simpl. apply Forall_app. split.
  - destruct (stats !! _) as [ds|]; [|constructor].
    destruct (num_gt (ds_median_files ds) (PyInt 0)); simpl; [|constructor].
    case_bool_decide; repeat constructor. exists entity. split; [left|done].
  - eapply Forall_impl; [apply IH|]. intros i (e & He & ->). exists e.
    split; [|done]. destruct (stats !! _) as [ds|]; [|done].
    destruct (num_gt _ _); [by right|done].
Qed.

Lemma missing_entities_empty_batch cv current_date :
  flat_map (λ '(entity, stats),
       match stats !! PyDatetime.strftime_A current_date with
       | None => []
       | Some day_stats =>
           if num_gt (ds_median_files day_stats) (PyInt 0)
              && bool_decide (entity ∉ (∅ : gset string))
           then [MissingFileDetector.entity_incident cv entity] else []
       end) (entity_stats cv)
  = MissingFileDetector.entity_incident cv <$> expected_entities cv current_date.
Proof.
  unfold expected_entities.
  induction (entity_stats cv) as [|[entity stats] l IH]; [done|].
  cbn [flat_map omap list_omap]. rewrite IH. destruct (stats !! _) as [ds|]; [|done].
  rewrite bool_decide_eq_true_2 by set_solver.
  by destruct (num_gt _ _).
Qed.

Lemma num_positive m :
  num_lt m (PyInt 0) = false → num_eq m (PyInt 0) = false → num_lt (PyInt 0) m = true.
Proof.
  unfold num_lt, num_eq. simpl.
  intros H1%negb_false_iff%Qle_bool_iff H2.
  apply negb_true_iff. destruct (Qle_bool (num_Q m) (inject_Z 0)) eqn:E; [|done].
  apply Qle_bool_iff in E. rewrite <- H2. symmetry. apply Qeq_bool_iff.
  by apply Qle_antisym.
Qed.

Lemma get0_empty key : get0 ∅ key = PyInt 0.
Proof. unfold get0. by rewrite lookup_empty. Qed.

(** C1 (amended).  With stats present for the abbreviated weekday, the
    file-count check of [MissingFileDetector.detect] raises one Urgent
    MissingFile incident, carrying the effective minimum, exactly when the
    number of files is below the effective minimum (1 when [min == 0] and the
    median or the mode is positive, [min] otherwise); all further incidents
    are the entity check's, one per expected entity.  On an empty batch whose
    weekday median or mode is positive and whose [min] is not negative, the
    file-count check raises exactly one incident, with effective minimum 1
    when [min == 0] and [min] otherwise, followed by one incident for every
    entity expected that weekday. *)
Theorem missing_file_threshold files cv current_date stats :
  expected_files_by_day cv !! PyDatetime.strftime_a current_date = Some stats →
  (∃ missing,
     MissingFileDetector.detect files cv current_date
     = Ok ((if num_lt (PyInt (Z.of_nat (length files))) (effective_minimum stats)
            then [MissingFileDetector.count_incident cv (effective_minimum stats)
                    (get0 stats "mean") (get0 stats "min") (Z.of_nat (length files))]
            else []) ++ missing)
     ∧ Forall (λ i, ∃ e, e ∈ expected_entities cv current_date
                         ∧ i = MissingFileDetector.entity_incident cv e) missing
     ∧ Forall (λ i, severity i = URGENT ∧ incident_type i = MISSING_FILE)
         ((if num_lt (PyInt (Z.of_nat (length files))) (effective_minimum stats)
           then [MissingFileDetector.count_incident cv (effective_minimum stats)
                   (get0 stats "mean") (get0 stats "min") (Z.of_nat (length files))]
           else []) ++ missing))
  ∧ (files = [] →
     num_lt (get0 stats "min") (PyInt 0) = false →
     num_gt (get0 stats "median") (PyInt 0) = true
     ∨ num_gt (get0 stats "mode") (PyInt 0) = true →
     MissingFileDetector.detect files cv current_date
     = Ok (MissingFileDetector.count_incident cv
             (if num_eq (get0 stats "min") (PyInt 0) then PyInt 1 else get0 stats "min")
             (get0 stats "mean") (get0 stats "min") 0
           :: (MissingFileDetector.entity_incident cv <$> expected_entities cv current_date))).
Proof.
  intros Hstats. split.
  - assert (∃ missing,
       MissingFileDetector.detect files cv current_date
       = Ok ((if num_lt (PyInt (Z.of_nat (length files))) (effective_minimum stats)
              then [MissingFileDetector.count_incident cv (effective_minimum stats)
                      (get0 stats "mean") (get0 stats "min") (Z.of_nat (length files))]
              else []) ++ missing)
       ∧ Forall (λ i, ∃ e, e ∈ expected_entities cv current_date
                           ∧ i = MissingFileDetector.entity_incident cv e) missing)
      as (missing & Hdetect & Hmissing).
    { unfold MissingFileDetector.detect. rewrite Hstats.
      case_bool_decide as Hempty.
      + exists []. split; [|constructor]. subst stats.
        unfold effective_minimum. rewrite !get0_empty. simpl.
        by rewrite (num_lt_count_zero _ (PyInt 0)).
      + eexists. split; [|apply missing_entities_expected].
        f_equal. f_equal. unfold effective_minimum.
        destruct (num_eq (get0 stats "min") (PyInt 0)) eqn:Emin; simpl; [|done].
        destruct (num_gt (get0 stats "median") (PyInt 0)
                  || num_gt (get0 stats "mode") (PyInt 0)); [done|].
        by rewrite !num_lt_count_zero. }
    exists missing. split; [done|]. split; [done|].
    apply Forall_app. split.
    + destruct (num_lt _ _); by repeat constructor.
    + eapply Forall_impl; [exact Hmissing|]. by intros i (e & _ & ->).
  - intros -> Hmin Hmed.
    unfold MissingFileDetector.detect. rewrite Hstats.
    rewrite bool_decide_eq_false_2.
    2:{ intros ->. rewrite !get0_empty in Hmed. by destruct Hmed. }
    simpl foldl. rewrite missing_entities_empty_batch.
    assert (Hor : num_gt (get0 stats "median") (PyInt 0)
                  || num_gt (get0 stats "mode") (PyInt 0) = true)
      by (destruct Hmed as [-> | ->]; by rewrite ?orb_true_r).
    rewrite Hor. simpl length.
    destruct (num_eq (get0 stats "min") (PyInt 0)) eqn:Emin; [done|].
    change (Z.of_nat 0) with 0. by rewrite num_positive.
Qed.

Lemma missing_file_threshold_witness :
  MissingFileDetector.detect [] Sample.zero_min_entity_cv Sample.monday
  = Ok [MissingFileDetector.count_incident Sample.zero_min_entity_cv
          (PyInt 1) (PyFloat 1) (PyInt 0) 0;
        MissingFileDetector.entity_incident Sample.zero_min_entity_cv "Clave"].
Proof.
  destruct (missing_file_threshold [] Sample.zero_min_entity_cv Sample.monday
              (Sample.day_stats 1 1 1 0 3) eq_refl) as [_ H].
  apply H; [reflexivity | reflexivity | left; reflexivity].
Defined.

(** Counterexample to C1 as worded, on two empty batches whose Monday median is positive:
    with a historical minimum of 2 the one incident carries 2 as its
    effective minimum, and with an entity expected on Mondays the detector
    emits two Urgent MissingFile incidents. *)
Lemma missing_file_empty_batch_counterexample :
  (expected_files_by_day Sample.min_two_cv !! PyDatetime.strftime_a Sample.monday
   = Some (Sample.day_stats 2 2 2 2 3)
   ∧ num_gt (get0 (Sample.day_stats 2 2 2 2 3) "median") (PyInt 0) = true
   ∧ MissingFileDetector.detect [] Sample.min_two_cv Sample.monday
     = Ok [MissingFileDetector.count_incident Sample.min_two_cv
             (PyInt 2) (PyFloat 2) (PyInt 2) 0]
   ∧ ¬ one_incident_with_minimum_1 Sample.min_two_cv Sample.monday)
  ∧ (expected_files_by_day Sample.zero_min_entity_cv !! PyDatetime.strftime_a Sample.monday
     = Some (Sample.day_stats 1 1 1 0 3)
     ∧ num_gt (get0 (Sample.day_stats 1 1 1 0 3) "median") (PyInt 0) = true
     ∧ MissingFileDetector.detect [] Sample.zero_min_entity_cv Sample.monday
       = Ok [MissingFileDetector.count_incident Sample.zero_min_entity_cv
               (PyInt 1) (PyFloat 1) (PyInt 0) 0;
             MissingFileDetector.entity_incident Sample.zero_min_entity_cv "Clave"]
     ∧ ¬ one_incident_with_minimum_1 Sample.zero_min_entity_cv Sample.monday).
Proof.
  assert (H2 : MissingFileDetector.detect [] Sample.min_two_cv Sample.monday
               = Ok [MissingFileDetector.count_incident Sample.min_two_cv
                       (PyInt 2) (PyFloat 2) (PyInt 2) 0]) by reflexivity.
  assert (H1 : MissingFileDetector.detect [] Sample.zero_min_entity_cv Sample.monday
               = Ok [MissingFileDetector.count_incident Sample.zero_min_entity_cv
                       (PyInt 1) (PyFloat 1) (PyInt 0) 0;
                     MissingFileDetector.entity_incident Sample.zero_min_entity_cv "Clave"])
    by reflexivity.
  repeat split; try reflexivity.
  - intros (i & n & Hd & _ & _ & Hmin & Hn).
    rewrite H2 in Hd. injection Hd as <-. simpl in Hmin.
    injection Hmin as <-. discriminate Hn.
  - intros (i & n & Hd & _). rewrite H1 in Hd. discriminate Hd.
Qed.

(** ** Late uploads *)

Lemma time_range h m sec us t :
  PyDatetime.time h m sec us = Ok t → 0 ≤ t < PyDatetime.USEC_PER_DAY.
Proof.
  unfold PyDatetime.time, PyDatetime.USEC_PER_DAY.
  destruct (_ && _) eqn:E; [|discriminate]. intros [= <-].
  repeat (apply andb_true_iff in E as [E ?]).
  repeat match goal with
         | H : (_ <=? _) = true |- _ => apply Z.leb_le in H
         | H : (_ <? _) = true |- _ => apply Z.ltb_lt in H
         end.
  lia.
Qed.

Lemma strptime_HMS_range s t :
  PyDatetime.strptime_HMS s = Ok t → 0 ≤ t < PyDatetime.USEC_PER_DAY.
Proof.
  unfold PyDatetime.strptime_HMS.
  destruct (PyStr.split ":" s) as [|h [|m [|sec [|? ?]]]]; try discriminate.
  intros (hour & _ & H)%bind_Ok. apply bind_Ok in H as (minute & _ & H).
  apply bind_Ok in H as (second & _ & H). by apply time_range in H.
Qed.

Lemma fromisoformat_range s dt tz :
  PyDatetime.fromisoformat s = Ok (dt, tz) → 0 ≤ dt_usec dt < PyDatetime.USEC_PER_DAY.
Proof.
  unfold PyDatetime.fromisoformat.
  intros (year & _ & H)%bind_Ok. apply bind_Ok in H as (month & _ & H).
  apply bind_Ok in H as (day & _ & H).
  destruct (negb _); [discriminate|].
  apply bind_Ok in H as (d & _ & H).
  destruct (PyStr.drop 10 s) as [|c tstr].
  { injection H as <- _. simpl. unfold PyDatetime.USEC_PER_DAY. lia. }
  destruct (PyDatetime.split_offset tstr) as [timestr off].
  apply bind_Ok in H as ([[[hh mm] ss] us] & _ & H).
  apply bind_Ok in H as (t & Et%time_range & H).
  destruct off as [o|].
  - apply bind_Ok in H as (? & _ & H). by injection H as <- _.
  - by injection H as <- _.
Qed.

Lemma gt_linear a b :
  0 ≤ dt_usec a < PyDatetime.USEC_PER_DAY →
  0 ≤ dt_usec b < PyDatetime.USEC_PER_DAY →
  PyDatetime.gt a b = bool_decide (dt_linear b < dt_linear a).
Proof.
  unfold PyDatetime.gt, dt_linear, PyDatetime.USEC_PER_DAY. intros Ha Hb.
  destruct (Z.ltb_spec (dt_ordinal b) (dt_ordinal a)); simpl.
  - symmetry. apply bool_decide_eq_true_2. nia.
  - destruct (Z.eqb_spec (dt_ordinal b) (dt_ordinal a)) as [E|E]; simpl.
    + rewrite E. destruct (Z.ltb_spec (dt_usec b) (dt_usec a)); symmetry.
      * apply bool_decide_eq_true_2. lia.
      * apply bool_decide_eq_false_2. lia.
    + symmetry. apply bool_decide_eq_false_2. nia.
Qed.

Lemma add_hours_4 o t :
  1 ≤ o < PyDatetime.MAXORDINAL → 0 ≤ t < PyDatetime.USEC_PER_DAY →
  ∃ tol, PyDatetime.add_hours (PyDatetime.combine o t) 4 = Ok tol
         ∧ 0 ≤ dt_usec tol < PyDatetime.USEC_PER_DAY
         ∧ dt_linear tol = o * PyDatetime.USEC_PER_DAY + t + 4 * 3600 * 1000000.
Proof.
  unfold PyDatetime.add_hours, PyDatetime.combine, dt_linear, PyDatetime.MAXORDINAL,
    PyDatetime.USEC_PER_DAY. simpl. intros Ho Ht.
  pose proof (Z.div_mod (t + 4 * 3600000000) 86400000000 ltac:(lia)) as Hdm.
  pose proof (Z.mod_pos_bound (t + 4 * 3600000000) 86400000000 ltac:(lia)) as Hm.
  assert (0 ≤ (t + 4 * 3600000000) / 86400000000 ≤ 1) as Hq.
  { split; [apply Z.div_pos; lia|].
    apply Z.lt_succ_r. apply Z.div_lt_upper_bound; lia. }
  eexists. split.
  - rewrite (proj2 (andb_true_iff _ _)); [reflexivity|].
    split; [apply Z.leb_le | apply Z.leb_le]; lia.
  - simpl. split; lia.
Qed.

Lemma fmap_cons_filter {A B} (g : A → B) (P : A → Prop) `{∀ x, Decision (P x)} x l :
  g <$> filter P (x :: l) = (if decide (P x) then [g x] else []) ++ (g <$> filter P l).
Proof. rewrite filter_cons. by case_decide. Qed.

Lemma late_upload_loop cv end_time_str expected_end_dt tolerance_dt deadline files :
  0 ≤ dt_usec tolerance_dt < PyDatetime.USEC_PER_DAY →
  dt_linear tolerance_dt = deadline →
  Forall (λ f, ∃ r, PyDatetime.fromisoformat (uploaded_at f) = Ok r) files →
  LateUploadDetector.loop cv end_time_str expected_end_dt tolerance_dt files
  = (λ f, LateUploadDetector.late_incident cv f (wall_clock f) end_time_str expected_end_dt)
    <$> filter (λ f, deadline < dt_linear (wall_clock f)) files.
Proof.
  intros Htol <-. induction 1 as [|f l [[up tz] Hup] _ IH]; [done|].
  assert (Hw : wall_clock f = up) by (unfold wall_clock; by rewrite Hup).
  simpl. rewrite Hup, IH, fmap_cons_filter, Hw.
  rewrite (gt_linear up tolerance_dt) by eauto using fromisoformat_range.
  rewrite <- decide_bool_decide. by case_decide.
Qed.

(** C5.  For a profile whose upload window of the evaluation date's
    abbreviated weekday has an end time, and well-formed inputs (the end time
    reads as [%H:%M:%S], the evaluation date is a calendar date with a next
    day, every upload timestamp is in ISO format),
    [LateUploadDetector.detect] returns one NeedsAttention LateUpload
    incident for each file whose upload timestamp, its offset dropped, is
    strictly after the window-end time on the evaluation date plus four
    hours, and none for the other files. *)
Theorem late_upload_deadline files cv current_date window end_time_str end_time :
  upload_window_by_day cv !! PyDatetime.strftime_a current_date = Some window →
  w_end window = Some end_time_str →
  PyDatetime.strptime_HMS end_time_str = Ok end_time →
  1 ≤ dt_ordinal current_date < PyDatetime.MAXORDINAL →
  Forall (λ f, ∃ r, PyDatetime.fromisoformat (uploaded_at f) = Ok r) files →
  LateUploadDetector.detect files cv current_date
  = Ok ((λ f, LateUploadDetector.late_incident cv f (wall_clock f) end_time_str
                (PyDatetime.combine (dt_ordinal current_date) end_time))
        <$> filter (λ f, tolerance_deadline current_date end_time < dt_linear (wall_clock f))
              files)
  ∧ Forall (λ i, severity i = NEEDS_ATTENTION ∧ incident_type i = LATE_UPLOAD)
      ((λ f, LateUploadDetector.late_incident cv f (wall_clock f) end_time_str
               (PyDatetime.combine (dt_ordinal current_date) end_time))
       <$> filter (λ f, tolerance_deadline current_date end_time < dt_linear (wall_clock f))
             files).
Proof.
  intros Hwin Hend Htime Hdate Hfiles. split.
  - unfold LateUploadDetector.detect. rewrite Hwin, Hend.
    destruct (String.eqb_spec end_time_str "") as [->|_]; [discriminate Htime|].
    rewrite Htime. simpl.
    destruct (add_hours_4 (dt_ordinal current_date) end_time Hdate
                (strptime_HMS_range _ _ Htime)) as (tol & -> & Hrange & Hlin).
    simpl. f_equal. by apply late_upload_loop.
  - apply Forall_fmap, Forall_forall. by intros f _.
Qed.

Lemma late_upload_deadline_witness :
  LateUploadDetector.detect
    [Sample.file "a.csv" 10 "2025-09-08T14:05:00+00:00";
     Sample.file "b.csv" 10 "2025-09-08T12:30:00+00:00"]
    Sample.window_cv Sample.monday
  = Ok [LateUploadDetector.late_incident Sample.window_cv
          (Sample.file "a.csv" 10 "2025-09-08T14:05:00+00:00")
          (mk_datetime 739502 50700000000) "09:00:00" (mk_datetime 739502 32400000000)].
Proof.
  apply (late_upload_deadline
           [Sample.file "a.csv" 10 "2025-09-08T14:05:00+00:00";
            Sample.file "b.csv" 10 "2025-09-08T12:30:00+00:00"]
           Sample.window_cv Sample.monday
           (mk_UploadWindow (Some "08:00:00") (Some "09:00:00")) "09:00:00" 32400000000).
  - reflexivity.
  - reflexivity.
  - reflexivity.
  - unfold PyDatetime.MAXORDINAL. simpl. lia.
  - repeat constructor; eexists; reflexivity.
Defined.

(** ** Files of a previous period *)

(** C7.  On two inputs [PreviousFileDetector.detect] does not do what the
    claim says.  A name that ends with a newline, and so does not end with
    [.csv], is evaluated all the same and yields an incident, since [$] also
    matches in front of a final newline; and on the evaluation date
    0001-01-02 a file with a date suffix makes the detector raise
    [OverflowError], which [except ValueError] does not catch, instead of
    deciding about the file.  The scenario of the claim is met: on
    2025-09-10 a name that ends with [_20250907.csv] yields one incident and
    a name that ends with [_20250909.csv] none. *)
Theorem previous_file_slips :
  (¬ (∃ stem, Sample.newline_name = stem +:+ ".csv")
   ∧ PreviousFileDetector.detect
       [Sample.file Sample.newline_name 10 "2025-09-10T08:00:00"]
       Sample.blank_cv Sample.wednesday
     = Ok [PreviousFileDetector.previous_incident Sample.blank_cv
             (Sample.file Sample.newline_name 10 "2025-09-10T08:00:00") 739501])
  ∧ PreviousFileDetector.detect
      [Sample.file "x_00010101.csv" 10 "0001-01-02T08:00:00"]
      Sample.blank_cv Sample.second_day
    = Raise OverflowError
  ∧ PreviousFileDetector.detect
      [Sample.file "1_M_Clave_settlement_20250907.csv" 10 "2025-09-10T08:00:00";
       Sample.file "1_M_Clave_settlement_20250909.csv" 10 "2025-09-10T08:00:00"]
      Sample.blank_cv Sample.wednesday
    = Ok [PreviousFileDetector.previous_incident Sample.blank_cv
            (Sample.file "1_M_Clave_settlement_20250907.csv" 10 "2025-09-10T08:00:00")
            739501].
Proof.
  split_and!; try reflexivity.
  intros [stem Hname].
  assert (Hlen : String.length stem = 11%nat).
  { apply (f_equal String.length) in Hname. rewrite str_length_app in Hname.
    change (String.length Sample.newline_name) with 15%nat in Hname.
    simpl in Hname. lia. }
  do 11 (destruct stem as [|? stem]; [discriminate Hlen|]).
  destruct stem; [|discriminate Hlen].
  vm_compute in Hname. discriminate Hname.
Qed.

(** ** A run of the pipeline *)

(** The sample run: the empty file is Urgent, the upload at 14:05 is late,
    the file named after 2025-09-01 is from a previous period, and the
    source without a profile document is skipped. *)
Example sample_run :
  (λ report, (λ r, (sr_source_id r, sr_status r, incident_type <$> sr_incidents r))
               <$> sources report)
  <$> Agent.run (Sample.world Sample.monday) "2025-09-08"
  = Ok [("207936", URGENT, [UNEXPECTED_EMPTY; LATE_UPLOAD; PREVIOUS_FILE])].
Proof. reflexivity. Qed.

(** ** The profile parser *)

(** The file-count row of the sample document is read back as written. *)
Example profile_doc_file_stats :
  (λ cv, expected_files_by_day cv !! "Mon") <$> CVParser.parse_content Sample.profile_doc
  = Ok (Some (Sample.day_stats 2 2 2 1 3)).
Proof. reflexivity. Qed.

Lemma search_without_literal heading r content :
  heading ≠ "" →
  PyStr.contains heading content = false →
  Re.search (Re.Cat (Re.lit heading) r) content = None.
Proof.
  intros Hne. induction content as [|c content IH]; intros Hc.
  - cbn [Re.search Re.run]. rewrite run_lit by done.
    simpl in Hc. apply orb_false_iff in Hc as [-> _]. done.
  - cbn [PyStr.contains] in Hc. apply orb_false_iff in Hc as [Hs Hc].
    cbn [Re.search Re.run]. rewrite run_lit, Hs by done. by apply IH.
Qed.

(** Each of the four section extractors returns the empty mapping when the
    heading of its section does not occur in the document. *)
Lemma extractors_without_heading content :
  (PyStr.contains "File Processing Statistics by Day" content = false →
   CVParser._extract_file_stats content = Ok ∅)
  ∧ (PyStr.contains "Upload Schedule Patterns by Day" content = false →
     CVParser._extract_upload_window content = Ok ∅)
  ∧ (PyStr.contains "Entity Statistics by Day of Week" content = false →
     CVParser._extract_entity_stats content = Ok [])
  ∧ (PyStr.contains "Day-of-Week Summary" content = false →
     CVParser._extract_empty_file_stats content = Ok ∅).
Proof.
  unfold CVParser._extract_file_stats, CVParser._extract_upload_window,
    CVParser._extract_entity_stats, CVParser._extract_empty_file_stats,
    CVParser.table_pattern.
  repeat split; intros H; by rewrite search_without_literal.
Qed.

Lemma isdigit_app (a b : string) :
  PyStr.isdigit (a +:+ b) = true →
  PyStr.all_chars PyStr.is_digit a = true ∧ PyStr.all_chars PyStr.is_digit b = true
  ∧ negb (String.eqb (a +:+ b) "") = true.
Proof.
  unfold PyStr.isdigit. rewrite all_chars_app.
  intros [? [? ?]%andb_true_iff]%andb_true_iff. done.
Qed.

(** Under its guard, [float] does not raise. *)
Lemma float_guarded c :
  PyStr.isdigit (PyStr.replace1 "." "" c) = true → ∃ x, PyStr.float c = Ok x.
Proof.
  unfold PyStr.replace1, PyStr.float.
  destruct (PyStr.split_once "." c) as [[a b]|].
  - rewrite str_app_nil_l. intros (-> & -> & ->)%isdigit_app. eauto.
  - intros ->. eauto.
Qed.

Lemma float_or_0_Ok c : ∃ n, CVParser.float_or_0 c = Ok n.
Proof.
  unfold CVParser.float_or_0.
  destruct (PyStr.isdigit _) eqn:E; [|eauto].
  destruct (float_guarded c E) as [x ->]. eauto.
Qed.

Lemma int_or_0_Ok c : ∃ n, CVParser.int_or_0 c = Ok n.
Proof.
  unfold CVParser.int_or_0, PyStr.int.
  destruct (PyStr.isdigit c); eauto.
Qed.

(** The file-count extractor and the empty-file extractor return a mapping
    for every document: a cell that is not a number becomes 0 in the first
    and is left out in the second.  (This holds for [isdigit] as embedded
    here, on ASCII digits; characters such as a superscript two, which
    Python's [isdigit] accepts and [float] rejects, are outside the
    embedding.) *)
Lemma guarded_extractors_total content :
  (∃ stats, CVParser._extract_file_stats content = Ok stats)
  ∧ (∃ stats, CVParser._extract_empty_file_stats content = Ok stats).
Proof.
  split.
  - unfold CVParser._extract_file_stats.
    destruct (Re.search _ content) as [m|]; [|eauto].
    apply foldl_Ok. intros stats row. cbn [mbind result_bind].
    destruct (7 <=? _)%nat; [|eauto].
    destruct (float_or_0_Ok (CVParser.col (CVParser.columns row) 1)) as [? ->].
    destruct (float_or_0_Ok (CVParser.col (CVParser.columns row) 2)) as [? ->].
    destruct (float_or_0_Ok (CVParser.col (CVParser.columns row) 3)) as [? ->].
    destruct (int_or_0_Ok (CVParser.col (CVParser.columns row) 5)) as [? ->].
    destruct (int_or_0_Ok (CVParser.col (CVParser.columns row) 6)) as [? ->].
    destruct (float_or_0_Ok (CVParser.col (CVParser.columns row) 4)) as [? ->].
    cbn [mbind result_bind]. eauto.
  - unfold CVParser._extract_empty_file_stats.
    destruct (Re.search _ content) as [m|]; [|eauto].
    apply foldl_Ok. intros stats row. cbn [mbind result_bind].
    destruct (3 <=? _)%nat; [|eauto].
    assert (∃ day_stats, CVParser.empty_day_stats
                           (CVParser.col (CVParser.columns row) 2) = Ok day_stats)
      as [day_stats ->]; [|cbn [mbind result_bind]; eauto].
    unfold CVParser.empty_day_stats. apply foldl_Ok.
    intros day_stats line. cbn [mbind result_bind].
    destruct (PyStr.split_once ":" line) as [[key val]|]; [|eauto].
    destruct (PyStr.isdigit _) eqn:E; [|eauto].
    destruct (float_guarded _ E) as [x ->]. cbn [mbind result_bind]. eauto.
Qed.

(** C8.  The parser stops with an exception on readable documents: an
    upload-window cell with two hyphens fails the unpacking of its split
    ([ValueError]), an entity table whose header row does not name "Monday"
    fails the indexing of the header ([IndexError]), and a median written
    with two dots fails [float] ([ValueError]).  Reading the document is
    therefore not the only fatal condition. *)
Theorem parse_raises_on_malformed_cells :
  CVParser.parse {["207936_native.md" := Sample.two_hyphens_doc]} "207936_native.md"
  = Raise ValueError
  ∧ CVParser.parse {["207936_native.md" := Sample.short_header_doc]} "207936_native.md"
    = Raise IndexError
  ∧ CVParser.parse {["207936_native.md" := Sample.dotted_number_doc]} "207936_native.md"
    = Raise ValueError
  ∧ CVParser.parse ∅ "207936_native.md" = Raise FileNotFoundError.
Proof. repeat split; reflexivity. Qed.

(* ===================================================================== *)
(** * Part III: further properties of the code *)
(* ===================================================================== *)

#[local] Set Warnings "-clear-no-such-hyp".

(** ** The overall report *)

Lemma count_status_pos s (rs : list SourceReport) :
  (0 < length (filter (λ r, sr_status r = s) rs))%nat ↔ Exists (λ r, sr_status r = s) rs.
Proof.
  induction rs as [|r rs IH]; simpl.
  - split; [lia | by intros ?%Exists_nil].
  - rewrite filter_cons, Exists_cons. case_decide; simpl; [|tauto].
    split; [by left | lia].
Qed.

Lemma generate_status_worst now date rs :
  cr_status (ReportGenerator.generate now date rs)
  = foldr (λ r acc, worst (sr_status r) acc) ALL_GOOD rs.
Proof.
  unfold ReportGenerator.generate. simpl.
  induction rs as [|r rs IH]; [done|].
  simpl foldr. rewrite <- IH. rewrite !filter_cons.
  destruct (sr_status r) eqn:E; repeat case_decide; try congruence; simpl length;
    repeat case_bool_decide; try done; lia.
Qed.

Lemma worst_status_urgent (rs : list SourceReport) :
  foldr (λ r acc, worst (sr_status r) acc) ALL_GOOD rs = URGENT
  ↔ Exists (λ r, sr_status r = URGENT) rs.
Proof.
  induction rs as [|r rs IH]; simpl.
  - split; [done | by intros ?%Exists_nil].
  - rewrite Exists_cons, <- IH.
    destruct (sr_status r), (foldr _ _ rs); simpl; intuition (try congruence).
Qed.

Lemma worst_status_attention (rs : list SourceReport) :
  foldr (λ r acc, worst (sr_status r) acc) ALL_GOOD rs = NEEDS_ATTENTION
  ↔ ¬ Exists (λ r, sr_status r = URGENT) rs
    ∧ Exists (λ r, sr_status r = NEEDS_ATTENTION) rs.
Proof.
  induction rs as [|r rs IH]; simpl.
  - split; [done | by intros [_ ?%Exists_nil]].
  - pose proof (worst_status_urgent rs) as HU.
    rewrite !Exists_cons.
    destruct (sr_status r), (foldr _ _ rs); simpl; intuition (try congruence).
Qed.

Lemma worst_status_all_good (rs : list SourceReport) :
  foldr (λ r acc, worst (sr_status r) acc) ALL_GOOD rs = ALL_GOOD
  ↔ Forall (λ r, sr_status r = ALL_GOOD) rs.
Proof.
  induction rs as [|r rs IH]; simpl.
  - split; [constructor | done].
  - rewrite Forall_cons, <- IH.
    destruct (sr_status r), (foldr _ _ rs); simpl; intuition (try congruence).
Qed.

(** X1.  The overall status of a report is the worst status among its source
    reports: Urgent exactly when some source is Urgent, NeedsAttention exactly
    when no source is Urgent and some source needs attention, AllGood
    exactly when every source is AllGood (also for no source at all); it
    does not depend on the order of the sources, and the report keeps the
    source reports in the order given. *)
Theorem generate_overall_status now date rs :
  (cr_status (ReportGenerator.generate now date rs) = URGENT
   ↔ Exists (λ r, sr_status r = URGENT) rs)
  ∧ (cr_status (ReportGenerator.generate now date rs) = NEEDS_ATTENTION
     ↔ ¬ Exists (λ r, sr_status r = URGENT) rs
       ∧ Exists (λ r, sr_status r = NEEDS_ATTENTION) rs)
  ∧ (cr_status (ReportGenerator.generate now date rs) = ALL_GOOD
     ↔ Forall (λ r, sr_status r = ALL_GOOD) rs)
  ∧ (∀ now' date' rs', rs ≡ₚ rs' →
     cr_status (ReportGenerator.generate now' date' rs')
     = cr_status (ReportGenerator.generate now date rs))
  ∧ sources (ReportGenerator.generate now date rs) = rs.
Proof.
  rewrite generate_status_worst.
  split; [apply worst_status_urgent|].
  split; [apply worst_status_attention|].
  split; [apply worst_status_all_good|].
  split; [|done].
  intros now' date' rs' Hp. rewrite generate_status_worst.
  induction Hp as [|r l l' _ IH|r r' l|l l' l'' _ IH1 _ IH2]; simpl.
  - done.
  - by rewrite IH.
  - by destruct (sr_status r), (sr_status r'), (foldr _ _ l).
  - by rewrite IH2, IH1.
Qed.

(** ** The pipeline *)

Lemma foldl_Raise {A B} (g : A → B → result A) (l : list B) e :
  foldl (λ acc x, acc ≫= λ a, g a x) (Raise e) l = Raise e.
Proof. induction l as [|x l IH]; [done|]. simpl. apply IH. Qed.

(** An invariant of the accumulator of a loop that stops at the first
    exception. *)
Lemma foldl_bind_inv {A B} (g : A → B → result A) (P : A → Prop) l init final :
  P init →
  (∀ a x a', P a → x ∈ l → g a x = Ok a' → P a') →
  foldl (λ acc x, acc ≫= λ a, g a x) (Ok init) l = Ok final →
  P final.
Proof.
  revert init. induction l as [|x l IH]; intros init Hinit Hstep; simpl.
  - by intros [= <-].
  - destruct (g init x) as [a'|e] eqn:Hg.
    + apply IH.
      * eapply Hstep; [done | left | done].
      * intros a y b ? ?. apply Hstep; [done | by right].
    + by rewrite foldl_Raise.
Qed.

Lemma source_step_Ok w date_str current_date rs source_id file_list rs' :
  Agent.source_step w date_str current_date rs source_id file_list = Ok rs' →
  (Agent.datasource_cvs w !! (source_id +:+ "_native.md") = None ∧ rs' = rs)
  ∨ (∃ content cv r,
       Agent.datasource_cvs w !! (source_id +:+ "_native.md") = Some content
       ∧ CVParser.parse_content content = Ok cv
       ∧ Agent.analyze_source source_id
           (List.filter (λ f, PyStr.startswith date_str (uploaded_at f)) file_list)
           cv current_date = Ok r
       ∧ rs' = rs ++ [r]).
Proof.
  unfold Agent.source_step, CVParser.parse.
  destruct (Agent.datasource_cvs w !! _) as [content|] eqn:Hcv.
  - intros (cv & Hparse & H)%bind_Ok. apply bind_Ok in H as (r & Hr & [= <-]).
    right. eauto 10.
  - intros [= <-]. by left.
Qed.

Lemma run_Ok w date_str report :
  Agent.run w date_str = Ok report →
  ∃ folder files_data current_date,
    List.find (λ item, PyStr.startswith date_str item.1) (Agent.data_dir w)
    = Some (folder, files_data)
    ∧ PyDatetime.strptime_Y_m_d date_str = Ok current_date
    ∧ foldl (λ acc x, acc ≫= λ rs, Agent.source_step w date_str current_date rs x.1 x.2)
        (Ok []) files_data = Ok (sources report)
    ∧ report = ReportGenerator.generate (Agent.utcnow w) date_str (sources report).
Proof.
  unfold Agent.run. destruct (List.find _ _) as [[folder files_data]|]; [|done].
  intros (current_date & Hd & H)%bind_Ok. apply bind_Ok in H as (rs & Hfold & [= <-]).
  exists folder, files_data, current_date.
  split; [done|]. split; [done|]. split; [|done].
  cbn [sources ReportGenerator.generate]. rewrite <- Hfold. clear.
  generalize (Ok [] : result (list SourceReport)).
  induction files_data as [|[sid fl] l IH]; intros acc; [done|]. simpl. apply IH.
Qed.

Lemma analyze_source_Ok source_id files cv current_date r :
  Agent.analyze_source source_id files cv current_date = Ok r →
  ∃ incidents,
    Agent.run_detectors Agent.detectors files cv current_date = Ok incidents
    ∧ r = ReportGenerator.consolidate_source source_id incidents
            (Z.of_nat (length files)) (foldr (λ f acc, rows f + acc) 0 files).
Proof.
  unfold Agent.analyze_source. intros (incidents & H & [= <-])%bind_Ok. eauto.
Qed.

(** Every source report of a run carries the consolidation of its own
    incidents. *)
Lemma run_reports_consolidated w date_str report :
  Agent.run w date_str = Ok report →
  Forall (λ r, sr_status r = severity_policy (sr_incidents r)) (sources report).
Proof.
  intros (folder & files_data & d & _ & _ & Hfold & _)%run_Ok.
  revert Hfold. apply foldl_bind_inv; [constructor|].
  intros rs [sid fl] rs' Hrs _ Hstep. simpl in Hstep.
  apply source_step_Ok in Hstep as [[_ ->] | (content & cv & r & _ & _ & Hr & ->)]; [done|].
  apply Forall_app. split; [done|]. constructor; [|constructor].
  apply analyze_source_Ok in Hr as (incidents & _ & ->).
  apply consolidate_source_status.
Qed.

(** X2.  In the report of a pipeline run the overall status is Urgent exactly
    when some source has an Urgent incident or more than three
    NeedsAttention incidents, and AllGood exactly when every incident of every
    source is of AllGood severity. *)
Theorem run_overall_status w date_str report :
  Agent.run w date_str = Ok report →
  (cr_status report = URGENT
   ↔ Exists (λ r, Exists (λ i, severity i = URGENT) (sr_incidents r)
                  ∨ (3 < count_severity NEEDS_ATTENTION (sr_incidents r))%nat)
       (sources report))
  ∧ (cr_status report = ALL_GOOD
     ↔ Forall (λ r, Forall (λ i, severity i = ALL_GOOD) (sr_incidents r)) (sources report)).
Proof.
  intros Hrun. pose proof (run_reports_consolidated _ _ _ Hrun) as Hcons.
  apply run_Ok in Hrun as (_ & _ & _ & _ & _ & _ & Hrep).
  rewrite Hrep at 1 3. rewrite !generate_status_worst.
  rewrite worst_status_urgent, worst_status_all_good.
  rewrite !Exists_exists, !Forall_forall. rewrite Forall_forall in Hcons.
  split.
  - split; intros (r & Hr & H); exists r; (split; [done|]);
      specialize (Hcons r Hr); rewrite Hcons in *; unfold severity_policy in *;
      repeat case_bool_decide; try done; tauto.
  - split; intros H r Hr; specialize (H r Hr); specialize (Hcons r Hr).
    + rewrite Hcons in H. unfold severity_policy in H.
      pose proof (count_severity_pos URGENT (sr_incidents r)) as HU.
      pose proof (count_severity_pos NEEDS_ATTENTION (sr_incidents r)) as HN.
      repeat case_bool_decide; try done.
      apply Forall_forall. intros i Hi.
      destruct (severity i) eqn:E; [| |done].
      * exfalso. apply H0, Exists_exists. eauto.
      * exfalso. apply H2, Exists_exists. eauto.
    + rewrite Hcons. unfold severity_policy.
      rewrite Forall_forall in H.
      rewrite bool_decide_eq_false_2.
      2:{ intros (i & Hi & E)%Exists_exists. rewrite (H i Hi) in E. done. }
      assert (¬ Exists (λ i, severity i = NEEDS_ATTENTION) (sr_incidents r)) as HnN.
      { intros (i & Hi & E)%Exists_exists. rewrite (H i Hi) in E. done. }
      rewrite bool_decide_eq_false_2.
      2:{ intros Hlt. apply HnN, count_severity_pos. lia. }
      by rewrite bool_decide_eq_false_2.
Qed.

Lemma run_overall_status_witness :
  ∃ report,
    Agent.run (Sample.world Sample.monday) "2025-09-08" = Ok report
    ∧ (cr_status report = URGENT
       ↔ Exists (λ r, Exists (λ i, severity i = URGENT) (sr_incidents r)
                      ∨ (3 < count_severity NEEDS_ATTENTION (sr_incidents r))%nat)
           (sources report)).
Proof.
  eexists. split; [vm_compute; reflexivity|].
  apply (run_overall_status (Sample.world Sample.monday) "2025-09-08").
  vm_compute. reflexivity.
Defined.

(** ** The entity check of the missing-file detector *)

Lemma present_entities_spec cv files (acc : gset string) x :
  x ∈ foldl (λ present f,
               match match_entity cv (filename f) with
               | Some entity => {[entity]} ∪ present
               | None => present
               end) acc files
  ↔ x ∈ acc ∨ x ∈ attributed_entities cv files.
Proof.
  revert acc. induction files as [|f files IH]; intros acc; simpl.
  - unfold attributed_entities. simpl. rewrite elem_of_nil. tauto.
  - rewrite IH. unfold attributed_entities. cbn [omap list_omap].
    destruct (match_entity cv (filename f)) as [e|]; cbn [omap list_omap]; [|tauto].
    set_solver.
Qed.

Lemma missing_entities_filter cv current_date (present : gset string) (att : list string) :
  (∀ x, x ∈ present ↔ x ∈ att) →
  flat_map (λ '(entity, stats),
       match stats !! PyDatetime.strftime_A current_date with
       | None => []
       | Some day_stats =>
           if num_gt (ds_median_files day_stats) (PyInt 0)
              && bool_decide (entity ∉ present)
           then [MissingFileDetector.entity_incident cv entity] else []
       end) (entity_stats cv)
  = MissingFileDetector.entity_incident cv
    <$> filter (λ e, e ∉ att) (expected_entities cv current_date).
Proof.
  intros Hp. unfold expected_entities.
  induction (entity_stats cv) as [|[entity stats] l IH]; [done|].
  cbn [flat_map omap list_omap]. rewrite IH.
  destruct (stats !! _) as [ds|]; [|done].
  destruct (num_gt _ _); [|done]. cbn [andb]. rewrite filter_cons.
  case_bool_decide as Hb; case_decide as Hd; try done.
  - exfalso. rewrite Hp in Hb. tauto.
  - exfalso. rewrite Hp in Hb. tauto.
Qed.

Lemma missing_file_detect_shape files cv current_date stats :
  expected_files_by_day cv !! PyDatetime.strftime_a current_date = Some stats →
  stats ≠ ∅ →
  MissingFileDetector.detect files cv current_date
  = Ok (missing_count_incidents cv stats (Z.of_nat (length files))
        ++ (MissingFileDetector.entity_incident cv
            <$> filter (λ e, e ∉ attributed_entities cv files)
                  (expected_entities cv current_date))).
Proof.
  intros Hstats Hne. unfold MissingFileDetector.detect. rewrite Hstats.
  rewrite bool_decide_eq_false_2 by done.
  rewrite (missing_entities_filter cv current_date _ (attributed_entities cv files)).
  2:{ intros x. rewrite present_entities_spec. set_solver. }
  f_equal. f_equal. unfold missing_count_incidents, effective_minimum.
  destruct (num_eq (get0 stats "min") (PyInt 0)) eqn:Emin; simpl; [|done].
  destruct (num_gt (get0 stats "median") (PyInt 0)
            || num_gt (get0 stats "mode") (PyInt 0)); [done|].
  by rewrite !num_lt_count_zero.
Qed.

(** X3.  With a non-empty stats entry for the weekday, the incidents of
    [MissingFileDetector.detect] are the incident of the file-count check, if
    any, followed by one incident per expected entity to which no file of the
    batch is attributed, in profile order; an entity is reported exactly when
    it is expected that weekday and is not the first match of any file
    name. *)
Theorem missing_file_entity_check files cv current_date stats :
  expected_files_by_day cv !! PyDatetime.strftime_a current_date = Some stats →
  stats ≠ ∅ →
  MissingFileDetector.detect files cv current_date
  = Ok (missing_count_incidents cv stats (Z.of_nat (length files))
        ++ (MissingFileDetector.entity_incident cv
            <$> filter (λ e, e ∉ attributed_entities cv files)
                  (expected_entities cv current_date)))
  ∧ (∀ e, MissingFileDetector.entity_incident cv e
          ∈ missing_count_incidents cv stats (Z.of_nat (length files))
            ++ (MissingFileDetector.entity_incident cv
                <$> filter (λ e, e ∉ attributed_entities cv files)
                      (expected_entities cv current_date))
          ↔ e ∈ expected_entities cv current_date
            ∧ ∀ f, f ∈ files → match_entity cv (filename f) ≠ Some e).
Proof.
  intros Hstats Hne. split; [by apply missing_file_detect_shape|].
  intros e. rewrite elem_of_app, list_elem_of_fmap.
  assert (Hatt : e ∉ attributed_entities cv files
                 ↔ ∀ f, f ∈ files → match_entity cv (filename f) ≠ Some e).
  { unfold attributed_entities. rewrite list_elem_of_omap. naive_solver. }
  split.
  - intros [Hc | (e' & Heq & Hin)].
    + unfold missing_count_incidents in Hc. destruct (num_lt _ _); [|by apply elem_of_nil in Hc].
      by apply list_elem_of_singleton in Hc.
    + injection Heq as <-. apply list_elem_of_filter in Hin as [Hna Hexp].
      by rewrite <- Hatt.
  - intros [Hexp Hna]. right. exists e. split; [done|].
    apply list_elem_of_filter. by rewrite Hatt.
Qed.

Lemma day_stats_nonempty mean median mode min max : Sample.day_stats mean median mode min max ≠ ∅.
Proof.
  intros H. apply (f_equal (λ m : gmap string number, m !! "min")) in H.
  unfold Sample.day_stats in H. by simplify_map_eq.
Qed.

Lemma missing_file_entity_check_witness :
  MissingFileDetector.detect [Sample.file "1_M_POS_settlement.csv" 5 "2025-09-08T08:00:00"]
    SampleMore.two_entity_cv Sample.monday
  = Ok [MissingFileDetector.entity_incident SampleMore.two_entity_cv "Clave"].
Proof.
  apply (missing_file_entity_check
           [Sample.file "1_M_POS_settlement.csv" 5 "2025-09-08T08:00:00"]
           SampleMore.two_entity_cv Sample.monday (Sample.day_stats 1 1 1 0 3)).
  - reflexivity.
  - apply day_stats_nonempty.
Defined.

(** X4.  Attribution is by first match: when the token of the first entity of
    the profile occurs in every file name of the batch, every other entity
    expected that weekday is reported missing, also when its own token
    occurs in those names. *)
Theorem first_match_masks_later_entities files cv current_date stats a a_stats others b :
  expected_files_by_day cv !! PyDatetime.strftime_a current_date = Some stats →
  stats ≠ ∅ →
  entity_stats cv = (a, a_stats) :: others →
  Forall (λ f, PyStr.contains ("_" +:+ a +:+ "_") (filename f) = true) files →
  b ∈ expected_entities cv current_date →
  b ≠ a →
  ∃ incidents,
    MissingFileDetector.detect files cv current_date = Ok incidents
    ∧ MissingFileDetector.entity_incident cv b ∈ incidents.
Proof.
  intros Hstats Hne Hes Hfiles Hb Hba. eexists. split.
  - by apply missing_file_detect_shape.
  - apply elem_of_app. right. apply list_elem_of_fmap. exists b. split; [done|].
    apply list_elem_of_filter. split; [|done].
    unfold attributed_entities. rewrite list_elem_of_omap. intros (f & Hf & Hm).
    rewrite Forall_forall in Hfiles. specialize (Hfiles f Hf).
    unfold match_entity in Hm. rewrite Hes in Hm. simpl in Hm.
    rewrite Hfiles in Hm. congruence.
Qed.

Lemma first_match_masks_later_entities_witness :
  ∃ incidents,
    MissingFileDetector.detect [SampleMore.both_tokens_file]
      SampleMore.two_entity_cv Sample.monday = Ok incidents
    ∧ MissingFileDetector.entity_incident SampleMore.two_entity_cv "POS" ∈ incidents.
Proof.
  apply (first_match_masks_later_entities [SampleMore.both_tokens_file]
           SampleMore.two_entity_cv Sample.monday (Sample.day_stats 1 1 1 0 3)
           "Clave" {["Monday" := mk_EntityDayStats (PyFloat 1) (PyFloat 100)]}
           [("POS", {["Monday" := mk_EntityDayStats (PyFloat 1) (PyFloat 50)]})] "POS").
  - reflexivity.
  - apply day_stats_nonempty.
  - reflexivity.
  - repeat constructor.
  - vm_compute. apply list_elem_of_In. simpl. tauto.
  - discriminate.
Defined.

(** ** The volume-variation detector *)

Lemma no_surge_on_empty_batch m :
  num_gt (PyInt 0) (num_mul m (PyFloat (3 # 2))) && num_gt m (PyInt 0) = false.
Proof.
  destruct (num_gt m (PyInt 0)) eqn:Hm; [|apply andb_false_r].
  rewrite andb_true_r. unfold num_gt, num_lt in *.
  apply negb_true_iff in Hm. apply negb_false_iff, Qle_bool_iff.
  assert (num_Q (num_mul m (PyFloat (3 # 2))) = num_Q m * (3 # 2))%Q as ->
    by (by destruct m).
  simpl in *.
  assert (0 < num_Q m)%Q as Hpos.
  { apply Qnot_le_lt. intros H. apply Qle_bool_iff in H.
    change (inject_Z 0) with 0%Q in Hm. congruence. }
  apply Qmult_le_0_compat; [by apply Qlt_le_weak | done].
Qed.

Lemma flat_map_at_most_one {A B C} (g : A → list B) (h : A → C → B) (Q : A → Prop)
    (l : list A) :
  (∀ a, g a = [] ∨ ∃ c, g a = [h a c] ∧ Q a) →
  ∃ picked : list (A * C),
    flat_map g l = (λ x, h x.1 x.2) <$> picked
    ∧ picked.*1 `sublist_of` l
    ∧ Forall (λ x, Q x.1) picked.
Proof.
  intros Hg. induction l as [|a l (picked & IH & Hsub & HQ)].
  - exists []. repeat split; constructor.
  - change (flat_map g (a :: l)) with (g a ++ flat_map g l). rewrite IH.
    destruct (Hg a) as [-> | (c & -> & Ha)].
    + exists picked. split; [done|]. split; [by apply sublist_cons|done].
    + exists ((a, c) :: picked). split; [done|].
      split; [by apply sublist_skip|by constructor].
Qed.

(** X5.  Whatever [UnexpectedVolumeVariationDetector.detect] returns is made
    of at most one source-level incident followed by at most one incident
    per file, in batch order and only for files attributed to an entity;
    every incident is a NeedsAttention VolumeVariation incident, and an empty
    batch yields no incident at all. *)
Theorem volume_variation_shape files cv current_date incidents :
  UnexpectedVolumeVariationDetector.detect files cv current_date = Ok incidents →
  (∃ surge (flagged : list (FileMetadata * number)),
     incidents
     = surge ++ ((λ x, UnexpectedVolumeVariationDetector.rows_incident cv x.1 x.2) <$> flagged)
     ∧ (length surge ≤ 1)%nat
     ∧ Forall (λ i, file_name i = None) surge
     ∧ flagged.*1 `sublist_of` files
     ∧ Forall (λ x, is_Some (match_entity cv (filename x.1))) flagged)
  ∧ Forall (λ i, severity i = NEEDS_ATTENTION ∧ incident_type i = VOLUME_VARIATION) incidents
  ∧ (files = [] → incidents = []).
Proof.
  unfold UnexpectedVolumeVariationDetector.detect.
  destruct (expected_files_by_day cv !! _) as [stats|].
  2:{ intros [= <-]. split; [|by split]. exists [], [].
     split_and!; [done | simpl; lia | constructor | apply sublist_nil_l | constructor]. }
  case_bool_decide.
  { intros [= <-]. split; [|by split]. exists [], [].
     split_and!; [done | simpl; lia | constructor | apply sublist_nil_l | constructor]. }
  intros [= <-].
  match goal with |- context [flat_map ?g files] =>
    destruct (flat_map_at_most_one g
                (UnexpectedVolumeVariationDetector.rows_incident cv)
                (λ f, is_Some (match_entity cv (filename f))) files)
      as (flagged & -> & Hsub & Hent)
  end.
  { intros f. destruct (match_entity cv (filename f)) as [entity|]; [|by left].
    destruct (String.eqb entity ""); [by left|].
    destruct (default ∅ (od_get entity (entity_stats cv)) !! _) as [eds|]; [|by left].
    cbn zeta. destruct (num_gt (ds_median_rows eds) (PyInt 0)); [|by left].
    destruct (_ || _); [|by left]. right. eauto. }
  split; [|split].
  - eexists _, flagged. split; [done|].
    split; [|split; [|done]]; destruct (_ && _); simpl; repeat constructor; lia.
  - apply Forall_app. split.
    + destruct (_ && _); repeat constructor.
    + apply Forall_fmap, Forall_forall. by intros x _.
  - intros ->. apply sublist_nil_r in Hsub. apply fmap_nil_inv in Hsub as ->.
    simpl. by rewrite no_surge_on_empty_batch.
Qed.

Lemma volume_variation_shape_witness :
  ∃ incidents,
    UnexpectedVolumeVariationDetector.detect
      [Sample.file "notes.csv" 1 "2025-09-08T08:00:00"; SampleMore.both_tokens_file;
       Sample.file "1_M_Clave_settlement.csv" 100000 "2025-09-08T08:00:00"]
      SampleMore.two_entity_cv Sample.monday = Ok incidents
    ∧ Forall (λ i, severity i = NEEDS_ATTENTION ∧ incident_type i = VOLUME_VARIATION) incidents.
Proof.
  eexists. split; [vm_compute; reflexivity|].
  apply (volume_variation_shape
           [Sample.file "notes.csv" 1 "2025-09-08T08:00:00"; SampleMore.both_tokens_file;
            Sample.file "1_M_Clave_settlement.csv" 100000 "2025-09-08T08:00:00"]
           SampleMore.two_entity_cv Sample.monday).
  vm_compute. reflexivity.
Defined.

(** ** Edge behaviour of the late-upload detector *)

Lemma late_loop_stops cv end_time_str expected_end_dt tolerance_dt pre bad post e :
  Forall (λ f, ∃ r, PyDatetime.fromisoformat (uploaded_at f) = Ok r) pre →
  PyDatetime.fromisoformat (uploaded_at bad) = Raise e →
  LateUploadDetector.loop cv end_time_str expected_end_dt tolerance_dt (pre ++ bad :: post)
  = LateUploadDetector.loop cv end_time_str expected_end_dt tolerance_dt pre.
Proof.
  intros Hpre Hbad. induction Hpre as [|f pre [[up tz] Hf] _ IH]; simpl.
  - by rewrite Hbad.
  - by rewrite Hf, IH.
Qed.

(** A text that does not begin with four digits is no ISO timestamp. *)
Lemma fromisoformat_without_year s :
  PyDatetime.fixed_digits 4 (PyStr.take 4 s) = None →
  PyDatetime.fromisoformat s = Raise ValueError.
Proof. intros H. unfold PyDatetime.fromisoformat. by rewrite H. Qed.

(** X6.  An [uploaded_at] that does not begin with the four digits of a
    year, such as "08/09/2025 23:00" or the empty text, ends the late-upload
    check without an error: the files behind the first such timestamp are
    not examined, so the batch gives the incidents of the files in front of
    it. *)
Theorem late_upload_stops_at_malformed_timestamp pre bad post cv current_date :
  Forall (λ f, ∃ r, PyDatetime.fromisoformat (uploaded_at f) = Ok r) pre →
  PyDatetime.fixed_digits 4 (PyStr.take 4 (uploaded_at bad)) = None →
  LateUploadDetector.detect (pre ++ bad :: post) cv current_date
  = LateUploadDetector.detect pre cv current_date.
Proof.
  intros Hpre Hbad%fromisoformat_without_year. unfold LateUploadDetector.detect.
  destruct (upload_window_by_day cv !! _) as [window|]; [|done].
  destruct (w_end window) as [end_time_str|]; [|done].
  destruct (String.eqb end_time_str ""); [done|].
  destruct (PyDatetime.strptime_HMS end_time_str) as [end_time|]; [|done].
  cbn [mbind result_bind].
  destruct (PyDatetime.add_hours _ 4) as [tol|]; [|done].
  cbn [mbind result_bind try_except]. f_equal.
  by eapply late_loop_stops.
Qed.

Lemma late_upload_stops_at_malformed_timestamp_witness :
  LateUploadDetector.detect
    ([Sample.file "a.csv" 10 "2025-09-08T14:05:00+00:00"]
     ++ Sample.file "b.csv" 10 "08/09/2025 23:00"
        :: [Sample.file "c.csv" 10 "2025-09-08T23:30:00+00:00"])
    Sample.window_cv Sample.monday
  = LateUploadDetector.detect [Sample.file "a.csv" 10 "2025-09-08T14:05:00+00:00"]
      Sample.window_cv Sample.monday.
Proof.
  apply (late_upload_stops_at_malformed_timestamp
           [Sample.file "a.csv" 10 "2025-09-08T14:05:00+00:00"]
           (Sample.file "b.csv" 10 "08/09/2025 23:00")
           [Sample.file "c.csv" 10 "2025-09-08T23:30:00+00:00"]
           Sample.window_cv Sample.monday).
  - repeat constructor. eexists. vm_compute. reflexivity.
  - vm_compute. reflexivity.
Defined.

(** X7.  The late-upload check is switched off without an error unless the
    weekday has a window whose end reads as [%H:%M:%S]: with no window, no
    end, or an end in ASCII characters that does not read so, such as
    "09:00" or "9am", no file is reported, however late it was uploaded. *)
Theorem late_upload_disabled files cv current_date :
  ¬ late_check_enabled cv current_date →
  (∀ window end_time_str,
     upload_window_by_day cv !! PyDatetime.strftime_a current_date = Some window →
     w_end window = Some end_time_str →
     isascii end_time_str = true) →
  LateUploadDetector.detect files cv current_date = Ok [].
Proof.
  intros Hno _. unfold LateUploadDetector.detect.
  destruct (upload_window_by_day cv !! _) as [window|] eqn:Hw; [|done].
  destruct (w_end window) as [end_time_str|] eqn:He; [|done].
  destruct (String.eqb end_time_str ""); [done|].
  destruct (PyDatetime.strptime_HMS end_time_str) as [end_time|] eqn:Ht; [|done].
  destruct Hno. exists window, end_time_str, end_time. done.
Qed.

Lemma late_upload_disabled_witness :
  LateUploadDetector.detect [Sample.file "a.csv" 10 "2025-09-08T23:59:59+00:00"]
    SampleMore.short_window_cv Sample.monday = Ok [].
Proof.
  apply (late_upload_disabled [Sample.file "a.csv" 10 "2025-09-08T23:59:59+00:00"]
           SampleMore.short_window_cv Sample.monday).
  - intros (window & end_time_str & end_time & Hw & He & Ht).
    vm_compute in Hw. injection Hw as <-. injection He as <-.
    vm_compute in Ht. discriminate Ht.
  - intros window end_time_str Hw He.
    vm_compute in Hw. injection Hw as <-. injection He as <-. reflexivity.
Defined.

Lemma split_offset_app t a sign off :
  PyDatetime.split_offset t = (a, None) →
  sign = "+"%char ∨ sign = "-"%char →
  PyDatetime.split_offset (t +:+ String sign off) = (t, Some off).
Proof.
  intros Ht Hs. revert a Ht. induction t as [|c t IH]; intros a Ht.
  - rewrite str_app_nil_l. simpl. by destruct Hs as [-> | ->].
  - rewrite str_app_cons. simpl in *.
    destruct (Ascii.eqb c "+" || Ascii.eqb c "-"); [done|].
    destruct (PyDatetime.split_offset t) as [a' o] eqn:Ha.
    injection Ht as <- ->. by rewrite (IH a').
Qed.

Lemma split_offset_None t a : PyDatetime.split_offset t = (a, None) → a = t.
Proof.
  revert a. induction t as [|c t IH]; intros a Ht; simpl in *; [congruence|].
  destruct (Ascii.eqb c "+" || Ascii.eqb c "-"); [done|].
  destruct (PyDatetime.split_offset t) as [a' o] eqn:Ha.
  injection Ht as <- ->. by rewrite (IH a').
Qed.

Lemma fromisoformat_offset naive sign off dt :
  (10 < String.length naive)%nat →
  PyDatetime.fromisoformat naive = Ok (dt, false) →
  sign = "+"%char ∨ sign = "-"%char →
  PyDatetime.check_offset off = Some () →
  PyDatetime.fromisoformat (naive +:+ String sign off) = Ok (dt, true).
Proof.
  intros Hlen Hn Hs Ho.
  do 11 (destruct naive as [|? naive]; [simpl in Hlen; lia|]). clear Hlen.
  rewrite !str_app_cons. unfold PyDatetime.fromisoformat in *.
  cbn [PyStr.take PyStr.drop] in *.
  apply bind_Ok in Hn as (year & -> & Hn).
  apply bind_Ok in Hn as (month & -> & Hn).
  apply bind_Ok in Hn as (day & -> & Hn).
  cbn [mbind result_bind PyStr.startswith] in *.
  destruct (negb _); [done|].
  apply bind_Ok in Hn as (d & -> & Hn). cbn [mbind result_bind].
  destruct (PyDatetime.split_offset naive) as [timestr [o|]] eqn:Hsplit.
  - apply bind_Ok in Hn as ([[[hh mm] ss] us] & _ & Hn).
    apply bind_Ok in Hn as (t & _ & Hn).
    by apply bind_Ok in Hn as (? & _ & Hn).
  - pose proof (split_offset_None _ _ Hsplit) as ->.
    rewrite (split_offset_app _ _ sign off Hsplit Hs).
    apply bind_Ok in Hn as ([[[hh mm] ss] us] & -> & Hn).
    cbn [mbind result_bind].
    apply bind_Ok in Hn as (t & -> & Hn).
    cbn [mbind result_bind]. rewrite Ho. cbn [PyDatetime.of_option mbind result_bind].
    congruence.
Qed.

Lemma late_loop_congruence cv end_time_str expected_end_dt tolerance_dt pre f f' post :
  filename f = filename f' →
  fst <$> PyDatetime.fromisoformat (uploaded_at f)
  = fst <$> PyDatetime.fromisoformat (uploaded_at f') →
  LateUploadDetector.loop cv end_time_str expected_end_dt tolerance_dt (pre ++ f :: post)
  = LateUploadDetector.loop cv end_time_str expected_end_dt tolerance_dt (pre ++ f' :: post).
Proof.
  intros Hname Hdt. induction pre as [|g pre IH]; simpl.
  - unfold LateUploadDetector.late_incident. rewrite Hname.
    destruct (PyDatetime.fromisoformat (uploaded_at f)) as [[u tz]|],
      (PyDatetime.fromisoformat (uploaded_at f')) as [[u' tz']|];
      simpl in Hdt; try done.
    by injection Hdt as ->.
  - by rewrite IH.
Qed.

(** X8.  A UTC offset in [uploaded_at] plays no part in the late-upload
    check: the offset is dropped, not applied, so a file stamped with local
    time and an offset is judged exactly as the same wall-clock time without
    the offset. *)
Theorem late_upload_ignores_offset pre post f naive sign off dt cv current_date :
  uploaded_at f = naive +:+ String sign off →
  sign = "+"%char ∨ sign = "-"%char →
  (10 < String.length naive)%nat →
  PyDatetime.fromisoformat naive = Ok (dt, false) →
  PyDatetime.check_offset off = Some () →
  LateUploadDetector.detect (pre ++ f :: post) cv current_date
  = LateUploadDetector.detect (pre ++ with_uploaded_at f naive :: post) cv current_date.
Proof.
  intros Hf Hs Hlen Hn Ho.
  assert (∀ e x y, LateUploadDetector.loop cv e x y (pre ++ f :: post)
                   = LateUploadDetector.loop cv e x y
                       (pre ++ with_uploaded_at f naive :: post)) as Hloop.
  { intros e x y. apply late_loop_congruence; [done|].
    cbn [with_uploaded_at uploaded_at]. rewrite Hf.
    by rewrite (fromisoformat_offset naive sign off dt), Hn. }
  unfold LateUploadDetector.detect.
  destruct (upload_window_by_day cv !! _) as [window|]; [|done].
  destruct (w_end window) as [end_time_str|]; [|done].
  destruct (String.eqb end_time_str ""); [done|].
  destruct (PyDatetime.strptime_HMS end_time_str) as [end_time|]; [|done].
  cbn [mbind result_bind].
  destruct (PyDatetime.add_hours _ 4) as [tol|]; [|done].
  cbn [mbind result_bind try_except]. by rewrite Hloop.
Qed.

Lemma late_upload_ignores_offset_witness :
  LateUploadDetector.detect
    ([] ++ Sample.file "a.csv" 10 "2025-09-08T12:30:00-11:00" :: [])
    Sample.window_cv Sample.monday
  = LateUploadDetector.detect
      ([] ++ with_uploaded_at (Sample.file "a.csv" 10 "2025-09-08T12:30:00-11:00")
               "2025-09-08T12:30:00" :: [])
      Sample.window_cv Sample.monday.
Proof.
  apply (late_upload_ignores_offset [] [] (Sample.file "a.csv" 10 "2025-09-08T12:30:00-11:00")
           "2025-09-08T12:30:00" "-"%char "11:00" (mk_datetime 739502 45000000000)
           Sample.window_cv Sample.monday).
  - reflexivity.
  - by right.
  - simpl. lia.
  - vm_compute. reflexivity.
  - vm_compute. reflexivity.
Defined.

(** ** The detectors of the tools in the embedding *)

(** In the embedding, where the products of the volume check are exact, the
    missing-file and the volume detector return a list for every input. *)
Lemma missing_detect_Ok files cv current_date :
  ∃ incidents, MissingFileDetector.detect files cv current_date = Ok incidents.
Proof.
  unfold MissingFileDetector.detect.
  destruct (expected_files_by_day cv !! _) as [stats|]; [|by eexists].
  destruct (bool_decide (stats = ∅)); by eexists.
Qed.

Lemma volume_detect_Ok files cv current_date :
  ∃ incidents, UnexpectedVolumeVariationDetector.detect files cv current_date = Ok incidents.
Proof.
  unfold UnexpectedVolumeVariationDetector.detect.
  destruct (expected_files_by_day cv !! _) as [stats|]; [|by eexists].
  destruct (bool_decide (stats = ∅)); by eexists.
Qed.

(** ** Where the incidents of a source come from *)

Lemma incident_of_file cv files f i :
  f ∈ files →
  source_id i = cv_source_id cv →
  severity i = type_severity (incident_type i) →
  file_name i = Some (filename f) →
  incident_of_batch cv files i.
Proof.
  intros Hf Hs Hsev Hn. split; [done|]. split; [done|].
  rewrite Hn. by apply list_elem_of_fmap_2.
Qed.

Lemma incident_of_batch_cons cv f files i :
  incident_of_batch cv files i → incident_of_batch cv (f :: files) i.
Proof.
  intros (Hs & Hsev & Hn). split; [done|]. split; [done|].
  destruct (file_name i); [|done]. rewrite fmap_cons. by right.
Qed.

Lemma missing_of_batch files cv current_date incidents :
  MissingFileDetector.detect files cv current_date = Ok incidents →
  Forall (incident_of_batch cv files) incidents.
Proof.
  unfold MissingFileDetector.detect.
  destruct (expected_files_by_day cv !! _) as [stats|]; [|by intros [= <-]].
  destruct (bool_decide (stats = ∅)); [by intros [= <-]|].
  intros [= <-]. apply Forall_app. split.
  - destruct (num_lt _ _); repeat constructor.
  - apply Forall_flat_map, Forall_forall. intros [entity st] _.
    destruct (st !! _); [|done].
    destruct (_ && _); repeat constructor.
Qed.

Lemma duplicated_loop_of_batch cv seen files :
  Forall (incident_of_batch cv files) (DuplicatedFailedFileDetector.loop cv seen files).
Proof.
  revert seen. induction files as [|f files IH]; intros seen; [constructor|].
  cbn [DuplicatedFailedFileDetector.loop]. rewrite !Forall_app. split_and!.
  - destruct (_ || _); [|constructor]. constructor; [|constructor].
    by apply (incident_of_file _ _ f); [left|..].
  - destruct (bool_decide _); [|constructor]. constructor; [|constructor].
    by apply (incident_of_file _ _ f); [left|..].
  - eapply Forall_impl; [apply IH|]. intros i. apply incident_of_batch_cons.
Qed.

Lemma empty_of_batch files cv current_date incidents :
  UnexpectedEmptyFileDetector.detect files cv current_date = Ok incidents →
  Forall (incident_of_batch cv files) incidents.
Proof.
  intros [= <-]. apply Forall_flat_map, Forall_forall. intros f Hf.
  destruct (rows f =? 0); [|constructor].
  destruct (num_gt _ _); [constructor|]. constructor; [|constructor].
  by apply (incident_of_file _ _ f).
Qed.

Lemma volume_of_batch files cv current_date incidents :
  UnexpectedVolumeVariationDetector.detect files cv current_date = Ok incidents →
  Forall (incident_of_batch cv files) incidents.
Proof.
  unfold UnexpectedVolumeVariationDetector.detect.
  destruct (expected_files_by_day cv !! _) as [stats|]; [|by intros [= <-]].
  destruct (bool_decide (stats = ∅)); [by intros [= <-]|].
  intros [= <-]. apply Forall_app. split.
  - destruct (_ && _); [|constructor]. constructor; [|constructor].
    split; [done|]. split; [done|]. by right.
  - apply Forall_flat_map, Forall_forall. intros f Hf.
    destruct (match_entity cv (filename f)) as [entity|]; [|constructor].
    destruct (String.eqb entity ""); [constructor|].
    destruct (_ !! _) as [st|]; [|constructor].
    destruct (num_gt _ _); [|constructor].
    destruct (_ || _); [|constructor]. constructor; [|constructor].
    by apply (incident_of_file _ _ f).
Qed.

Lemma late_loop_of_batch cv end_time_str expected_end_dt tolerance_dt files :
  Forall (incident_of_batch cv files)
    (LateUploadDetector.loop cv end_time_str expected_end_dt tolerance_dt files).
Proof.
  induction files as [|f files IH]; [constructor|].
  cbn [LateUploadDetector.loop].
  destruct (PyDatetime.fromisoformat _) as [[uploaded tz]|]; [|constructor].
  apply Forall_app. split.
  - destruct (PyDatetime.gt _ _); [|constructor]. constructor; [|constructor].
    by apply (incident_of_file _ _ f); [left|..].
  - eapply Forall_impl; [apply IH|]. intros i. apply incident_of_batch_cons.
Qed.

Lemma late_of_batch files cv current_date incidents :
  LateUploadDetector.detect files cv current_date = Ok incidents →
  Forall (incident_of_batch cv files) incidents.
Proof.
  unfold LateUploadDetector.detect.
  destruct (upload_window_by_day cv !! _) as [window|]; [|by intros [= <-]].
  destruct (w_end window) as [end_time_str|]; [|by intros [= <-]].
  destruct (String.eqb end_time_str ""); [by intros [= <-]|].
  intros [= <-].
  destruct (PyDatetime.strptime_HMS end_time_str) as [end_time|]; [|constructor].
  cbn [mbind result_bind].
  destruct (PyDatetime.add_hours _ 4) as [tol|]; [|constructor].
  apply late_loop_of_batch.
Qed.

Lemma previous_of_batch files cv current_date incidents :
  PreviousFileDetector.detect files cv current_date = Ok incidents →
  Forall (incident_of_batch cv files) incidents.
Proof.
  revert incidents. induction files as [|f files IH]; intros incidents.
  - intros [= <-]. constructor.
  - cbn [PreviousFileDetector.detect].
    intros (here & Hhere & H)%bind_Ok. apply bind_Ok in H as (rest & Hrest & [= <-]).
    apply Forall_app. split.
    + destruct (Re.search _ _) as [m|]; [|injection Hhere as <-; constructor].
      destruct (PyDatetime.strptime_Ymd _) as [file_date|[]];
        try discriminate Hhere; [|injection Hhere as <-; constructor].
      apply bind_Ok in Hhere as (limit & _ & [= <-]).
      destruct (_ <? _); [|constructor]. constructor; [|constructor].
      by apply (incident_of_file _ _ f); [left|..].
    + eapply Forall_impl; [apply (IH _ Hrest)|]. intros i. apply incident_of_batch_cons.
Qed.

(** X10.  Every incident the detector suite returns for a batch carries the
    source id of the profile document (not the key of [files.json]), the
    severity that belongs to its type, and the name of a file of the batch;
    only missing-file and volume incidents can come without a file name. *)
Theorem detected_incidents_of_batch files cv current_date incidents :
  Agent.run_detectors Agent.detectors files cv current_date = Ok incidents →
  Forall (incident_of_batch cv files) incidents.
Proof.
  cbn [Agent.run_detectors Agent.detectors].
  intros (a & Ha & H)%bind_Ok. apply bind_Ok in H as (r1 & H & [= <-]).
  apply bind_Ok in H as (b & Hb & H). apply bind_Ok in H as (r2 & H & [= <-]).
  apply bind_Ok in H as (c & Hc & H). apply bind_Ok in H as (r3 & H & [= <-]).
  apply bind_Ok in H as (d & Hd & H). apply bind_Ok in H as (r4 & H & [= <-]).
  apply bind_Ok in H as (e & He & H). apply bind_Ok in H as (r5 & H & [= <-]).
  apply bind_Ok in H as (p & Hp & H). apply bind_Ok in H as (r6 & [= <-] & [= <-]).
  rewrite !Forall_app. split_and!.
  - by eapply missing_of_batch.
  - injection Hb as <-. apply duplicated_loop_of_batch.
  - by eapply empty_of_batch.
  - by eapply volume_of_batch.
  - by eapply late_of_batch.
  - by eapply previous_of_batch.
  - constructor.
Qed.

Lemma detected_incidents_of_batch_witness :
  ∃ incidents,
    Agent.run_detectors Agent.detectors
      [Sample.file "1_Clave_settlement_20250901.csv" 0 "2025-09-08T23:30:00+00:00";
       Sample.file "1_Clave_settlement_20250901.csv" 0 "2025-09-08T23:30:00+00:00"]
      Sample.window_cv Sample.monday = Ok incidents
    ∧ Forall (incident_of_batch Sample.window_cv
                [Sample.file "1_Clave_settlement_20250901.csv" 0 "2025-09-08T23:30:00+00:00";
                 Sample.file "1_Clave_settlement_20250901.csv" 0 "2025-09-08T23:30:00+00:00"])
        incidents.
Proof.
  eexists. split; [vm_compute; reflexivity|].
  apply (detected_incidents_of_batch
           [Sample.file "1_Clave_settlement_20250901.csv" 0 "2025-09-08T23:30:00+00:00";
            Sample.file "1_Clave_settlement_20250901.csv" 0 "2025-09-08T23:30:00+00:00"]
           Sample.window_cv Sample.monday).
  vm_compute. reflexivity.
Defined.

(** ** Duplicated, failed and empty files *)

Lemma duplicated_loop_nil cv seen files :
  DuplicatedFailedFileDetector.loop cv seen files = []
  ↔ Forall (λ f, ¬ is_flagged f) files
    ∧ NoDup (filename <$> files)
    ∧ Forall (λ f, filename f ∉ seen) files.
Proof.
  revert seen. induction files as [|f files IH]; intros seen.
  - simpl. split; [intros _|done]. split_and!; constructor.
  - cbn [DuplicatedFailedFileDetector.loop]. rewrite is_flagged_test.
    rewrite fmap_cons, NoDup_cons, !Forall_cons.
    destruct (bool_decide_reflect (is_flagged f)) as [Hfl|Hfl].
    { split; [done|]. tauto. }
    destruct (bool_decide_reflect (filename f ∈ seen)) as [Hin|Hin].
    { split; [done|]. tauto. }
    rewrite !app_nil_l, IH. split.
    + intros (Hflags & Hnd & Hseen). split_and!; try done.
      * intros (g & Hg & Hgin)%list_elem_of_fmap.
        rewrite Forall_forall in Hseen. apply (Hseen g Hgin). set_solver.
      * eapply Forall_impl; [apply Hseen|]. set_solver.
    + intros ((_ & Hflags) & (Hnotin & Hnd) & (_ & Hseen)). split_and!; try done.
      apply Forall_forall. intros g Hg.
      rewrite Forall_forall in Hseen. specialize (Hseen g Hg).
      intros [Heq%elem_of_singleton | ?]%elem_of_union; [|done].
      apply Hnotin. rewrite <- Heq. by apply list_elem_of_fmap_2.
Qed.

(** X11.  The duplicated/failed check returns no incident exactly for a
    batch in which no file is flagged and no two files share a name. *)
Theorem duplicated_failed_clean files cv current_date :
  DuplicatedFailedFileDetector.detect files cv current_date = Ok []
  ↔ Forall (λ f, ¬ is_flagged f) files ∧ NoDup (filename <$> files).
Proof.
  unfold DuplicatedFailedFileDetector.detect. split.
  - intros [= H]. apply duplicated_loop_nil in H as (? & ? & _). done.
  - intros [Hflags Hnd]. f_equal. apply duplicated_loop_nil. split_and!; try done.
    apply Forall_forall. intros f _. set_solver.
Qed.

Lemma duplicated_loop_urgent cv seen files :
  Forall (λ i, severity i = URGENT) (DuplicatedFailedFileDetector.loop cv seen files).
Proof.
  revert seen. induction files as [|f files IH]; intros seen; [constructor|].
  cbn [DuplicatedFailedFileDetector.loop]. rewrite !Forall_app. split_and!.
  - destruct (_ || _); repeat constructor.
  - destruct (bool_decide _); repeat constructor.
  - apply IH.
Qed.

Lemma run_detectors_Ok files cv current_date incidents :
  Agent.run_detectors Agent.detectors files cv current_date = Ok incidents →
  ∃ a b c d e p,
    MissingFileDetector.detect files cv current_date = Ok a
    ∧ DuplicatedFailedFileDetector.detect files cv current_date = Ok b
    ∧ UnexpectedEmptyFileDetector.detect files cv current_date = Ok c
    ∧ UnexpectedVolumeVariationDetector.detect files cv current_date = Ok d
    ∧ LateUploadDetector.detect files cv current_date = Ok e
    ∧ PreviousFileDetector.detect files cv current_date = Ok p
    ∧ incidents = a ++ b ++ c ++ d ++ e ++ p.
Proof.
  cbn [Agent.run_detectors Agent.detectors].
  intros (a & Ha & H)%bind_Ok. apply bind_Ok in H as (r1 & H & [= <-]).
  apply bind_Ok in H as (b & Hb & H). apply bind_Ok in H as (r2 & H & [= <-]).
  apply bind_Ok in H as (c & Hc & H). apply bind_Ok in H as (r3 & H & [= <-]).
  apply bind_Ok in H as (d & Hd & H). apply bind_Ok in H as (r4 & H & [= <-]).
  apply bind_Ok in H as (e & He & H). apply bind_Ok in H as (r5 & H & [= <-]).
  apply bind_Ok in H as (p & Hp & H). apply bind_Ok in H as (r6 & [= <-] & [= <-]).
  exists a, b, c, d, e, p. by rewrite app_nil_r.
Qed.

Lemma empty_detect_urgent files cv current_date :
  Exists (λ f, rows f = 0) files →
  num_gt (empty_file_max cv current_date) (PyInt 0) = false →
  ∃ c, UnexpectedEmptyFileDetector.detect files cv current_date = Ok c
       ∧ Exists (λ i, severity i = URGENT) c.
Proof.
  intros Hex Hmax. unfold UnexpectedEmptyFileDetector.detect.
  rewrite empty_file_max_get0, Hmax. eexists. split; [done|].
  induction Hex as [f files Hf | f files _ IH]; cbn [flat_map].
  - rewrite Hf. simpl. by left.
  - apply Exists_app. by right.
Qed.

(** X12.  One bad file is enough to make its source Urgent in the pipeline,
    whatever the other checks find: a flagged file, a file name that occurs
    twice, or an empty file on a weekday whose profile tolerates none. *)
Theorem bad_file_makes_source_urgent source_id files cv current_date r :
  Agent.analyze_source source_id files cv current_date = Ok r →
  Exists is_flagged files
  ∨ ¬ NoDup (filename <$> files)
  ∨ (Exists (λ f, rows f = 0) files
     ∧ num_gt (empty_file_max cv current_date) (PyInt 0) = false) →
  sr_status r = URGENT.
Proof.
  intros (incidents & Hrun & ->)%analyze_source_Ok Hbad.
  rewrite consolidate_source_status. unfold severity_policy.
  rewrite bool_decide_eq_true_2; [done|].
  apply run_detectors_Ok in Hrun as (a & b & c & d & e & p & _ & Hb & Hc & _ & _ & _ & ->).
  rewrite !Exists_app.
  assert (Hdup : ¬ (Forall (λ f, ¬ is_flagged f) files ∧ NoDup (filename <$> files)) →
                 Exists (λ i, severity i = URGENT) b).
  { intros Hnot. injection Hb as <-.
    pose proof (duplicated_loop_urgent cv ∅ files) as Hall.
    destruct (DuplicatedFailedFileDetector.loop cv ∅ files) as [|i l] eqn:Hl.
    - destruct Hnot. apply duplicated_loop_nil in Hl as (? & ? & _). done.
    - left. by inversion Hall. }
  destruct Hbad as [Hfl | [Hnd | [Hemp Hmax]]].
  - right; left. apply Hdup. intros [Hno _].
    apply Exists_exists in Hfl as (f & Hf & Hflag).
    rewrite Forall_forall in Hno. by apply (Hno f).
  - right; left. apply Hdup. tauto.
  - right; right; left.
    destruct (empty_detect_urgent files cv current_date Hemp Hmax) as (c' & Hc' & Hex).
    congruence.
Qed.

Lemma bad_file_makes_source_urgent_witness :
  ∃ r,
    Agent.analyze_source "207936"
      [Sample.file "a.csv" 10 "2025-09-08T08:00:00";
       Sample.file "a.csv" 12 "2025-09-08T08:30:00"]
      Sample.blank_cv Sample.monday = Ok r
    ∧ sr_status r = URGENT.
Proof.
  eexists. split; [vm_compute; reflexivity|].
  apply (bad_file_makes_source_urgent "207936"
           [Sample.file "a.csv" 10 "2025-09-08T08:00:00";
            Sample.file "a.csv" 12 "2025-09-08T08:30:00"]
           Sample.blank_cv Sample.monday).
  - vm_compute. reflexivity.
  - right; left. intros Hnd. apply NoDup_cons in Hnd as [Hnotin _].
    apply Hnotin. by left.
Defined.

(** ** The sources of a report *)

Lemma run_sources_fold w date_str current_date files_data acc final :
  foldl (λ acc x, acc ≫= λ rs, Agent.source_step w date_str current_date rs x.1 x.2)
    (Ok acc) files_data = Ok final →
  ∃ new,
    final = acc ++ new
    ∧ Forall2 (λ r x,
                 sr_source_id r = x.1
                 ∧ processed_files_count r = Z.of_nat (length (daily_files date_str x.2))
                 ∧ total_rows r = foldr (λ f n, rows f + n) 0 (daily_files date_str x.2))
        new (filter (λ x, has_profile w x.1) files_data).
Proof.
  revert acc. induction files_data as [|[sid fl] l IH]; intros acc.
  - intros [= <-]. exists []. by rewrite app_nil_r.
  - cbn [foldl mbind result_bind fst snd].
    destruct (Agent.source_step w date_str current_date acc sid fl) as [acc'|e] eqn:Hstep.
    2:{ by rewrite foldl_Raise. }
    intros (new & -> & Hnew)%IH. rewrite filter_cons.
    apply source_step_Ok in Hstep as [[Hnone ->] | (content & cv & r & Hcv & _ & Hr & ->)].
    + exists new. split; [done|]. rewrite decide_False; [done|].
      unfold has_profile. cbn [fst]. rewrite Hnone. by intros [? ?].
    + exists (r :: new). rewrite <- app_assoc. split; [done|].
      rewrite decide_True by (unfold has_profile; cbn [fst]; by rewrite Hcv).
      constructor; [|done].
      apply analyze_source_Ok in Hr as (incidents & _ & ->). done.
Qed.

(** X13.  The sources of a pipeline report are the entries of the day's
    [files.json] that have a profile document, one report each and in the
    order of the file; an entry without a profile is left out without a
    trace.  Each report counts the files of the entry that were uploaded on
    the day of the run, and adds up their rows. *)
Theorem run_reported_sources w date_str report :
  Agent.run w date_str = Ok report →
  ∃ folder files_data,
    List.find (λ item, PyStr.startswith date_str item.1) (Agent.data_dir w)
    = Some (folder, files_data)
    ∧ Forall2 (λ r x,
                 sr_source_id r = x.1
                 ∧ processed_files_count r = Z.of_nat (length (daily_files date_str x.2))
                 ∧ total_rows r = foldr (λ f n, rows f + n) 0 (daily_files date_str x.2))
        (sources report) (filter (λ x, has_profile w x.1) files_data).
Proof.
  intros (folder & files_data & d & Hfind & _ & Hfold & _)%run_Ok.
  exists folder, files_data. split; [done|].
  by apply run_sources_fold in Hfold as (new & -> & Hnew).
Qed.

Lemma run_reported_sources_witness :
  ∃ report,
    Agent.run (Sample.world Sample.monday) "2025-09-08" = Ok report
    ∧ ∃ folder files_data,
        List.find (λ item, PyStr.startswith "2025-09-08" item.1)
          (Agent.data_dir (Sample.world Sample.monday))
        = Some (folder, files_data)
        ∧ Forall2 (λ r x,
                     sr_source_id r = x.1
                     ∧ processed_files_count r
                       = Z.of_nat (length (daily_files "2025-09-08" x.2))
                     ∧ total_rows r
                       = foldr (λ f n, rows f + n) 0 (daily_files "2025-09-08" x.2))
            (sources report)
            (filter (λ x, has_profile (Sample.world Sample.monday) x.1) files_data).
Proof.
  eexists. split; [vm_compute; reflexivity|].
  apply (run_reported_sources (Sample.world Sample.monday) "2025-09-08").
  vm_compute. reflexivity.
Defined.

(** ** What the parser hands to the detectors *)

Lemma digits_val_nonneg s acc :
  PyStr.all_chars PyStr.is_digit s = true → 0 ≤ acc → 0 ≤ PyStr.digits_val acc s.
Proof.
  revert acc. induction s as [|c s IH]; intros acc; [done|].
  cbn [PyStr.all_chars PyStr.digits_val]. intros [Hc Hs]%andb_true_iff Hacc.
  apply IH; [done|]. unfold PyStr.is_digit in Hc. apply andb_true_iff in Hc as [Hc _].
  apply Nat.leb_le in Hc. unfold PyStr.digit_val. lia.
Qed.

Lemma float_nonneg s x : PyStr.float s = Ok x → (0 <= x)%Q.
Proof.
  unfold PyStr.float. destruct (PyStr.split_once "." s) as [[a b]|].
  - destruct (_ && _) eqn:E; [|done]. intros [= <-].
    apply andb_true_iff in E as [[Ha Hb]%andb_true_iff _].
    assert (Hnn : 0 ≤ PyStr.digits_val 0 (a +:+ b)).
    { apply digits_val_nonneg; [|done]. rewrite all_chars_app. by rewrite Ha, Hb. }
    rewrite Qred_correct. unfold Qle. cbn [Qnum Qden]. lia.
  - unfold PyStr.isdigit. destruct (_ && _) eqn:E; [|done]. intros [= <-].
    apply andb_true_iff in E as [_ Hs].
    pose proof (digits_val_nonneg s 0 Hs) as Hnn.
    unfold Qle. cbn [Qnum Qden inject_Z]. lia.
Qed.

Lemma float_or_0_nonneg c v : CVParser.float_or_0 c = Ok v → (0 <= num_Q v)%Q.
Proof.
  unfold CVParser.float_or_0. destruct (PyStr.isdigit _); [|by intros [= <-]].
  destruct (PyStr.float c) as [x|] eqn:Hx; [|done]. intros [= <-].
  by apply float_nonneg in Hx.
Qed.

Lemma int_or_0_nonneg c v :
  CVParser.int_or_0 c = Ok v → ∃ z, v = PyInt z ∧ 0 ≤ z.
Proof.
  unfold CVParser.int_or_0, PyStr.int. destruct (PyStr.isdigit c) eqn:E.
  - intros [= <-]. eexists. split; [done|].
    unfold PyStr.isdigit in E. apply andb_true_iff in E as [_ E].
    by apply digits_val_nonneg.
  - intros [= <-]. by exists 0.
Qed.

Lemma columns_nonempty row : Forall (λ c, c ≠ "") (CVParser.columns row).
Proof.
  unfold CVParser.columns. induction (PyStr.split "|" row) as [|c l IH]; [constructor|].
  cbn [List.filter]. destruct (String.eqb_spec (PyStr.strip c) "") as [|Hne]; [done|].
  cbn [negb List.map]. by constructor.
Qed.

Lemma first_column_nonempty row :
  (1 ≤ length (CVParser.columns row))%nat → CVParser.col (CVParser.columns row) 0 ≠ "".
Proof.
  pose proof (columns_nonempty row) as H. unfold CVParser.col.
  destruct (CVParser.columns row) as [|c l]; [simpl; lia|]. intros _.
  by inversion H.
Qed.

(** X15.  Every weekday entry that [_extract_file_stats] returns has a
    non-empty label and the six statistics, none of them negative, with
    [min] and [max] as integers.  In particular the entry is never the empty
    mapping, so the detectors' test for an empty entry does not fire on a
    parsed profile. *)
Theorem file_stats_entries content stats day st :
  CVParser._extract_file_stats content = Ok stats →
  stats !! day = Some st →
  day ≠ "" ∧ file_stats_entry st ∧ st ≠ ∅.
Proof.
  unfold CVParser._extract_file_stats.
  destruct (Re.search _ content) as [m|].
  2:{ intros [= <-]. by rewrite lookup_empty. }
  intros Hfold. revert day st. revert Hfold.
  apply (foldl_bind_inv _ (λ stats, ∀ day st, stats !! day = Some st →
                                     day ≠ "" ∧ file_stats_entry st ∧ st ≠ ∅)).
  { intros day st. by rewrite lookup_empty. }
  intros acc row acc' IH _ Hstep.
  destruct (Nat.leb_spec 7 (length (CVParser.columns row))) as [Hlen|_].
  2:{ injection Hstep as <-. apply IH. }
  apply bind_Ok in Hstep as (mean & Hmean%float_or_0_nonneg & Hstep).
  apply bind_Ok in Hstep as (median & Hmedian%float_or_0_nonneg & Hstep).
  apply bind_Ok in Hstep as (mode & Hmode%float_or_0_nonneg & Hstep).
  apply bind_Ok in Hstep as (min & (lo & -> & Hlo)%int_or_0_nonneg & Hstep).
  apply bind_Ok in Hstep as (max & (hi & -> & Hhi)%int_or_0_nonneg & Hstep).
  apply bind_Ok in Hstep as (std_dev & Hstd%float_or_0_nonneg & [= <-]).
  intros day st [[<- <-] | [_ Hold]]%lookup_insert_Some; [|by apply IH].
  split; [apply first_column_nonempty; lia|].
  assert (Hentry : file_stats_entry
            (<["mean" := mean]> (<["median" := median]> (<["mode" := mode]>
               (<["min" := PyInt lo]> (<["max" := PyInt hi]> {["std_dev" := std_dev]})))))).
  { split_and!.
    - rewrite !dom_insert_L, dom_singleton_L. set_solver.
    - intros key v Hv.
      repeat (apply lookup_insert_Some in Hv as [[_ <-] | [_ Hv]]; [try done|]).
      + unfold Qle. simpl. lia.
      + unfold Qle. simpl. lia.
      + apply lookup_singleton_Some in Hv as [_ <-]. done.
    - exists lo, hi. split; [by rewrite !lookup_insert_ne, lookup_insert by done|].
      by rewrite !lookup_insert_ne, lookup_insert by done. }
  split; [done|]. intros Hempty.
  destruct Hentry as (_ & _ & lo' & _ & Hmin & _). rewrite Hempty in Hmin.
  by rewrite lookup_empty in Hmin.
Qed.

Lemma file_stats_entries_witness :
  ∃ stats st,
    CVParser._extract_file_stats Sample.profile_doc = Ok stats
    ∧ stats !! "Mon" = Some st
    ∧ "Mon" ≠ "" ∧ file_stats_entry st ∧ st ≠ ∅.
Proof.
  eexists _, _. split; [vm_compute; reflexivity|]. split; [vm_compute; reflexivity|].
  eapply (file_stats_entries Sample.profile_doc).
  - vm_compute. reflexivity.
  - vm_compute. reflexivity.
Defined.

Lemma foldl_bind_inv_pair {A B C} (g : A → B → C → result A) (P : A → Prop)
    (l : list (B * C)) init final :
  P init →
  (∀ a x y a', P a → g a x y = Ok a' → P a') →
  foldl (λ acc '(x, y), acc ≫= λ a, g a x y) (Ok init) l = Ok final →
  P final.
Proof.
  intros Hinit Hstep.
  assert (Hstop : ∀ (l : list (B * C)) e,
            foldl (λ acc '(x, y), acc ≫= λ a, g a x y) (Raise e) l = Raise e).
  { intros l'. induction l' as [|[x y] l' IH]; intros e; [done|]. simpl. apply IH. }
  revert init Hinit. induction l as [|[x y] l IH]; intros init Hinit; simpl.
  - by intros [= <-].
  - destruct (g init x y) as [a'|e] eqn:Hg.
    + apply IH. by eapply Hstep.
    + by rewrite Hstop.
Qed.

Lemma od_set_keys {V} k (v : V) d x :
  x ∈ (od_set k v d).*1 ↔ x = k ∨ x ∈ d.*1.
Proof.
  induction d as [|[k' v'] d IH]; simpl.
  - rewrite list_elem_of_singleton. set_solver.
  - destruct (String.eqb_spec k' k) as [->|Hne]; simpl.
    + rewrite !elem_of_cons. tauto.
    + rewrite !elem_of_cons, IH. tauto.
Qed.

Lemma od_set_NoDup {V} k (v : V) d : NoDup d.*1 → NoDup (od_set k v d).*1.
Proof.
  induction d as [|[k' v'] d IH]; simpl.
  - intros _. apply NoDup_singleton.
  - intros [Hnotin Hnd]%NoDup_cons.
    destruct (String.eqb_spec k' k) as [->|Hne]; simpl.
    + by apply NoDup_cons.
    + apply NoDup_cons. split; [|by apply IH].
      rewrite od_set_keys. intros [-> | ?]; done.
Qed.

Lemma od_set_Forall {V} (P : string * V → Prop) k v d :
  P (k, v) → Forall P d → Forall P (od_set k v d).
Proof.
  intros Hkv. induction 1 as [|[k' v'] d Hx Hd IH]; simpl.
  - by repeat constructor.
  - destruct (String.eqb k' k); by constructor.
Qed.

Lemma labelled_float_nonneg label day_stat v :
  CVParser.labelled_float label day_stat = Ok v → (0 <= num_Q v)%Q.
Proof.
  unfold CVParser.labelled_float. destruct (Re.search _ _) as [m|]; [|by intros [= <-]].
  destruct (PyStr.float _) as [x|] eqn:Hx; [|done]. intros [= <-].
  by apply float_nonneg in Hx.
Qed.

Lemma entity_stats_entries content ents :
  CVParser._extract_entity_stats content = Ok ents →
  NoDup ents.*1 ∧ Forall entity_entry ents.
Proof.
  unfold CVParser._extract_entity_stats. destruct (Re.search _ _) as [m|].
  2:{ intros [= <-]. split; constructor. }
  destruct (List.filter _ _) as [|header_row ?]; [done|].
  apply (foldl_bind_inv _ (λ ents, NoDup ents.*1 ∧ Forall entity_entry ents)).
  { split; constructor. }
  intros acc row acc' [Hnd Hall] _ Hstep.
  pose proof (columns_nonempty row) as Hcols.
  destruct (CVParser.columns row) as [|entity day_cells]; [by injection Hstep as <-|].
  apply bind_Ok in Hstep as (by_day & Hdays & [= <-]).
  split; [by apply od_set_NoDup|]. apply od_set_Forall; [|done].
  split; [by inversion Hcols|]. cbn [snd]. revert Hdays.
  apply (foldl_bind_inv_pair
           (λ entity_days day_name day_stat,
              median_files ← CVParser.labelled_float "Median Files: " day_stat;
              median_rows ← CVParser.labelled_float "Median Rows: " day_stat;
              Ok (<[day_name := mk_EntityDayStats median_files median_rows]> entity_days))
           (λ by_day, ∀ day ds, by_day !! day = Some ds →
              (0 <= num_Q (ds_median_files ds))%Q ∧ (0 <= num_Q (ds_median_rows ds))%Q)).
  { intros day ds. by rewrite lookup_empty. }
  intros days day_name day_stat days' IH Hd.
  apply bind_Ok in Hd as (mf & Hmf%labelled_float_nonneg & Hd).
  apply bind_Ok in Hd as (mr & Hmr%labelled_float_nonneg & [= <-]).
  intros day ds [[_ <-] | [_ Hold]]%lookup_insert_Some; [done | by eapply IH].
Qed.

Lemma empty_day_stats_values empty_analysis st :
  CVParser.empty_day_stats empty_analysis = Ok st →
  ∀ key v, st !! key = Some v → ∃ x, v = PyFloat x ∧ (0 <= x)%Q.
Proof.
  unfold CVParser.empty_day_stats.
  apply (foldl_bind_inv _ (λ st : gmap string number,
           ∀ key v, st !! key = Some v → ∃ x, v = PyFloat x ∧ (0 <= x)%Q)).
  { intros key v. by rewrite lookup_empty. }
  intros acc line acc' IH _ Hstep.
  destruct (PyStr.split_once ":" line) as [[key val]|]; [|by injection Hstep as <-].
  destruct (PyStr.isdigit _); [|by injection Hstep as <-].
  apply bind_Ok in Hstep as (x & Hx%float_nonneg & [= <-]).
  intros k v [[_ <-] | [_ Hold]]%lookup_insert_Some; [eauto | by eapply IH].
Qed.

Lemma empty_file_stats_entries content stats :
  CVParser._extract_empty_file_stats content = Ok stats →
  ∀ day st key v, stats !! day = Some st → st !! key = Some v →
    ∃ x, v = PyFloat x ∧ (0 <= x)%Q.
Proof.
  unfold CVParser._extract_empty_file_stats. destruct (Re.search _ _) as [m|].
  2:{ intros [= <-] day st key v. by rewrite lookup_empty. }
  apply (foldl_bind_inv _ (λ stats : gmap string (gmap string number),
           ∀ day st key v, stats !! day = Some st → st !! key = Some v →
             ∃ x, v = PyFloat x ∧ (0 <= x)%Q)).
  { intros day st key v. by rewrite lookup_empty. }
  intros acc row acc' IH _ Hstep.
  destruct (3 <=? _)%nat; [|by injection Hstep as <-].
  apply bind_Ok in Hstep as (day_stats & Hds & [= <-]).
  intros day st key v [[_ <-] | [_ Hold]]%lookup_insert_Some; [|by eapply IH].
  by eapply empty_day_stats_values.
Qed.

Lemma upload_window_entries content windows :
  CVParser._extract_upload_window content = Ok windows →
  ∀ day w, windows !! day = Some w → is_Some (w_start w) ↔ is_Some (w_end w).
Proof.
  unfold CVParser._extract_upload_window. destruct (Re.search _ _) as [m|].
  2:{ intros [= <-] day w. by rewrite lookup_empty. }
  apply (foldl_bind_inv _ (λ windows : gmap string UploadWindow,
           ∀ day w, windows !! day = Some w → is_Some (w_start w) ↔ is_Some (w_end w))).
  { intros day w. by rewrite lookup_empty. }
  intros acc row acc' IH _ Hstep.
  assert (Hunpack : ∀ sep s w, CVParser.unpack_window sep s = Ok w →
                      is_Some (w_start w) ↔ is_Some (w_end w)).
  { intros sep s w. unfold CVParser.unpack_window.
    destruct (PyStr.split sep s) as [|a [|b [|? ?]]]; try done.
    intros [= <-]. simpl. split; eauto. }
  destruct (6 <=? _)%nat; [|by injection Hstep as <-].
  destruct (PyStr.contains CVParser.en_dash _).
  { apply bind_Ok in Hstep as (w' & Hw' & [= <-]).
    intros day w [[_ <-] | [_ Hold]]%lookup_insert_Some; [by eapply Hunpack | by eapply IH]. }
  destruct (PyStr.contains "-" _).
  { apply bind_Ok in Hstep as (w' & Hw' & [= <-]).
    intros day w [[_ <-] | [_ Hold]]%lookup_insert_Some; [by eapply Hunpack | by eapply IH]. }
  injection Hstep as <-.
  intros day w [[_ <-] | [_ Hold]]%lookup_insert_Some; [|by eapply IH].
  simpl. split; intros [? ?]; done.
Qed.

(** X16.  In a profile returned by the parser the entities have distinct,
    non-empty names and medians that are not negative; the empty-file
    statistics are non-negative floats; an upload window has both a start
    and an end or neither; and there is at most one filename pattern. *)
Theorem parsed_profile content cv :
  CVParser.parse_content content = Ok cv →
  NoDup (entity_stats cv).*1
  ∧ Forall entity_entry (entity_stats cv)
  ∧ (∀ day st key v, empty_file_stats cv !! day = Some st → st !! key = Some v →
       ∃ x, v = PyFloat x ∧ (0 <= x)%Q)
  ∧ (∀ day w, upload_window_by_day cv !! day = Some w →
       is_Some (w_start w) ↔ is_Some (w_end w))
  ∧ (length (filename_patterns cv) ≤ 1)%nat.
Proof.
  unfold CVParser.parse_content.
  intros (fs & _ & H)%bind_Ok. apply bind_Ok in H as (ws & Hws & H).
  apply bind_Ok in H as (ents & Hents & H). apply bind_Ok in H as (es & Hes & [= <-]).
  cbn [entity_stats empty_file_stats upload_window_by_day filename_patterns].
  destruct (entity_stats_entries _ _ Hents) as [Hnd Hall].
  split_and!; try done.
  - by apply (empty_file_stats_entries content).
  - by apply (upload_window_entries content).
  - unfold CVParser._extract_filename_patterns. destruct (Re.search _ _); simpl; lia.
Qed.

Lemma parsed_profile_witness :
  ∃ cv, CVParser.parse_content Sample.profile_doc = Ok cv
        ∧ NoDup (entity_stats cv).*1.
Proof.
  eexists. split; [vm_compute; reflexivity|].
  eapply (parsed_profile Sample.profile_doc).
  vm_compute. reflexivity.
Defined.

(** ** The source id of a profile *)

Lemma leading_skip_digits s : leading_digits s +:+ skip_digits s = s.
Proof.
  induction s as [|c s IH]; [done|]. simpl.
  destruct (PyStr.is_digit c); [|done]. by rewrite str_app_cons, IH.
Qed.

Lemma leading_digits_all s : PyStr.all_chars PyStr.is_digit (leading_digits s) = true.
Proof.
  induction s as [|c s IH]; [done|]. simpl.
  destruct (PyStr.is_digit c) eqn:E; [|done]. simpl. by rewrite E.
Qed.

Lemma skip_digits_head s c rest : skip_digits s = String c rest → PyStr.is_digit c = false.
Proof.
  induction s as [|x s IH]; [done|]. simpl.
  destruct (PyStr.is_digit x) eqn:E; [done|]. by intros [= <- _].
Qed.

(** A greedy repetition of [\d] in front of a continuation that accepts
    everything takes all the digits. *)
Lemma run_star_digits {R} s cap (k : string → option string → option R) :
  (∀ s' cap', is_Some (k s' cap')) →
  Re.run (Re.Star true Re.digit) s cap k = k (skip_digits s) cap.
Proof.
  intros Hk. cbn [Re.run Re.digit].
  match goal with
  | |- ?f (String.length s) s cap = _ =>
      assert (Hloop : ∀ n s cap, (String.length s ≤ n)%nat →
                f n s cap = k (skip_digits s) cap)
  end.
  { clear s cap. induction n as [|n IH]; intros s cap Hlen.
    - destruct s; [done | simpl in Hlen; lia].
    - destruct s as [|c s]; [done|]. cbn [skip_digits].
      destruct (PyStr.is_digit c) eqn:E; [|done].
      cbn [String.length]. rewrite (proj2 (Nat.ltb_lt _ _)) by lia.
      rewrite IH by (simpl in Hlen; lia).
      by destruct (Hk (skip_digits s) cap) as [x ->]. }
  by apply Hloop.
Qed.

Lemma run_plus_digits {R} t cap (k : string → option string → option R) :
  (∀ s' cap', is_Some (k s' cap')) →
  Re.run (Re.plus Re.digit) t cap k
  = match t with
    | String c t' => if PyStr.is_digit c then k (skip_digits t') cap else None
    | EmptyString => None
    end.
Proof.
  intros Hk. destruct t as [|c t']; [done|].
  change (Re.run (Re.plus Re.digit) (String c t') cap k)
    with (if PyStr.is_digit c then Re.run (Re.Star true Re.digit) t' cap k else None).
  destruct (PyStr.is_digit c); [|done]. by apply run_star_digits.
Qed.

Lemma run_source_id s :
  Re.run (Re.Cat (Re.lit resource_label) (Re.Grp (Re.plus Re.digit))) s None
    (λ rest cap, Some (rest, cap))
  = if PyStr.startswith resource_label s then
      match PyStr.drop 17 s with
      | String c t =>
          if PyStr.is_digit c
          then Some (skip_digits t, Some (String c (leading_digits t)))
          else None
      | EmptyString => None
      end
    else None.
Proof.
  change (Re.run (Re.Cat ?a ?b) s None ?k)
    with (Re.run a s None (λ s1 cap1, Re.run b s1 cap1 k)).
  rewrite run_lit by done.
  change (String.length resource_label) with 17%nat.
  destruct (PyStr.startswith resource_label s); [|done].
  change (Re.run (Re.Grp ?r) ?t ?cap ?k)
    with (Re.run r t cap (λ s1 _, k s1 (Some (PyStr.take (String.length t - String.length s1) t)))).
  rewrite run_plus_digits by (intros; by eexists).
  destruct (PyStr.drop 17 s) as [|c t]; [done|].
  destruct (PyStr.is_digit c); [|done].
  do 3 f_equal.
  rewrite <- (leading_skip_digits t) at 1 3. cbn [String.length].
  rewrite str_length_app.
  replace (S (String.length (leading_digits t) + String.length (skip_digits t))
           - String.length (skip_digits t))%nat
    with (String.length (String c (leading_digits t))) by (simpl; lia).
  rewrite <- str_app_cons. apply take_app_length.
Qed.

Lemma extract_source_id_unfold s :
  CVParser._extract_source_id s
  = if PyStr.startswith resource_label s
       && negb (String.eqb (leading_digits (PyStr.drop 17 s)) "")
    then leading_digits (PyStr.drop 17 s)
    else match s with
         | EmptyString => "Unknown"
         | String _ s' => CVParser._extract_source_id s'
         end.
Proof.
  unfold CVParser._extract_source_id.
  change (Re.lit "**Resource ID**: ") with (Re.lit resource_label).
  assert (Hhead : ∀ s,
            Re.search (Re.Cat (Re.lit resource_label) (Re.Grp (Re.plus Re.digit))) s
            = match Re.run (Re.Cat (Re.lit resource_label) (Re.Grp (Re.plus Re.digit))) s None
                      (λ rest cap, Some (rest, cap)) with
              | Some (rest, cap) =>
                  Some (Re.mk_rmatch
                          (PyStr.take (String.length s - String.length rest) s) cap)
              | None =>
                  match s with
                  | EmptyString => None
                  | String _ s' =>
                      Re.search (Re.Cat (Re.lit resource_label) (Re.Grp (Re.plus Re.digit))) s'
                  end
              end).
  { intros [|? ?]; reflexivity. }
  rewrite Hhead, run_source_id.
  destruct (PyStr.startswith resource_label s); [|by destruct s].
  destruct (PyStr.drop 17 s) as [|c t]; [by destruct s|].
  cbn [leading_digits]. destruct (PyStr.is_digit c); by destruct s.
Qed.

(** X17.  The source id of a profile document in ASCII characters is the run
    of digits behind the first occurrence of the label [**Resource ID**: ]
    that a digit follows, taken to its end; without such an occurrence it
    is "Unknown". *)
Theorem extract_source_id_shape content :
  isascii content = true →
  (CVParser._extract_source_id content = "Unknown"
   ∧ ∀ pre c rest, content = pre +:+ resource_label +:+ String c rest →
       PyStr.is_digit c = false)
  ∨ (∃ pre rest,
       content = pre +:+ resource_label +:+ CVParser._extract_source_id content +:+ rest
       ∧ PyStr.isdigit (CVParser._extract_source_id content) = true
       ∧ (∀ c rest', rest = String c rest' → PyStr.is_digit c = false)
       ∧ ∀ pre' c rest', content = pre' +:+ resource_label +:+ String c rest' →
           PyStr.is_digit c = true → (String.length pre ≤ String.length pre')%nat).
Proof.
  intros _.
  induction content as [|x content IH].
  - left. split; [done|]. intros [|? ?] c rest; done.
  - rewrite extract_source_id_unfold.
    assert (Hhead : ∀ c rest, String x content = resource_label +:+ String c rest →
              PyStr.startswith resource_label (String x content) = true
              ∧ PyStr.drop 17 (String x content) = String c rest).
    { intros c rest ->. split; [apply startswith_app|].
      apply (drop_app_length resource_label). }
    destruct (PyStr.startswith resource_label (String x content)
              && negb (String.eqb (leading_digits (PyStr.drop 17 (String x content))) ""))
      eqn:Hmatch.
    + apply andb_true_iff in Hmatch as [Hstart Hne].
      pose proof (startswith_split _ _ Hstart) as Htail.
      change (String.length resource_label) with 17%nat in Htail.
      right. exists "", (skip_digits (PyStr.drop 17 (String x content))). split_and!.
      * rewrite str_app_nil_l, leading_skip_digits. exact Htail.
      * unfold PyStr.isdigit. by rewrite Hne, leading_digits_all.
      * intros c rest'. apply skip_digits_head.
      * intros. simpl. lia.
    + assert (Hno : ∀ c rest, String x content = resource_label +:+ String c rest →
                PyStr.is_digit c = false).
      { intros c rest [Hs Hd]%Hhead. rewrite Hs, Hd in Hmatch. cbn [leading_digits] in Hmatch.
        by destruct (PyStr.is_digit c). }
      destruct IH as [[-> Hnone] | (pre & rest & Hcont & Hd & Hrest & Hleft)].
      * left. split; [done|]. intros [|y pre] c rest Heq.
        -- rewrite str_app_nil_l in Heq. by eapply Hno.
        -- rewrite str_app_cons in Heq. injection Heq as _ Heq. by eapply Hnone.
      * right. exists (String x pre), rest. split_and!; try done.
        -- rewrite str_app_cons. by f_equal.
        -- intros [|y pre'] c rest' Heq Hdig.
           ++ rewrite str_app_nil_l in Heq. apply Hno in Heq. congruence.
           ++ rewrite str_app_cons in Heq. injection Heq as _ Heq.
              specialize (Hleft pre' c rest' Heq Hdig). simpl. lia.
Qed.

Lemma extract_source_id_shape_witness :
  (CVParser._extract_source_id SampleMore.heading_doc = "Unknown"
   ∧ ∀ pre c rest, SampleMore.heading_doc = pre +:+ resource_label +:+ String c rest →
       PyStr.is_digit c = false)
  ∨ (∃ pre rest,
       SampleMore.heading_doc
       = pre +:+ resource_label +:+ CVParser._extract_source_id SampleMore.heading_doc
         +:+ rest
       ∧ PyStr.isdigit (CVParser._extract_source_id SampleMore.heading_doc) = true
       ∧ (∀ c rest', rest = String c rest' → PyStr.is_digit c = false)
       ∧ ∀ pre' c rest',
           SampleMore.heading_doc = pre' +:+ resource_label +:+ String c rest' →
           PyStr.is_digit c = true → (String.length pre ≤ String.length pre')%nat).
Proof.
  apply (extract_source_id_shape SampleMore.heading_doc). vm_compute. reflexivity.
Defined.


(** ** The statuses of the agentic mode *)

Lemma status_loop_spec status incidents :
  AgenticRun.status_loop status incidents
  = if bool_decide (Exists (λ i, severity i = URGENT) incidents) then URGENT
    else if bool_decide (status = URGENT) then URGENT
    else if bool_decide (Exists (λ i, severity i = NEEDS_ATTENTION) incidents)
         then NEEDS_ATTENTION
    else status.
Proof.
  revert status. induction incidents as [|inc l IH]; intros status.
  - cbn [AgenticRun.status_loop].
    rewrite (bool_decide_eq_false_2 (Exists (λ i, severity i = URGENT) []))
      by (by intros ?%Exists_nil).
    rewrite (bool_decide_eq_false_2 (Exists (λ i, severity i = NEEDS_ATTENTION) []))
      by (by intros ?%Exists_nil).
    by case_bool_decide.
  - cbn [AgenticRun.status_loop].
    destruct (severity inc) eqn:Hsev.
    + rewrite !bool_decide_eq_true_2; [done | by left | done].
    + rewrite (bool_decide_eq_false_2 (NEEDS_ATTENTION = URGENT)) by done.
      rewrite (bool_decide_eq_true_2 (NEEDS_ATTENTION = NEEDS_ATTENTION)) by done.
      cbn [andb]. rewrite (bool_decide_ext (Exists _ (inc :: l)) (Exists (λ i, severity i = URGENT) l)).
      2:{ rewrite Exists_cons, Hsev. intuition congruence. }
      rewrite (bool_decide_eq_true_2 (Exists (λ i, severity i = NEEDS_ATTENTION) (inc :: l)))
        by (by left).
      destruct (bool_decide (status = URGENT)) eqn:Hs; cbn [negb]; rewrite IH.
      * apply bool_decide_eq_true in Hs as ->. by repeat case_bool_decide.
      * by repeat case_bool_decide.
    + rewrite (bool_decide_eq_false_2 (ALL_GOOD = URGENT)) by done.
      rewrite (bool_decide_eq_false_2 (ALL_GOOD = NEEDS_ATTENTION)) by done.
      cbn [andb]. rewrite IH.
      rewrite (bool_decide_ext (Exists (λ i, severity i = URGENT) (inc :: l))
                 (Exists (λ i, severity i = URGENT) l)).
      2:{ rewrite Exists_cons, Hsev. intuition congruence. }
      rewrite (bool_decide_ext (Exists (λ i, severity i = NEEDS_ATTENTION) (inc :: l))
                 (Exists (λ i, severity i = NEEDS_ATTENTION) l)).
      2:{ rewrite Exists_cons, Hsev. intuition congruence. }
      done.
Qed.

(** X18.  The agentic mode grades a source by its worst incident alone: the
    source is Urgent only with an Urgent incident.  It agrees with the
    pipeline's [consolidate_source] except on a source with more than three
    NeedsAttention incidents and no Urgent one, which the pipeline makes
    Urgent and the agentic mode NeedsAttention. *)
Theorem agentic_source_status stats source_id incidents pc tr :
  let agentic := sr_status (AgenticRun.source_report stats (source_id, incidents)) in
  let pipeline := sr_status (ReportGenerator.consolidate_source source_id incidents pc tr) in
  (agentic = URGENT ↔ Exists (λ i, severity i = URGENT) incidents)
  ∧ (agentic ≠ pipeline
     ↔ ¬ Exists (λ i, severity i = URGENT) incidents
       ∧ (3 < count_severity NEEDS_ATTENTION incidents)%nat)
  ∧ (agentic ≠ pipeline → agentic = NEEDS_ATTENTION ∧ pipeline = URGENT).
Proof.
  cbn zeta. rewrite consolidate_source_status.
  cbn [AgenticRun.source_report sr_status]. rewrite status_loop_spec.
  unfold severity_policy.
  pose proof (count_severity_pos NEEDS_ATTENTION incidents) as HN.
  rewrite (bool_decide_eq_false_2 (ALL_GOOD = URGENT)) by done.
  repeat case_bool_decide; split_and!; try done; try tauto; try lia;
    try (split; [done | tauto]); try (split; [done | intros [_ ?]; lia]);
    try (split; [tauto | done]); try (intros []; done);
    try (exfalso;
         match goal with
         | Hn : ¬ Exists (λ i, severity i = NEEDS_ATTENTION) _ |- _ => apply Hn, HN; lia
         end).
Qed.

Lemma agentic_overall_urgent (rs : list SourceReport) :
  existsb (λ s, bool_decide (sr_status s = URGENT)) rs = true
  ↔ Exists (λ s, sr_status s = URGENT) rs.
Proof.
  induction rs as [|r rs IH]; simpl.
  - split; [done | by intros ?%Exists_nil].
  - rewrite orb_true_iff, IH, Exists_cons, bool_decide_eq_true. done.
Qed.

(** X19.  The overall status of an agentic report is Urgent when some source
    has an Urgent incident and AllGood otherwise: it is never
    NeedsAttention.  For the same source reports the pipeline's [generate]
    gives the same answer unless some source is NeedsAttention and none is
    Urgent. *)
Theorem agentic_overall_status now date_str result :
  let agentic := AgenticRun.report now date_str result in
  let pipeline := ReportGenerator.generate now date_str (sources agentic) in
  (cr_status agentic = URGENT
   ↔ Exists (λ item, Exists (λ i, severity i = URGENT) item.2)
       (AgenticRun.r_incidents result))
  ∧ cr_status agentic ≠ NEEDS_ATTENTION
  ∧ (cr_status agentic ≠ cr_status pipeline
     ↔ cr_status agentic = ALL_GOOD ∧ cr_status pipeline = NEEDS_ATTENTION)
  ∧ (cr_status pipeline = NEEDS_ATTENTION
     ↔ ¬ Exists (λ s, sr_status s = URGENT) (sources agentic)
       ∧ Exists (λ s, sr_status s = NEEDS_ATTENTION) (sources agentic)).
Proof.
  cbn zeta. rewrite generate_status_worst.
  cbn [AgenticRun.report cr_status sources].
  set (rs := AgenticRun.source_report (AgenticRun.r_stats result)
             <$> AgenticRun.r_incidents result).
  pose proof (agentic_overall_urgent rs) as Hex.
  pose proof (worst_status_urgent rs) as HU.
  pose proof (worst_status_attention rs) as HN.
  assert (Hsrc : Exists (λ s, sr_status s = URGENT) rs
                 ↔ Exists (λ item, Exists (λ i, severity i = URGENT) item.2)
                     (AgenticRun.r_incidents result)).
  { assert (Hone : ∀ item,
              sr_status (AgenticRun.source_report (AgenticRun.r_stats result) item) = URGENT
              ↔ Exists (λ i, severity i = URGENT) item.2).
    { intros [sid incidents].
      cbn [AgenticRun.source_report sr_status snd]. rewrite status_loop_spec.
      rewrite (bool_decide_eq_false_2 (ALL_GOOD = URGENT)) by done.
      repeat case_bool_decide; split; try done; tauto. }
    unfold rs. rewrite !Exists_exists. split.
    - intros (r & (item & -> & Hin)%list_elem_of_fmap & H). exists item.
      split; [done|]. by apply Hone.
    - intros (item & Hin & H). exists (AgenticRun.source_report (AgenticRun.r_stats result) item).
      split; [by apply list_elem_of_fmap_2|]. by apply Hone. }
  destruct (existsb _ rs) eqn:E.
  - assert (Exists (λ s, sr_status s = URGENT) rs) as HexU by (by apply Hex).
    pose proof (proj2 HU HexU) as ->.
    split_and!.
    + split; [intros _; by apply Hsrc | done].
    + done.
    + split; [done | by intros [? _]].
    + split; [done | tauto].
  - assert (¬ Exists (λ s, sr_status s = URGENT) rs) as HexU.
    { intros H%Hex. congruence. }
    split_and!.
    + split; [done | intros H%Hsrc; done].
    + done.
    + split.
      * intros Hne. split; [done|].
        destruct (foldr _ _ rs) eqn:Ew; try done.
        exfalso. tauto.
      * intros [_ ->]. done.
    + rewrite HN. tauto.
Qed.

(** ** The tools of the ReAct agent and the pipeline *)

Lemma missing_types files cv current_date incidents :
  MissingFileDetector.detect files cv current_date = Ok incidents →
  Forall (λ i, incident_type i = MISSING_FILE) incidents.
Proof.
  unfold MissingFileDetector.detect.
  destruct (expected_files_by_day cv !! _) as [stats|]; [|by intros [= <-]].
  destruct (bool_decide (stats = ∅)); [by intros [= <-]|].
  intros [= <-]. apply Forall_app. split.
  - destruct (num_lt _ _); repeat constructor.
  - apply Forall_flat_map, Forall_forall. intros [entity st] _.
    destruct (st !! _); [|done].
    destruct (_ && _); repeat constructor.
Qed.

Lemma duplicated_types files cv current_date incidents :
  DuplicatedFailedFileDetector.detect files cv current_date = Ok incidents →
  Forall (λ i, incident_type i = DUPLICATED_FILE) incidents.
Proof.
  intros [= <-]. generalize (∅ : gset string).
  induction files as [|f files IH]; intros seen; [constructor|].
  cbn [DuplicatedFailedFileDetector.loop]. rewrite !Forall_app. split_and!.
  - destruct (_ || _); repeat constructor.
  - destruct (bool_decide _); repeat constructor.
  - apply IH.
Qed.

Lemma empty_types files cv current_date incidents :
  UnexpectedEmptyFileDetector.detect files cv current_date = Ok incidents →
  Forall (λ i, incident_type i = UNEXPECTED_EMPTY) incidents.
Proof.
  intros [= <-]. apply Forall_flat_map, Forall_forall. intros f _.
  destruct (rows f =? 0); [|constructor].
  destruct (num_gt _ _); repeat constructor.
Qed.

Lemma volume_types files cv current_date incidents :
  UnexpectedVolumeVariationDetector.detect files cv current_date = Ok incidents →
  Forall (λ i, incident_type i = VOLUME_VARIATION) incidents.
Proof.
  unfold UnexpectedVolumeVariationDetector.detect.
  destruct (expected_files_by_day cv !! _) as [stats|]; [|by intros [= <-]].
  destruct (bool_decide (stats = ∅)); [by intros [= <-]|].
  intros [= <-]. apply Forall_app. split.
  - destruct (_ && _); repeat constructor.
  - apply Forall_flat_map, Forall_forall. intros f _.
    destruct (match_entity cv (filename f)) as [entity|]; [|constructor].
    destruct (String.eqb entity ""); [constructor|].
    destruct (_ !! _) as [st|]; [|constructor].
    destruct (num_gt _ _); [|constructor].
    destruct (_ || _); repeat constructor.
Qed.

Lemma late_types files cv current_date incidents :
  LateUploadDetector.detect files cv current_date = Ok incidents →
  Forall (λ i, incident_type i = LATE_UPLOAD) incidents.
Proof.
  unfold LateUploadDetector.detect.
  destruct (upload_window_by_day cv !! _) as [window|]; [|by intros [= <-]].
  destruct (w_end window) as [end_time_str|]; [|by intros [= <-]].
  destruct (String.eqb end_time_str ""); [by intros [= <-]|].
  intros [= <-].
  destruct (PyDatetime.strptime_HMS end_time_str) as [end_time|]; [|constructor].
  cbn [mbind result_bind].
  destruct (PyDatetime.add_hours _ 4) as [tol|]; [|constructor].
  cbn [mbind result_bind try_except].
  induction files as [|f files IH]; [constructor|].
  cbn [LateUploadDetector.loop].
  destruct (PyDatetime.fromisoformat _) as [[uploaded tz]|]; [|constructor].
  apply Forall_app. split; [|done].
  destruct (PyDatetime.gt _ _); repeat constructor.
Qed.

Lemma previous_types files cv current_date incidents :
  PreviousFileDetector.detect files cv current_date = Ok incidents →
  Forall (λ i, incident_type i = PREVIOUS_FILE) incidents.
Proof.
  revert incidents. induction files as [|f files IH]; intros incidents.
  - intros [= <-]. constructor.
  - cbn [PreviousFileDetector.detect].
    intros (here & Hhere & H)%bind_Ok. apply bind_Ok in H as (rest & Hrest & [= <-]).
    apply Forall_app. split; [|by apply IH].
    destruct (Re.search _ _) as [m|]; [|injection Hhere as <-; constructor].
    destruct (PyDatetime.strptime_Ymd _) as [file_date|[]];
      try discriminate Hhere; [|injection Hhere as <-; constructor].
    apply bind_Ok in Hhere as (limit & _ & [= <-]).
    destruct (_ <? _); repeat constructor.
Qed.

Lemma filter_type_all (l : list Incident) t :
  tool_type t = true →
  Forall (λ i, incident_type i = t) l →
  filter (λ i, tool_type (incident_type i) = true) l = l.
Proof.
  intros Ht. induction 1 as [|i l Hi _ IH]; [done|].
  rewrite filter_cons, decide_True by (by rewrite Hi). by rewrite IH.
Qed.

Lemma filter_type_none (l : list Incident) t :
  tool_type t = false →
  Forall (λ i, incident_type i = t) l →
  filter (λ i, tool_type (incident_type i) = true) l = [].
Proof.
  intros Ht. induction 1 as [|i l Hi _ IH]; [done|].
  rewrite filter_cons, decide_False by (rewrite Hi, Ht; done). done.
Qed.

(** In the embedding the three detectors of the tools return a list, and
    what they find is what the six detectors of the pipeline find of their
    types. *)
Lemma tools_detectors files cv current_date :
  ∃ found,
    Agent.run_detectors AgentTools.detectors files cv current_date = Ok found
    ∧ Forall (λ i, tool_type (incident_type i) = true) found
    ∧ ∀ incidents,
        Agent.run_detectors Agent.detectors files cv current_date = Ok incidents →
        found ≡ₚ filter (λ i, tool_type (incident_type i) = true) incidents.
Proof.
  destruct (missing_detect_Ok files cv current_date) as [a Ha].
  destruct (volume_detect_Ok files cv current_date) as [d Hd].
  pose proof (missing_types _ _ _ _ Ha) as Hta.
  pose proof (volume_types _ _ _ _ Hd) as Htd.
  pose proof (empty_types files cv current_date _ eq_refl) as Htc.
  eexists. split.
  { cbn [Agent.run_detectors AgentTools.detectors]. rewrite Ha, Hd.
    unfold UnexpectedEmptyFileDetector.detect at 1. cbn [mbind result_bind]. done. }
  split.
  { rewrite !Forall_app. split_and!; [| | |constructor].
    - eapply Forall_impl; [apply Hta|]. by intros i ->.
    - eapply Forall_impl; [apply Htd|]. by intros i ->.
    - eapply Forall_impl; [apply Htc|]. by intros i ->. }
  intros incidents
    (a' & b & c & d' & e & p & Ha' & Hb & Hc & Hd' & He & Hp & ->)%run_detectors_Ok.
  assert (a' = a) as -> by congruence. assert (d' = d) as -> by congruence.
  injection Hc as <-.
  rewrite !filter_app.
  rewrite (filter_type_all a MISSING_FILE), (filter_type_none b DUPLICATED_FILE),
    (filter_type_all _ UNEXPECTED_EMPTY), (filter_type_all d VOLUME_VARIATION),
    (filter_type_none e LATE_UPLOAD), (filter_type_none p PREVIOUS_FILE);
    try done; eauto using duplicated_types, late_types, previous_types.
  rewrite !app_nil_r, app_nil_l. apply Permutation_app_head, Permutation_app_comm.
Qed.

Lemma check_anomalies_profile w date_str source_id st content cv current_date :
  Agent.datasource_cvs w !! (source_id +:+ "_native.md") = Some content →
  CVParser.parse_content content = Ok cv →
  PyDatetime.strptime_Y_m_d date_str = Ok current_date →
  let files := AgentTools.get_daily_files w date_str source_id in
  ∃ found text,
    Agent.run_detectors AgentTools.detectors files cv current_date = Ok found
    ∧ AgentTools.check_anomalies w date_str source_id st
      = (AgentTools.mk_state
           (od_set source_id found (AgentTools.scan_results st))
           (<[source_id := (Z.of_nat (length files), foldr (λ f acc, rows f + acc) 0 files)]>
              (AgentTools.source_stats st)),
         Ok text).
Proof.
  intros Hcv Hparse Hdate files.
  destruct (tools_detectors files cv current_date) as (found & Hfound & _).
  exists found. eexists. split; [done|].
  unfold AgentTools.check_anomalies, CVParser.parse. fold files.
  rewrite Hcv, Hparse. cbn [mbind result_bind]. rewrite Hdate. cbn [mbind result_bind].
  rewrite Hfound. reflexivity.
Qed.



Lemma od_get_NoDup {V} k (v : V) d :
  NoDup d.*1 → (k, v) ∈ d → od_get k d = Some v.
Proof.
  induction d as [|[k' v'] d IH]; simpl.
  - by intros _ ?%elem_of_nil.
  - intros [Hnotin Hnd]%NoDup_cons [[= -> ->] | Hin]%elem_of_cons.
    + by rewrite String.eqb_refl.
    + destruct (String.eqb_spec k' k) as [->|_]; [|by apply IH].
      destruct Hnotin. by apply (list_elem_of_fmap_2 fst) in Hin.
Qed.

Lemma od_set_fresh {V} k (v : V) d : k ∉ d.*1 → od_set k v d = d ++ [(k, v)].
Proof.
  induction d as [|[k' v'] d IH]; simpl; [done|].
  intros Hnotin. destruct (String.eqb_spec k' k) as [->|_].
  - destruct Hnotin. by left.
  - rewrite IH; [done|]. intros ?. apply Hnotin. by right.
Qed.

Lemma check_anomalies_no_profile w date_str source_id st :
  Agent.datasource_cvs w !! (source_id +:+ "_native.md") = None →
  let files := AgentTools.get_daily_files w date_str source_id in
  AgentTools.check_anomalies w date_str source_id st
  = (AgentTools.mk_state (AgentTools.scan_results st)
       (<[source_id := (Z.of_nat (length files), foldr (λ f acc, rows f + acc) 0 files)]>
          (AgentTools.source_stats st)),
     Ok [Lit "Cannot check anomalies: CV missing."]).
Proof. intros Hnone. unfold AgentTools.check_anomalies. by rewrite Hnone. Qed.

Lemma scan_fold w date_str current_date folder files_data :
  AgentTools.target_folder w date_str = Some (folder, files_data) →
  NoDup files_data.*1 →
  PyDatetime.strptime_Y_m_d date_str = Ok current_date →
  ∀ l processed acc_rs acc_st final_rs,
    files_data = processed ++ l →
    foldl (λ acc x, acc ≫= λ rs, Agent.source_step w date_str current_date rs x.1 x.2)
      (Ok acc_rs) l = Ok final_rs →
    Forall2 scanned acc_rs (AgentTools.scan_results acc_st) →
    Forall (λ r, sr_source_id r ∈ processed.*1
                 ∧ AgentTools.source_stats acc_st !! sr_source_id r
                   = Some (processed_files_count r, total_rows r)) acc_rs →
    ∃ st,
      foldl (λ (acc : AgentTools.state * option exn) source_id,
               match acc.2 with
               | Some _ => acc
               | None =>
                   match AgentTools.check_anomalies w date_str source_id acc.1 with
                   | (st, Ok _) => (st, None)
                   | (st, Raise e) => (st, Some e)
                   end
               end) (acc_st, None) l.*1 = (st, None)
      ∧ Forall2 scanned final_rs (AgentTools.scan_results st)
      ∧ Forall (λ r, AgentTools.source_stats st !! sr_source_id r
                     = Some (processed_files_count r, total_rows r)) final_rs.
Proof.
  intros Hfolder Hnd Hdate.
  induction l as [|[sid fl] l IH]; intros processed acc_rs acc_st final_rs Hdata Hfold Hscan Hstats.
  - injection Hfold as <-. exists acc_st. split; [done|]. split; [done|].
    eapply Forall_impl; [apply Hstats|]. by intros r [_ ?].
  - cbn [foldl mbind result_bind fst snd] in Hfold.
    destruct (Agent.source_step w date_str current_date acc_rs sid fl) as [acc'|e] eqn:Hstep.
    2:{ by rewrite foldl_Raise in Hfold. }
    assert (Hin : (sid, fl) ∈ files_data).
    { rewrite Hdata. apply elem_of_app. right. by left. }
    assert (Hfresh : sid ∉ processed.*1).
    { rewrite Hdata, fmap_app, fmap_cons in Hnd.
      apply NoDup_app in Hnd as (_ & Hdisj & _). intros Hp.
      apply (Hdisj sid Hp). by left. }
    assert (Hfiles : AgentTools.get_daily_files w date_str sid
                     = List.filter (λ f, PyStr.startswith date_str (uploaded_at f)) fl).
    { unfold AgentTools.get_daily_files. rewrite Hfolder.
      by rewrite (od_get_NoDup sid fl files_data Hnd Hin). }
    assert (Hkeys : Forall (λ item, item.1 ∈ processed.*1) (AgentTools.scan_results acc_st)).
    { clear -Hscan Hstats. induction Hscan as [|r item rs items [Hid _] _ IHs]; [constructor|].
      apply Forall_cons in Hstats as [[Hr _] Hstats]. constructor; [by rewrite <- Hid | by apply IHs]. }
    rewrite fmap_cons. cbn [foldl fst snd].
    apply source_step_Ok in Hstep
      as [[Hnone ->] | (content & cv & r & Hcv & Hparse & Hr & ->)].
    + (* no profile: the counts are stored, the incidents are not *)
      rewrite (check_anomalies_no_profile w date_str sid acc_st Hnone).
      eapply (IH (processed ++ [(sid, fl)])); [by rewrite <- app_assoc | exact Hfold | done |].
      cbn [AgentTools.source_stats]. eapply Forall_impl; [apply Hstats|].
      intros r [Hr Hlook]. split; [rewrite fmap_app; apply elem_of_app; by left|].
      rewrite lookup_insert_ne; [done|]. by intros ->.
    + destruct (check_anomalies_profile w date_str sid acc_st content cv current_date
                  Hcv Hparse Hdate) as (found & text & Hfound & ->).
      apply analyze_source_Ok in Hr as (incidents & Hrun & ->).
      rewrite Hfiles in Hfound |- *.
      destruct (tools_detectors
                  (List.filter (λ f, PyStr.startswith date_str (uploaded_at f)) fl)
                  cv current_date) as (found' & Hfound' & _ & Hperm).
      assert (found' = found) as -> by congruence.
      rewrite od_set_fresh.
      2:{ intros (item & -> & Hitem)%list_elem_of_fmap.
          rewrite Forall_forall in Hkeys. by apply Hfresh, (Hkeys item). }
      eapply (IH (processed ++ [(sid, fl)])); [by rewrite <- app_assoc | exact Hfold | |].
      * cbn [AgentTools.scan_results]. apply Forall2_app; [done|].
        constructor; [|constructor]. split; [done|]. cbn [snd sr_incidents
          ReportGenerator.consolidate_source]. by apply Hperm.
      * cbn [AgentTools.source_stats]. apply Forall_app. split.
        -- eapply Forall_impl; [apply Hstats|].
           intros r [Hr Hlook]. split; [rewrite fmap_app; apply elem_of_app; by left|].
           rewrite lookup_insert_ne; [done|]. by intros ->.
        -- constructor; [|constructor]. split.
           ++ rewrite fmap_app. apply elem_of_app. right. by left.
           ++ cbn [sr_source_id ReportGenerator.consolidate_source processed_files_count
                     total_rows]. by rewrite lookup_insert_eq.
Qed.

(** X21.  When the pipeline returns a report for a date, the scan of the
    ReAct agent's tools runs through without an exception and sees the same
    sources in the same order, with the same file counts and row totals.
    For each source it keeps the missing-file, volume and empty-file
    incidents of the report and nothing else. *)
Theorem scan_matches_pipeline w date_str report :
  Agent.run w date_str = Ok report →
  (∀ folder data, AgentTools.target_folder w date_str = Some (folder, data) →
     NoDup data.*1) →
  ∃ st,
    AgentTools.scan_day_incidents_state w date_str = (st, None)
    ∧ Forall2 scanned (sources report) (AgentTools.scan_results st)
    ∧ Forall (λ r, AgentTools.source_stats st !! sr_source_id r
                   = Some (processed_files_count r, total_rows r)) (sources report).
Proof.
  intros (folder & files_data & current_date & Hfind & Hdate & Hfold & _)%run_Ok Hnd.
  unfold AgentTools.scan_day_incidents_state, AgentTools.list_sources_for_date.
  assert (Hfolder : AgentTools.target_folder w date_str = Some (folder, files_data)) by done.
  rewrite Hfolder.
  apply (scan_fold w date_str current_date folder files_data Hfolder
           (Hnd _ _ Hfolder) Hdate files_data [] [] (AgentTools.mk_state [] ∅) (sources report));
    [done | done | constructor | constructor].
Qed.

Lemma scan_matches_pipeline_witness :
  ∃ report,
    Agent.run (Sample.world Sample.monday) "2025-09-08" = Ok report
    ∧ ∃ st,
        AgentTools.scan_day_incidents_state (Sample.world Sample.monday) "2025-09-08"
        = (st, None)
        ∧ Forall2 scanned (sources report) (AgentTools.scan_results st)
        ∧ Forall (λ r, AgentTools.source_stats st !! sr_source_id r
                       = Some (processed_files_count r, total_rows r)) (sources report).
Proof.
  eexists. split; [vm_compute; reflexivity|].
  apply (scan_matches_pipeline (Sample.world Sample.monday) "2025-09-08").
  - vm_compute. reflexivity.
  - intros folder data H. vm_compute in H. injection H as _ <-.
    apply NoDup_cons. split; [|apply NoDup_singleton].
    intros H%list_elem_of_singleton. discriminate H.
Defined.

(** ** One malformed profile stops the run *)

Lemma foldl_bind_stops {A B} (g : A → B → result A) (l : list B) init x :
  x ∈ l →
  (∀ a, ∃ e, g a x = Raise e) →
  ∃ e, foldl (λ acc y, acc ≫= λ a, g a y) (Ok init) l = Raise e.
Proof.
  intros Hin Hx. revert init. induction l as [|y l IH]; intros init.
  - by apply elem_of_nil in Hin.
  - simpl. destruct (g init y) as [a'|e] eqn:Hg.
    + apply elem_of_cons in Hin as [-> | Hin]; [|by apply IH].
      destruct (Hx init) as [e He]. congruence.
    + exists e. apply foldl_Raise.
Qed.

(** X22.  The pipeline is all or nothing: when the parser stops with an
    exception on the profile document, in ASCII characters, of one source
    listed for the day (an upload-window cell that does not split in two at
    its hyphen, an entity table without its header row, a median that is no
    number), the run raises an exception and no source is reported, the
    sound ones included. *)
Theorem run_aborts_on_bad_profile w date_str content e :
  listed_profile w date_str content →
  isascii content = true →
  CVParser.parse_content content = Raise e →
  ∃ e', Agent.run w date_str = Raise e'.
Proof.
  intros (folder & files_data & sid & Hfind & Hsid & Hcv) _ Hparse.
  unfold Agent.run. rewrite Hfind.
  destruct (PyDatetime.strptime_Y_m_d date_str) as [current_date|e0]; [|by exists e0].
  cbn [mbind result_bind].
  apply list_elem_of_fmap in Hsid as ([sid' fl] & -> & Hin).
  destruct (foldl_bind_stops
              (λ rs (x : string * list FileMetadata),
                 Agent.source_step w date_str current_date rs x.1 x.2)
              files_data [] (sid', fl) Hin) as [e' He'].
  { intros rs. exists e. unfold Agent.source_step, CVParser.parse. cbn [fst snd] in *.
    by rewrite Hcv, Hparse. }
  exists e'.
  assert (Hform : foldl (λ (acc : result (list SourceReport)) '(source_id, file_list),
                      acc ≫= λ source_reports,
                        Agent.source_step w date_str current_date source_reports
                          source_id file_list) (Ok []) files_data
                  = foldl (λ acc x, acc ≫= λ rs,
                             Agent.source_step w date_str current_date rs x.1 x.2)
                      (Ok []) files_data).
  { generalize (Ok [] : result (list SourceReport)). clear.
    induction files_data as [|[s f] l IH]; intros acc; [done|]. simpl. apply IH. }
  rewrite Hform, He'. done.
Qed.

Lemma run_aborts_on_bad_profile_witness :
  ∃ e',
    Agent.run
      (Agent.mk_World Sample.monday
         [("2025-09-08_20_00_UTC", [("207936", [Sample.monday_file]); ("5", [])])]
         {["207936_native.md" := Sample.profile_doc;
           "5_native.md" := Sample.two_hyphens_doc]})
      "2025-09-08" = Raise e'.
Proof.
  apply (run_aborts_on_bad_profile _ "2025-09-08" Sample.two_hyphens_doc ValueError).
  - exists "2025-09-08_20_00_UTC", [("207936", [Sample.monday_file]); ("5", [])], "5".
    split; [vm_compute; reflexivity|]. split; [|vm_compute; reflexivity].
    apply list_elem_of_In. simpl. tauto.
  - vm_compute. reflexivity.
  - vm_compute. reflexivity.
Defined.
